(** * Sakhi: chat session and authentication synchronisation core

    A shallow embedding of the client-side core of the Sakhi chat
    application: the request executor of [services/api.ts]
    ([ApiService]), the authentication controller of
    [contexts/AuthContext.tsx] ([AuthProvider]) and the chat state
    machine of [contexts/ChatContext.tsx] ([ChatProvider]).

    Asynchronous functions are embedded in a state-and-exception monad
    over a [World] that holds the [ApiService] fields, [localStorage],
    the React state of both providers and a log of every [fetch] issued.
    An [await] is sequential composition: one operation runs from its
    call to its settlement without another one interleaved.  The server,
    the wall clock, [Math.random] and [uuidv4] are oracles of an
    environment [Env]. *)

From Stdlib Require Import String Ascii List ZArith QArith Qround Qabs Qpower.
From Stdlib Require Import Bool Lia Lqa.
From Stdlib Require PrimFloat FloatOps SpecFloat.
From Stdlib Require Import DecimalString DecimalZ DecimalPos DecimalFacts.
From stdpp Require Import base strings gmap.
Import ListNotations.

Local Open Scope string_scope.
Local Open Scope list_scope.
Local Open Scope Z_scope.

(** ** JavaScript primitives *)

Module Js.

(** Strings are sequences of code units; [String.string] stands for
    them.  [startsWith], [slice], [includes] and concatenation act on
    the units one by one, whatever the alphabet. *)

(** [s.startsWith(p)] *)
Definition startsWith (s p : string) : bool := String.prefix p s.

(** [s.includes(sub)] *)
Definition includes (s sub : string) : bool :=
  match index 0 sub s with Some _ => true | None => false end.

(** [s.slice(0, n)] *)
Definition slice0 (s : string) (n : nat) : string := substring 0 n s.

(** Truthiness of a [string | null] value: [null] and the empty
    string are falsy. *)
Definition truthy (v : option string) : bool :=
  match v with
  | Some s => negb (String.eqb s "")
  | None => false
  end.

(** A template literal [`${v}`] for a [string | null] value. *)
Definition template (v : option string) : string :=
  match v with Some s => s | None => "null" end.

(** Numbers.  Session and message ids are integers; a [number] that
    may be [NaN] (the result of [parseInt]) is an [option Z].  The
    rounding of doubles beyond 2^53 is not part of the model. *)
Definition toString (n : Z) : string := NilZero.string_of_int (Z.to_int n).

Definition numberTemplate (n : option Z) : string :=
  match n with Some z => toString z | None => "NaN" end.

Definition isWhiteSpace (c : ascii) : bool :=
  let n := nat_of_ascii c in
  ((9 <=? n)%nat && (n <=? 13)%nat) || (n =? 32)%nat.

Fixpoint trimStart (s : string) : string :=
  match s with
  | String c s' => if isWhiteSpace c then trimStart s' else s
  | EmptyString => s
  end.

Definition digitValue (c : ascii) : option Z :=
  let n := Z.of_nat (nat_of_ascii c) in
  if (48 <=? n) && (n <=? 57) then Some (n - 48)
  else if (97 <=? n) && (n <=? 122) then Some (n - 87)
  else if (65 <=? n) && (n <=? 90) then Some (n - 55)
  else None.

(** The longest prefix of digits of the radix, read most significant
    first; [acc] is [None] until a digit has been read. *)
Fixpoint readDigits (radix : Z) (s : string) (acc : option Z) : option Z :=
  match s with
  | String c s' =>
      match digitValue c with
      | Some d =>
          if d <? radix
          then readDigits radix s'
                 (Some (match acc with Some a => a * radix + d | None => d end))
          else acc
      | None => acc
      end
  | EmptyString => acc
  end.

(** The digits after the sign: an optional [0x] prefix selects
    radix 16. *)
Definition parseMagnitude (s : string) : option Z :=
  match s with
  | String "0" (String "x" r) => readDigits 16 r None
  | String "0" (String "X" r) => readDigits 16 r None
  | _ => readDigits 10 s None
  end.

(** [parseInt(s)] with no radix argument: leading white space, an
    optional sign, then the magnitude, read up to the first character
    that is no digit.  [None] is [NaN]. *)
Definition parseInt (s : string) : option Z :=
  match trimStart s with
  | String "-" r => option_map Z.opp (parseMagnitude r)
  | String "+" r => parseMagnitude r
  | s1 => parseMagnitude s1
  end.

(** Doubles.  A [number] is a binary64 value.  The finite ones are
    rationals, and [*] and [+] on them are the product and the sum of
    the rationals followed by the rounding to the nearest double, the
    one with the even last place when two are as near.  Overflow to an
    infinity is not part of the model: the operands the program has
    are below 2^12. *)

(** [Math.floor(Math.log2(x))] of a positive rational, exactly. *)
Definition ilog2 (x : Q) : Z :=
  let l := Z.log2 (Qnum x) - Z.log2 (Zpos (Qden x)) in
  if Qle_bool (2 ^ l) x then l else l - 1.

(** The exponent of the unit in the last place of the doubles of the
    magnitude of [x]: 52 binary places below the leading one, and
    -1074 for the subnormal numbers. *)
Definition ulpExponent (x : Q) : Z := Z.max (ilog2 (Qabs x) - 52) (-1074).

(** The integer nearest to [y], the even one of the two when [y] is
    half way between them. *)
Definition roundHalfEven (y : Q) : Z :=
  let f := Qfloor y in
  match (y - inject_Z f ?= 1 # 2)%Q with
  | Lt => f
  | Gt => f + 1
  | Eq => if Z.even f then f else f + 1
  end.

(** The double nearest to [x]. *)
Definition binary64 (x : Q) : Q :=
  let e := ulpExponent x in
  (inject_Z (roundHalfEven (x / 2 ^ e)) * 2 ^ e)%Q.


(** [x * y] and [x + y] *)
Definition mul (x y : Q) : Q := binary64 (x * y).

Definition add (x y : Q) : Q := binary64 (x + y).

(** Exceptions: the three classes the program meets. *)
Inductive JsError : Type :=
| Error (message : string)
| TypeError (message : string)
| SyntaxError (message : string).

Definition message (e : JsError) : string :=
  match e with Error m | TypeError m | SyntaxError m => m end.

Definition isTypeError (e : JsError) : bool :=
  match e with TypeError _ => true | _ => false end.

(** [Date]: either built from the clock, [new Date()], or from a
    string of the server, [new Date(s)], whose parse is left
    symbolic. *)
Inductive Date : Type :=
| DateOfMillis (ms : Z)
| DateOfString (s : string).

End Js.

(** ** Data model *)

(** [services/api.ts] *)
Record User : Type := mkUser {
  user_id : Z;
  user_email : string;
  user_username : string;
  user_is_active : bool;
  user_is_verified : bool;
  user_created_at : string;
}.

Record AuthResponse : Type := mkAuthResponse {
  access_token : string;
  refresh_token : string;
  token_type : string;
}.

Record ChatSession : Type := mkChatSession {
  session_id : Z;
  session_title : string;
  session_created_at : string;
  session_updated_at : string;
}.

Record ApiMessage : Type := mkApiMessage {
  api_id : Z;
  api_content : string;
  is_user_message : bool;
  api_timestamp : string;
}.

(** [types/index.ts] *)
Inductive Role : Type := RoleUser | RoleAssistant.

Record Message : Type := mkMessage {
  m_id : string;
  m_content : string;
  m_role : Role;
  m_timestamp : Js.Date;
}.

Record ChatHistory : Type := mkChatHistory {
  h_id : string;
  h_title : string;
  h_messages : list Message;
  h_createdAt : Js.Date;
  h_updatedAt : Js.Date;
}.

(** ** The network *)

Inductive Method : Type := GET | POST | DELETE | PATCH.

(** The argument of [JSON.stringify] in a request body. *)
Inductive Body : Type :=
| BodyCredentials (email password : string)
| BodyRegister (email username password : string)
| BodyRefresh (refresh_token : string)
| BodyTitle (title : string)
| BodyContent (content : string).

(** The [options] argument of [ApiService.request]; no caller passes
    headers. *)
Record RequestInit : Type := mkRequestInit {
  ri_method : option Method;
  ri_body : option Body;
}.

(** One call of [fetch(url, config)]. *)
Record FetchCall : Type := mkFetchCall {
  fc_url : string;
  fc_method : Method;
  fc_authorization : option string;
  fc_body : option Body;
}.

(** The JSON value of a response body, by the TypeScript type its call
    site declares. *)
Inductive Payload : Type :=
| PAuth (r : AuthResponse)
| PUser (u : User)
| PSessions (l : list ChatSession)
| PSession (s : ChatSession)
| PMessages (l : list ApiMessage)
| PChat (message : string)
| PTitle (title : string)
| PDetail (detail : string)
| PEmpty.

(** A [Response]: [json] is [None] when the body is not JSON, so that
    [response.json()] rejects. *)
Record Response : Type := mkResponse {
  status : Z;
  json : option Payload;
}.

Definition ok (r : Response) : bool := (200 <=? status r) && (status r <=? 299).

Inductive FetchResult : Type :=
| FetchRejects (e : Js.JsError)
| FetchResolves (r : Response).

(** The environment: what the program reads from outside.  The server
    answers a call knowing the calls made before it (newest first).
    The values of [Math.random()] are doubles, held as the rationals
    they are. *)
Record Env : Type := mkEnv {
  API_BASE_URL : string;
  server : list FetchCall -> FetchCall -> FetchResult;
  clock : nat -> Z;
  mathRandom : nat -> Q;
  uuidv4 : nat -> string;
}.

(** ** The world *)

Record World : Type := mkWorld {
  (* ApiService *)
  accessToken : option string;
  localStorage : gmap string string;
  (* the outside: calls of [fetch] (newest first), delays passed to
     [setTimeout] (newest first), number of oracle reads so far *)
  net_log : list FetchCall;
  timers : list Q;
  ticks : nat;
  (* AuthProvider *)
  user : option User;
  auth_isLoading : bool;
  auth_error : option string;
  (* ChatProvider *)
  chatHistories : list ChatHistory;
  currentChat : option ChatHistory;
  chat_isLoading : bool;
}.

Definition with_accessToken (v : option string) (w : World) : World :=
  mkWorld v (localStorage w) (net_log w) (timers w) (ticks w)
    (user w) (auth_isLoading w) (auth_error w)
    (chatHistories w) (currentChat w) (chat_isLoading w).

Definition with_localStorage (v : gmap string string) (w : World) : World :=
  mkWorld (accessToken w) v (net_log w) (timers w) (ticks w)
    (user w) (auth_isLoading w) (auth_error w)
    (chatHistories w) (currentChat w) (chat_isLoading w).

Definition with_net_log (v : list FetchCall) (w : World) : World :=
  mkWorld (accessToken w) (localStorage w) v (timers w) (ticks w)
    (user w) (auth_isLoading w) (auth_error w)
    (chatHistories w) (currentChat w) (chat_isLoading w).

Definition with_timers (v : list Q) (w : World) : World :=
  mkWorld (accessToken w) (localStorage w) (net_log w) v (ticks w)
    (user w) (auth_isLoading w) (auth_error w)
    (chatHistories w) (currentChat w) (chat_isLoading w).

Definition with_ticks (v : nat) (w : World) : World :=
  mkWorld (accessToken w) (localStorage w) (net_log w) (timers w) v
    (user w) (auth_isLoading w) (auth_error w)
    (chatHistories w) (currentChat w) (chat_isLoading w).

Definition with_user (v : option User) (w : World) : World :=
  mkWorld (accessToken w) (localStorage w) (net_log w) (timers w) (ticks w)
    v (auth_isLoading w) (auth_error w)
    (chatHistories w) (currentChat w) (chat_isLoading w).

Definition with_auth_isLoading (v : bool) (w : World) : World :=
  mkWorld (accessToken w) (localStorage w) (net_log w) (timers w) (ticks w)
    (user w) v (auth_error w)
    (chatHistories w) (currentChat w) (chat_isLoading w).

Definition with_auth_error (v : option string) (w : World) : World :=
  mkWorld (accessToken w) (localStorage w) (net_log w) (timers w) (ticks w)
    (user w) (auth_isLoading w) v
    (chatHistories w) (currentChat w) (chat_isLoading w).

Definition with_chatHistories (v : list ChatHistory) (w : World) : World :=
  mkWorld (accessToken w) (localStorage w) (net_log w) (timers w) (ticks w)
    (user w) (auth_isLoading w) (auth_error w)
    v (currentChat w) (chat_isLoading w).

Definition with_currentChat (v : option ChatHistory) (w : World) : World :=
  mkWorld (accessToken w) (localStorage w) (net_log w) (timers w) (ticks w)
    (user w) (auth_isLoading w) (auth_error w)
    (chatHistories w) v (chat_isLoading w).

Definition with_chat_isLoading (v : bool) (w : World) : World :=
  mkWorld (accessToken w) (localStorage w) (net_log w) (timers w) (ticks w)
    (user w) (auth_isLoading w) (auth_error w)
    (chatHistories w) (currentChat w) v.

(** ** The monad of asynchronous functions *)

(** Why a run stops without settling: the recursion bound of
    [ApiService.request] is used up, or a response does not inhabit the
    TypeScript type its call site casts it to (the program has no
    defined behaviour of its own there). *)
Inductive Halt : Type := OutOfFuel | IllTyped.

Inductive Outcome (A : Type) : Type :=
| Resolved (a : A)
| Rejected (e : Js.JsError)
| Unsettled (why : Halt).

Arguments Resolved {A} a.
Arguments Rejected {A} e.
Arguments Unsettled {A} why.

Definition M (A : Type) : Type := World -> Outcome A * World.

Definition ret {A} (a : A) : M A := fun w => (Resolved a, w).

Definition throw {A} (e : Js.JsError) : M A := fun w => (Rejected e, w).

Definition halt {A} (why : Halt) : M A := fun w => (Unsettled why, w).

Definition bind {A B} (m : M A) (k : A -> M B) : M B :=
  fun w =>
    match m w with
    | (Resolved a, w') => k a w'
    | (Rejected e, w') => (Rejected e, w')
    | (Unsettled why, w') => (Unsettled why, w')
    end.

(** [try { m } catch (e) { handler e }] *)
Definition try_catch {A} (m : M A) (handler : Js.JsError -> M A) : M A :=
  fun w =>
    match m w with
    | (Rejected e, w') => handler e w'
    | r => r
    end.

(** [try { m } finally { f }], for a finaliser that cannot throw. *)
Definition try_finally {A} (m : M A) (f : World -> World) : M A :=
  fun w =>
    match m w with
    | (Resolved a, w') => (Resolved a, f w')
    | (Rejected e, w') => (Rejected e, f w')
    | (Unsettled why, w') => (Unsettled why, w')
    end.

Definition gets {A} (f : World -> A) : M A := fun w => (Resolved (f w), w).

Definition modify (f : World -> World) : M unit := fun w => (Resolved tt, f w).

Declare Scope js_scope.
Delimit Scope js_scope with js.

Notation "x <- m ;; k" := (bind m (fun x => k))
  (at level 100, m at next level, right associativity) : js_scope.
Notation "m ;;; k" := (bind m (fun _ => k))
  (at level 100, right associativity) : js_scope.

Local Open Scope js_scope.

(** Oracle reads: each one consumes a tick. *)
Definition readClock (env : Env) : M Z :=
  fun w => (Resolved (clock env (ticks w)), with_ticks (S (ticks w)) w).

Definition readRandom (env : Env) : M Q :=
  fun w => (Resolved (mathRandom env (ticks w)), with_ticks (S (ticks w)) w).

Definition readUuid (env : Env) : M string :=
  fun w => (Resolved (uuidv4 env (ticks w)), with_ticks (S (ticks w)) w).

(** [new Date()] *)
Definition newDate (env : Env) : M Js.Date :=
  ms <- readClock env ;; ret (Js.DateOfMillis ms).

(** [await new Promise(resolve => setTimeout(resolve, delay))] *)
Definition sleep (delay : Q) : M unit :=
  modify (fun w => with_timers (delay :: timers w) w).

(** [fetch(url, config)] *)
Definition fetch (env : Env) (call : FetchCall) : M Response :=
  fun w =>
    let w' := with_net_log (call :: net_log w) w in
    match server env (net_log w) call with
    | FetchRejects e => (Rejected e, w')
    | FetchResolves r => (Resolved r, w')
    end.

(** ** [services/api.ts]: the token store and the request executor *)

Module Api.

Definition getItem (key : string) : M (option string) :=
  gets (fun w => localStorage w !! key).

Definition setItem (key value : string) : M unit :=
  modify (fun w => with_localStorage (<[key := value]> (localStorage w)) w).

Definition removeItem (key : string) : M unit :=
  modify (fun w => with_localStorage (delete key (localStorage w)) w).

(** [logout()] *)
Definition logout : M unit :=
  modify (with_accessToken None) ;;;
  removeItem "access_token" ;;;
  removeItem "refresh_token".

(** [isAuthenticated()] *)
Definition isAuthenticated (w : World) : bool := Js.truthy (accessToken w).

(** The casts [request<T>]. *)
Definition asAuthResponse (p : Payload) : M AuthResponse :=
  match p with PAuth r => ret r | _ => halt IllTyped end.

Definition asUser (p : Payload) : M User :=
  match p with PUser u => ret u | _ => halt IllTyped end.

Definition asSessions (p : Payload) : M (list ChatSession) :=
  match p with PSessions l => ret l | _ => halt IllTyped end.

Definition asSession (p : Payload) : M ChatSession :=
  match p with PSession s => ret s | _ => halt IllTyped end.

Definition asMessages (p : Payload) : M (list ApiMessage) :=
  match p with PMessages l => ret l | _ => halt IllTyped end.

Definition asChatResponse (p : Payload) : M string :=
  match p with PChat m => ret m | _ => halt IllTyped end.

Definition asTitle (p : Payload) : M string :=
  match p with PTitle t => ret t | _ => halt IllTyped end.

(** [errorData.detail || `HTTP error! status: ${response.status}`],
    with [errorData] the body, or [{}] when it is not JSON. *)
Definition errorMessage (r : Response) : string :=
  let fallback := "HTTP error! status: " +:+ Js.toString (status r) in
  match json r with
  | Some (PDetail d) => if String.eqb d "" then fallback else d
  | _ => fallback
  end.

Definition bearer (token : option string) : string :=
  "Bearer " +:+ Js.template token.

Definition mkCall (env : Env) (endpoint : string) (options : RequestInit)
    (authorization : option string) : FetchCall :=
  mkFetchCall (API_BASE_URL env +:+ endpoint)
    (match ri_method options with Some m => m | None => GET end)
    authorization (ri_body options).

(** [refreshToken()], over the [request] it calls. *)
Definition refreshToken_with
    (request : string -> RequestInit -> M Payload) : M unit :=
  refreshToken <- getItem "refresh_token" ;;
  match refreshToken with
  | Some rt =>
      if Js.truthy refreshToken then
        try_catch
          (p <- request "/auth/refresh"
                  (mkRequestInit (Some POST) (Some (BodyRefresh rt))) ;;
           response <- asAuthResponse p ;;
           modify (with_accessToken (Some (access_token response))) ;;;
           setItem "access_token" (access_token response) ;;;
           setItem "refresh_token" (refresh_token response))
          (fun error => logout ;;; throw error)
      else throw (Js.Error "No refresh token available")
  | None => throw (Js.Error "No refresh token available")
  end.

(** [request<T>(endpoint, options)].  The result of the [try] block
    is the promise [response.json()], returned without [await]: when
    it rejects, it does so past both [catch] clauses. *)
Fixpoint request (env : Env) (fuel : nat) (endpoint : string)
    (options : RequestInit) {struct fuel} : M Payload :=
  match fuel with
  | O => halt OutOfFuel
  | S fuel' =>
      token <- gets accessToken ;;
      let authorization :=
        if Js.truthy token then Some (bearer token) else None in
      parsed <-
        try_catch
          (response <- fetch env (mkCall env endpoint options authorization) ;;
           if negb (ok response) then
             token1 <- gets accessToken ;;
             if (status response =? 401) && Js.truthy token1 then
               refreshToken <- getItem "refresh_token" ;;
               if Js.truthy refreshToken then
                 try_catch
                   (refreshToken_with (request env fuel') ;;;
                    token2 <- gets accessToken ;;
                    retryResponse <-
                      fetch env (mkCall env endpoint options (Some (bearer token2))) ;;
                    if negb (ok retryResponse) then
                      throw (Js.Error ("HTTP error! status: "
                                       +:+ Js.toString (status retryResponse)))
                    else ret (json retryResponse))
                   (fun refreshError =>
                      logout ;;; throw (Js.Error "Authentication failed"))
               else
                 logout ;;; throw (Js.Error "Authentication required")
             else throw (Js.Error (errorMessage response))
           else ret (json response))
          (fun error =>
             if Js.isTypeError error && Js.includes (Js.message error) "fetch"
             then throw (Js.Error
                    ("Backend server is not running. Please check if the backend server is running on "
                     +:+ API_BASE_URL env))
             else throw error) ;;
      match parsed with
      | Some p => ret p
      | None => throw (Js.SyntaxError "Unexpected token in JSON")
      end
  end.

Definition refreshToken (env : Env) (fuel : nat) : M unit :=
  refreshToken_with (request env fuel).

(** Authentication methods *)
Definition login (env : Env) (fuel : nat) (email password : string)
    : M AuthResponse :=
  p <- request env fuel "/auth/login"
         (mkRequestInit (Some POST) (Some (BodyCredentials email password))) ;;
  response <- asAuthResponse p ;;
  modify (with_accessToken (Some (access_token response))) ;;;
  setItem "access_token" (access_token response) ;;;
  setItem "refresh_token" (refresh_token response) ;;;
  ret response.

Definition register (env : Env) (fuel : nat) (email username password : string)
    : M User :=
  p <- request env fuel "/auth/register"
         (mkRequestInit (Some POST) (Some (BodyRegister email username password))) ;;
  asUser p.

Definition getCurrentUser (env : Env) (fuel : nat) : M User :=
  p <- request env fuel "/auth/me" (mkRequestInit None None) ;;
  asUser p.

(** Chat methods *)
Definition sessionPath (sessionId : option Z) : string :=
  "/chat/sessions/" +:+ Js.numberTemplate sessionId.

Definition getChatSessions (env : Env) (fuel : nat) : M (list ChatSession) :=
  p <- request env fuel "/chat/sessions" (mkRequestInit None None) ;;
  asSessions p.

Definition createChatSession (env : Env) (fuel : nat) (title : string)
    : M ChatSession :=
  p <- request env fuel "/chat/sessions"
         (mkRequestInit (Some POST) (Some (BodyTitle title))) ;;
  asSession p.

Definition getChatMessages (env : Env) (fuel : nat) (sessionId : option Z)
    : M (list ApiMessage) :=
  p <- request env fuel (sessionPath sessionId +:+ "/messages")
         (mkRequestInit None None) ;;
  asMessages p.

Definition sendMessage (env : Env) (fuel : nat) (sessionId : option Z)
    (content : string) : M string :=
  p <- request env fuel (sessionPath sessionId +:+ "/messages")
         (mkRequestInit (Some POST) (Some (BodyContent content))) ;;
  asChatResponse p.

(** [deleteChatSession] awaits the request and drops its value. *)
Definition deleteChatSession (env : Env) (fuel : nat) (sessionId : option Z)
    : M unit :=
  _ <- request env fuel (sessionPath sessionId)
         (mkRequestInit (Some DELETE) None) ;;
  ret tt.

Definition updateSessionTitle (env : Env) (fuel : nat) (sessionId : option Z)
    : M string :=
  p <- request env fuel (sessionPath sessionId +:+ "/title")
         (mkRequestInit (Some POST) None) ;;
  asTitle p.

End Api.

(** ** [contexts/AuthContext.tsx]: the authentication controller *)

Module Auth.

(** [const isAuthenticated = !!user && apiService.isAuthenticated()] *)
Definition isAuthenticated (w : World) : bool :=
  (match user w with Some _ => true | None => false end)
  && Api.isAuthenticated w.

(** The message [login] shows for an error it caught. *)
Definition loginMessage (err : Js.JsError) : string :=
  let m := Js.message err in
  if Js.includes m "Backend server is not running"
  then "Backend server is not running. Please start the backend server."
  else if Js.includes m "Authentication required"
  then "Please check your credentials and try again."
  else if Js.includes m "Authentication failed"
  then "Session expired. Please login again."
  else m.

Definition login (env : Env) (fuel : nat) (email password : string) : M unit :=
  try_finally
    (try_catch
       (modify (with_auth_isLoading true) ;;;
        modify (with_auth_error None) ;;;
        _ <- Api.login env fuel email password ;;
        userData <- Api.getCurrentUser env fuel ;;
        modify (with_user (Some userData)))
       (fun err =>
          modify (with_auth_error (Some (loginMessage err))) ;;;
          throw err))
    (with_auth_isLoading false).

Definition register (env : Env) (fuel : nat) (email username password : string)
    : M unit :=
  try_finally
    (try_catch
       (modify (with_auth_isLoading true) ;;;
        modify (with_auth_error None) ;;;
        _ <- Api.register env fuel email username password ;;
        login env fuel email password)
       (fun err =>
          modify (with_auth_error (Some (Js.message err))) ;;;
          throw err))
    (with_auth_isLoading false).

Definition logout : M unit :=
  Api.logout ;;;
  modify (with_user None) ;;;
  modify (with_auth_error None).

(** The effect run once on start: [checkAuth()]. *)
Definition checkAuth (env : Env) (fuel : nat) : M unit :=
  hasToken <- gets Api.isAuthenticated ;;
  (if hasToken then
     try_catch
       (userData <- Api.getCurrentUser env fuel ;;
        modify (with_user (Some userData)))
       (fun err => Api.logout)
   else ret tt) ;;;
  modify (with_auth_isLoading false).

End Auth.

(** ** [contexts/ChatContext.tsx]: the chat state machine

    [isAuthenticated] is the value the provider read from the
    authentication context when it rendered; the callbacks close over
    it, and over [currentChat] and [chatHistories], which an operation
    therefore reads once, when it starts.  Updates of the form
    [setChatHistories(prev => ...)] act on the state of the moment. *)

Module Chat.

Definition setCurrentChat (c : option ChatHistory) : M unit :=
  modify (with_currentChat c).

Definition setChatHistories (f : list ChatHistory -> list ChatHistory) : M unit :=
  modify (fun w => with_chatHistories (f (chatHistories w)) w).

Definition setIsLoading (b : bool) : M unit :=
  modify (with_chat_isLoading b).

(** The conversion of one message of the API, as written in
    [convertApiChatToLocal], [selectChat] and [sendMessage]. *)
Definition convertMessage (msg : ApiMessage) : Message :=
  mkMessage (Js.toString (api_id msg)) (api_content msg)
    (if is_user_message msg then RoleUser else RoleAssistant)
    (Js.DateOfString (api_timestamp msg)).

Definition convertApiChatToLocal (session : ChatSession)
    (messages : list ApiMessage) : ChatHistory :=
  mkChatHistory (Js.toString (session_id session)) (session_title session)
    (List.map convertMessage messages)
    (Js.DateOfString (session_created_at session))
    (Js.DateOfString (session_updated_at session)).

(** [id.startsWith('local-')] *)
Definition isLocal (id : string) : bool := Js.startsWith id "local-".

(** [prev.map(h => h.id === id ? c : h)] *)
Definition replaceById (id : string) (c : ChatHistory)
    (prev : list ChatHistory) : list ChatHistory :=
  List.map (fun h => if String.eqb (h_id h) id then c else h) prev.

(** [chatHistories.find(h => h.id === chatId)] *)
Definition findById (chatId : string) (l : list ChatHistory)
    : option ChatHistory :=
  List.find (fun h => String.eqb (h_id h) chatId) l.

(** [chatHistories.filter(h => h.id !== chatId)] *)
Definition removeById (chatId : string) (l : list ChatHistory)
    : list ChatHistory :=
  List.filter (fun h => negb (String.eqb (h_id h) chatId)) l.

Definition withMessages (c : ChatHistory) (ms : list Message) : ChatHistory :=
  mkChatHistory (h_id c) (h_title c) ms (h_createdAt c) (h_updatedAt c).

Definition loadChatSessions (env : Env) (fuel : nat) (isAuthenticated : bool)
    : M unit :=
  currentChat0 <- gets currentChat ;;
  if negb isAuthenticated then
    setChatHistories (fun _ => []) ;;;
    setCurrentChat None
  else
    try_finally
      (try_catch
         (setIsLoading true ;;;
          sessions <- Api.getChatSessions env fuel ;;
          let histories :=
            List.map (fun session => convertApiChatToLocal session []) sessions in
          setChatHistories (fun _ => histories) ;;;
          match histories, sessions, currentChat0 with
          | mostRecent :: _, session0 :: _, None =>
              messages <-
                Api.getChatMessages env fuel (Js.parseInt (h_id mostRecent)) ;;
              setCurrentChat (Some (convertApiChatToLocal session0 messages))
          | _, _, _ => ret tt
          end)
         (fun error => ret tt))
      (with_chat_isLoading false).

(** The effect on [isAuthenticated]. *)
Definition authEffect (env : Env) (fuel : nat) (isAuthenticated : bool)
    : M unit :=
  if isAuthenticated then loadChatSessions env fuel isAuthenticated
  else
    setChatHistories (List.filter (fun chat => isLocal (h_id chat))) ;;;
    modify (fun w =>
      with_currentChat
        (match currentChat w with
         | Some prev => if isLocal (h_id prev) then Some prev else None
         | None => None
         end) w).

(** The local-only chat built in [createNewChat] and [sendMessage]. *)
Definition newLocalChat (env : Env) : M ChatHistory :=
  now <- readClock env ;;
  created <- newDate env ;;
  updated <- newDate env ;;
  ret (mkChatHistory ("local-" +:+ Js.toString now) "New Conversation" []
         created updated).

Definition createNewChat (env : Env) (fuel : nat) (isAuthenticated : bool)
    : M unit :=
  if negb isAuthenticated then
    newChat <- newLocalChat env ;;
    setChatHistories (fun prev => newChat :: prev) ;;;
    setCurrentChat (Some newChat)
  else
    try_catch
      (session <- Api.createChatSession env fuel "New Conversation" ;;
       let newChat := convertApiChatToLocal session [] in
       setChatHistories (fun prev => newChat :: prev) ;;;
       setCurrentChat (Some newChat))
      (fun error => ret tt).

Definition selectChat (env : Env) (fuel : nat) (isAuthenticated : bool)
    (chatId : string) : M unit :=
  chatHistories0 <- gets chatHistories ;;
  if isLocal chatId then
    match findById chatId chatHistories0 with
    | Some localChat => setCurrentChat (Some localChat)
    | None => ret tt
    end
  else if negb isAuthenticated then ret tt
  else
    try_finally
      (try_catch
         (setIsLoading true ;;;
          messages <- Api.getChatMessages env fuel (Js.parseInt chatId) ;;
          match findById chatId chatHistories0 with
          | Some session =>
              setCurrentChat
                (Some (withMessages session (List.map convertMessage messages)))
          | None => ret tt
          end)
         (fun error => ret tt))
      (with_chat_isLoading false).

(** The three canned replies of the anonymous mode, character for
    character as the source file has them between its back quotes; a
    character outside ASCII is held as the bytes of its UTF-8
    encoding.  The program appends a reply to a session and does
    nothing else with it. *)
Definition mockResponses : list string :=
  [ "Hello! I'm Sakhi, your AI assistant! ðŸ¤–âœ¨

**What I can help you with:**
- Answer questions on various topics ðŸ§ 
- Help with coding and programming ðŸ’»
- Provide explanations and tutorials ðŸ“–
- Assist with creative writing and ideas ðŸ’¡

To unlock full features and save your conversations, consider signing in! Your chats will be preserved across sessions. ðŸ”";
    "Hi there! Welcome to Sakhi! ðŸŒŸ I'm here to help you with whatever you need.

**I can assist with:**
- General knowledge questions ðŸ“š
- Programming and technical help ðŸ”§
- Creative writing and brainstorming ðŸŽ¨
- Learning new concepts ðŸŽ“

For the best experience, consider creating an account to save your conversation history! âœ¨";
    "Hey! Great to meet you! I'm Sakhi, your friendly AI companion. ðŸ¤—

**Here's what I can do:**
- Answer complex questions with detailed explanations ðŸ§
- Help with problem-solving and analysis ðŸ”
- Provide writing assistance and feedback âœï¸
- Code review and programming help ðŸ‘¨â€ðŸ’»

Create an account to save your chat history and unlock premium features! ðŸš€" ].

(** [mockResponses[Math.floor(r * mockResponses.length)]], for [r]
    the value of [Math.random()]; [None] is [undefined]. *)
Definition pickResponse (r : Q) : option string :=
  let index :=
    Qfloor (Js.mul r (inject_Z (Z.of_nat (List.length mockResponses)))) in
  if index <? 0 then None else nth_error mockResponses (Z.to_nat index).

(** Step 1 of [sendMessage]: the chat the message goes to, created
    when none is current; [None] is the early [return]. *)
Definition resolveTarget (env : Env) (fuel : nat) (isAuthenticated : bool)
    : M (option ChatHistory) :=
  currentChat0 <- gets currentChat ;;
  match currentChat0 with
  | Some targetChat => ret (Some targetChat)
  | None =>
      if isAuthenticated then
        try_catch
          (session <- Api.createChatSession env fuel "New Conversation" ;;
           let targetChat := convertApiChatToLocal session [] in
           setChatHistories (fun prev => targetChat :: prev) ;;;
           setCurrentChat (Some targetChat) ;;;
           ret (Some targetChat))
          (fun error => ret None)
      else
        targetChat <- newLocalChat env ;;
        setChatHistories (fun prev => targetChat :: prev) ;;;
        setCurrentChat (Some targetChat) ;;;
        ret (Some targetChat)
  end.

(** The title of the optimistic copy. *)
Definition speculativeTitle (targetChat : ChatHistory) (content : string)
    : string :=
  if (List.length (h_messages targetChat) =? 0)%nat
  then Js.slice0 content 30 +:+ "..."
  else h_title targetChat.

(** Step 2: the optimistic update. *)
Definition optimisticAppend (env : Env) (targetChat : ChatHistory)
    (content : string) : M ChatHistory :=
  uid <- readUuid env ;;
  sent <- newDate env ;;
  let userMessage := mkMessage uid content RoleUser sent in
  updated <- newDate env ;;
  let updatedChat :=
    mkChatHistory (h_id targetChat) (speculativeTitle targetChat content)
      (h_messages targetChat ++ [userMessage])
      (h_createdAt targetChat) updated in
  setCurrentChat (Some updatedChat) ;;;
  setChatHistories (replaceById (h_id targetChat) updatedChat) ;;;
  ret updatedChat.

(** Steps 3 and 4: the body of the [try] block. *)
Definition dispatch (env : Env) (fuel : nat) (isAuthenticated : bool)
    (targetChat updatedChat : ChatHistory) (content : string) : M unit :=
  if isAuthenticated && negb (isLocal (h_id targetChat)) then
    let sessionId := Js.parseInt (h_id targetChat) in
    _ <- Api.sendMessage env fuel sessionId content ;;
    updatedMessages <- Api.getChatMessages env fuel sessionId ;;
    updated <- newDate env ;;
    let finalChat :=
      mkChatHistory (h_id updatedChat) (h_title updatedChat)
        (List.map convertMessage updatedMessages)
        (h_createdAt updatedChat) updated in
    setCurrentChat (Some finalChat) ;;;
    setChatHistories (replaceById (h_id targetChat) finalChat) ;;;
    if (List.length (h_messages targetChat) =? 0)%nat then
      try_catch
        (title <- Api.updateSessionTitle env fuel sessionId ;;
         let chatWithTitle :=
           mkChatHistory (h_id finalChat) title (h_messages finalChat)
             (h_createdAt finalChat) (h_updatedAt finalChat) in
         setCurrentChat (Some chatWithTitle) ;;;
         setChatHistories (replaceById (h_id targetChat) chatWithTitle))
        (fun titleError => ret tt)
    else ret tt
  else
    r <- readRandom env ;;
    match pickResponse r with
    | Some randomResponse =>
        r' <- readRandom env ;;
        sleep (Js.add 1000 (Js.mul r' 2000)) ;;;
        uid <- readUuid env ;;
        sent <- newDate env ;;
        let aiMessage := mkMessage uid randomResponse RoleAssistant sent in
        updated <- newDate env ;;
        let finalChat :=
          mkChatHistory (h_id updatedChat) (h_title updatedChat)
            (h_messages updatedChat ++ [aiMessage])
            (h_createdAt updatedChat) updated in
        setCurrentChat (Some finalChat) ;;;
        setChatHistories (replaceById (h_id targetChat) finalChat)
    | None => halt IllTyped
    end.

(** Step 5: the [catch] clause. *)
Definition rollback (targetChat : ChatHistory) : M unit :=
  setCurrentChat (Some targetChat) ;;;
  setChatHistories (replaceById (h_id targetChat) targetChat).

Definition sendMessage (env : Env) (fuel : nat) (isAuthenticated : bool)
    (content : string) : M unit :=
  target <- resolveTarget env fuel isAuthenticated ;;
  match target with
  | Some targetChat =>
      updatedChat <- optimisticAppend env targetChat content ;;
      try_catch
        (dispatch env fuel isAuthenticated targetChat updatedChat content)
        (fun error => rollback targetChat)
  | None => ret tt
  end.

(** What [deleteChat] does to the state once the chat may go. *)
Definition removeChat (chatId : string)
    (chatHistories0 : list ChatHistory) (currentChat0 : option ChatHistory)
    : M unit :=
  let updatedHistories := removeById chatId chatHistories0 in
  setChatHistories (fun _ => updatedHistories) ;;;
  match currentChat0 with
  | Some c =>
      if String.eqb (h_id c) chatId
      then setCurrentChat (List.head updatedHistories)
      else ret tt
  | None => ret tt
  end.

Definition deleteChat (env : Env) (fuel : nat) (isAuthenticated : bool)
    (chatId : string) : M unit :=
  chatHistories0 <- gets chatHistories ;;
  currentChat0 <- gets currentChat ;;
  if isLocal chatId then removeChat chatId chatHistories0 currentChat0
  else if negb isAuthenticated then ret tt
  else
    try_catch
      (Api.deleteChatSession env fuel (Js.parseInt chatId) ;;;
       removeChat chatId chatHistories0 currentChat0)
      (fun error => ret tt).

End Chat.

(** ** Vocabulary of the statements *)

(** A relation between the world before and the world after holds of
    every run of [m]. *)
Definition stable {A} (R : World -> World -> Prop) (m : M A) : Prop :=
  forall w, R w (snd (m w)).

(** What the request executor may write: the access token, the
    storage and the log of calls.  Everything else is as before. *)
Definition api_frame (w w' : World) : Prop :=
  timers w' = timers w /\ ticks w' = ticks w /\
  user w' = user w /\ auth_isLoading w' = auth_isLoading w /\
  auth_error w' = auth_error w /\
  chatHistories w' = chatHistories w /\ currentChat w' = currentChat w /\
  chat_isLoading w' = chat_isLoading w.

(** The log of calls only grows. *)
Definition net_extends (w w' : World) : Prop :=
  exists l, net_log w' = l ++ net_log w.

(** The run starts by issuing [c], whatever it issues after it. *)
Definition issues_first (c : FetchCall) (w w' : World) : Prop :=
  exists l, net_log w' = l ++ c :: net_log w.

(** The sessions of the directory keep their ids, place by place. *)
Definition ids_kept (w w' : World) : Prop :=
  List.map h_id (chatHistories w') = List.map h_id (chatHistories w).

(** The directory keeps its ids, and a current session of id [id]
    gives way only to a session of the same id. *)
Definition keeps_session (id : string) (w w' : World) : Prop :=
  ids_kept w w' /\
  (option_map h_id (currentChat w) = Some id ->
   option_map h_id (currentChat w') = Some id).

(** The call an operation on a session starts with on its remote
    path, for the token held in [w]. *)
Definition sessionCall (env : Env) (w : World) (method : Method)
    (endpoint : string) (body : option Body) : FetchCall :=
  Api.mkCall env endpoint (mkRequestInit (Some method) body)
    (if Js.truthy (accessToken w) then Some (Api.bearer (accessToken w)) else None).

(** The directory is the same list. *)
Definition same_directory (w w' : World) : Prop :=
  chatHistories w' = chatHistories w.

(** The calls made to the refresh endpoint. *)
Definition isRefreshCall (env : Env) (c : FetchCall) : bool :=
  String.eqb (fc_url c) (API_BASE_URL env +:+ "/auth/refresh").

Definition refreshCalls (env : Env) (w : World) : nat :=
  List.length (List.filter (isRefreshCall env) (net_log w)).

(** The Token Store holds nothing. *)
Definition tokenStoreEmpty (w : World) : Prop :=
  accessToken w = None /\
  localStorage w !! "access_token" = None /\
  localStorage w !! "refresh_token" = None.


(** ** Sample environments and worlds *)

Module Demo.

Definition base : string := "http://localhost:8000".

Definition session5 : ChatSession :=
  mkChatSession 5 "Trip plans" "2024-05-01T10:00:00" "2024-05-02T09:30:00".

Definition serverLog : list ApiMessage :=
  [ mkApiMessage 11 "Where to?" true "2024-05-01T10:00:01";
    mkApiMessage 12 "Lisbon." false "2024-05-01T10:00:03" ].

Definition reply (code : Z) (p : Payload) : FetchResult :=
  FetchResolves (mkResponse code (Some p)).

(** A backend with one session, number 5. *)
Definition chatServer (past : list FetchCall) (call : FetchCall) : FetchResult :=
  let url := fc_url call in
  if String.eqb url (base +:+ "/chat/sessions") then
    match fc_method call with
    | GET => reply 200 (PSessions [session5])
    | POST => reply 200 (PSession session5)
    | _ => reply 405 (PDetail "Method Not Allowed")
    end
  else if String.eqb url (base +:+ "/chat/sessions/5/messages") then
    match fc_method call with
    | GET => reply 200 (PMessages serverLog)
    | POST => reply 200 (PChat "Lisbon.")
    | _ => reply 405 (PDetail "Method Not Allowed")
    end
  else if String.eqb url (base +:+ "/chat/sessions/5/title") then
    reply 200 (PTitle "A trip to Lisbon")
  else if String.eqb url (base +:+ "/chat/sessions/5") then
    reply 200 PEmpty
  else if String.eqb url (base +:+ "/auth/me") then
    reply 200 (PUser (mkUser 1 "asha@example.org" "asha" true true "2024-01-01"))
  else reply 404 (PDetail "Not Found").

(** A backend that is up and fails every call. *)
Definition brokenServer (past : list FetchCall) (call : FetchCall) : FetchResult :=
  reply 500 (PDetail "Internal Server Error").

(** A backend for which both tokens of the client have expired: it
    answers every call, the refresh call included, with 401. *)
Definition expiredServer (past : list FetchCall) (call : FetchCall) : FetchResult :=
  reply 401 (PDetail "Could not validate credentials").

(** A backend that answers the two first calls it receives with 401
    and serves every later one. *)
Definition recoveringServer (past : list FetchCall) (call : FetchCall)
    : FetchResult :=
  if (List.length past <? 2)%nat
  then reply 401 (PDetail "Could not validate credentials")
  else if String.eqb (fc_url call) (base +:+ "/auth/refresh")
  then reply 200 (PAuth (mkAuthResponse "access-2" "refresh-2" "bearer"))
  else reply 200 (PUser (mkUser 1 "asha@example.org" "asha" true true "2024-01-01")).

(** A backend for which the access token alone has expired: it
    answers the first call it receives with 401, the refresh call with
    a new pair of tokens and every other call with the profile. *)
Definition staleAccessServer (past : list FetchCall) (call : FetchCall)
    : FetchResult :=
  if (List.length past <? 1)%nat
  then reply 401 (PDetail "Could not validate credentials")
  else if String.eqb (fc_url call) (base +:+ "/auth/refresh")
  then reply 200 (PAuth (mkAuthResponse "access-2" "refresh-2" "bearer"))
  else reply 200 (PUser (mkUser 1 "asha@example.org" "asha" true true "2024-01-01")).

Definition envOf (srv : list FetchCall -> FetchCall -> FetchResult) : Env :=
  mkEnv base srv
    (fun k => 1700000000000 + Z.of_nat k)
    (fun k => 1 # 2)
    (fun k => "uuid-" +:+ Js.toString (Z.of_nat k)).

Definition env : Env := envOf chatServer.

Definition tokens : gmap string string :=
  <["access_token" := "access-1"]> (<["refresh_token" := "refresh-1"]> ∅).

(** The session as the directory lists it, and as it is once
    selected. *)
Definition listed5 : ChatHistory := Chat.convertApiChatToLocal session5 [].

Definition loaded5 : ChatHistory := Chat.convertApiChatToLocal session5 serverLog.

Definition localChat : ChatHistory :=
  mkChatHistory "local-1700000000000" "Hello..."
    [ mkMessage "uuid-a" "Hello" RoleUser (Js.DateOfMillis 1700000000003) ]
    (Js.DateOfMillis 1700000000001) (Js.DateOfMillis 1700000000004).

(** Nobody is logged in and nothing is held. *)
Definition anonymous : World :=
  mkWorld None ∅ [] [] 0 None false None [] None false.

(** Somebody has just started the application with stored tokens. *)
Definition starting : World :=
  mkWorld (Some "access-1") tokens [] [] 0 None true None [] None false.

(** A logged-in user looking at session 5. *)
Definition loggedIn : World :=
  mkWorld (Some "access-1") tokens [] [] 0
    (Some (mkUser 1 "asha@example.org" "asha" true true "2024-01-01"))
    false None [listed5] (Some loaded5) false.

(** A user who chatted anonymously and has just logged in. *)
Definition justLoggedIn : World :=
  mkWorld (Some "access-1") tokens [] [] 0
    (Some (mkUser 1 "asha@example.org" "asha" true true "2024-01-01"))
    false None [localChat] (Some localChat) false.

(** An anonymous user looking at a local session. *)
Definition chattingAnonymously : World :=
  mkWorld None ∅ [] [] 0 None false None [localChat] (Some localChat) false.

(** A logged-in user whose current session is one the directory
    listed and that was never selected: its local list is empty, the
    server holds [serverLog]. *)
Definition listedCurrent : World :=
  mkWorld (Some "access-1") tokens [] [] 0
    (Some (mkUser 1 "asha@example.org" "asha" true true "2024-01-01"))
    false None [listed5] (Some listed5) false.

(** An anonymous user who has just opened a new chat. *)
Definition freshLocal : ChatHistory :=
  mkChatHistory "local-1700000000000" "New Conversation" []
    (Js.DateOfMillis 1700000000001) (Js.DateOfMillis 1700000000002).

Definition freshlyOpened : World :=
  mkWorld None ∅ [] [] 3 None false None [freshLocal] (Some freshLocal) false.

(** A remote session is current although the provider has rendered
    with [isAuthenticated] false. *)
Definition staleRemote : World :=
  mkWorld None ∅ [] [] 0 None false None [listed5] (Some loaded5) false.

End Demo.

(** ** Further components

    The parts of the application around the core: the constructor of
    [ApiService], the date labels of the sidebar, the attachments of
    the report form, the login modal, the viewport hook and the report
    desk of the administrator. *)

(** [new ApiService()]: the constructor reads the stored token. *)
Definition newApiService (w : World) : World :=
  with_accessToken (localStorage w !! "access_token") w.

(** ** [components/Sidebar.tsx] *)

Module Sidebar.

(** [date.getTime()], in milliseconds; [None] is [NaN], the time of a
    date built from a string that does not parse.  [parse] stands for
    [Date.parse]. *)
Definition getTime (parse : string -> option Z) (date : Js.Date) : option Z :=
  match date with
  | Js.DateOfMillis ms => Some ms
  | Js.DateOfString s => parse s
  end.

(** [formatDate(date)]; [toLocaleDateString] stands for the method of
    that name.  Every comparison with [NaN] is false. *)
Definition formatDate (env : Env) (parse : string -> option Z)
    (toLocaleDateString : Js.Date -> string) (date : Js.Date) : M string :=
  now <- readClock env ;;
  match getTime parse date with
  | Some messageDate =>
      let diffInDays := (now - messageDate) / (1000 * 60 * 60 * 24) in
      if diffInDays =? 0 then ret "Today"
      else if diffInDays =? 1 then ret "Yesterday"
      else if diffInDays <? 7 then ret (Js.toString diffInDays +:+ " days ago")
      else ret (toLocaleDateString date)
  | None => ret (toLocaleDateString date)
  end.

End Sidebar.

(** ** [components/ReportForm.tsx] *)

Module ReportForm.

(** A [File] of the browser, by the three properties the form reads. *)
Record File : Type := mkFile {
  file_name : string;
  file_size : Z;
  file_type : string;
}.

Record FormData : Type := mkFormData {
  fd_name : string;
  fd_phone : string;
  fd_email : string;
  fd_subject : string;
  fd_description : string;
  fd_files : list File;
}.

Definition allowedTypes : list string :=
  [ "image/jpeg"; "image/png"; "image/gif"; "image/webp";
    "video/mp4"; "video/webm"; "video/ogg";
    "application/pdf" ].

(** [allowedTypes.includes(t)] *)
Definition includes (l : list string) (t : string) : bool :=
  List.existsb (String.eqb t) l.

(** The callback of [files.filter] in [handleFileUpload]: the alert
    it shows for a file it refuses, [None] for a file it keeps. *)
Definition refusal (file : File) : option string :=
  if negb (includes allowedTypes (file_type file)) then
    Some ("File type " +:+ file_type file
          +:+ " is not allowed. Please upload images, videos, or PDF files.")
  else if 10 * 1024 * 1024 <? file_size file then
    Some ("File " +:+ file_name file +:+ " is too large. Maximum size is 10MB.")
  else None.

Definition accepted (file : File) : bool :=
  match refusal file with Some _ => false | None => true end.

(** [handleFileUpload]: the alerts shown, in order, and the form. *)
Definition handleFileUpload (files : list File) (prev : FormData)
    : list string * FormData :=
  let alerts :=
    List.flat_map
      (fun file => match refusal file with Some a => [a] | None => [] end) files in
  let validFiles := List.filter accepted files in
  (alerts,
   mkFormData (fd_name prev) (fd_phone prev) (fd_email prev) (fd_subject prev)
     (fd_description prev) (fd_files prev ++ validFiles)).

(** [files.filter((_, i) => i !== index)], from position [i] on. *)
Fixpoint dropIndex (i index : nat) (files : list File) : list File :=
  match files with
  | [] => []
  | file :: rest =>
      if (i =? index)%nat then dropIndex (S i) index rest
      else file :: dropIndex (S i) index rest
  end.

Definition removeFile (index : nat) (prev : FormData) : FormData :=
  mkFormData (fd_name prev) (fd_phone prev) (fd_email prev) (fd_subject prev)
    (fd_description prev) (dropIndex 0 index (fd_files prev)).

End ReportForm.

(** ** [components/LoginModal.tsx] *)

Module LoginModal.

Record FormData : Type := mkFormData {
  fd_email : string;
  fd_username : string;
  fd_password : string;
  fd_confirmPassword : string;
}.

Definition emptyForm : FormData := mkFormData "" "" "" "".

(** The state of the component, and [isOpen], the state of its parent
    that [onClose] sets to [false]. *)
Record State : Type := mkState {
  isLoginMode : bool;
  showPassword : bool;
  formData : FormData;
  isOpen : bool;
}.

(** [handleSubmit]: the result is the state of the modal once the
    handler has run. *)
Definition handleSubmit (env : Env) (fuel : nat) (st : State) : M State :=
  try_catch
    ((if isLoginMode st then
        Auth.login env fuel (fd_email (formData st)) (fd_password (formData st))
      else
        if negb (String.eqb (fd_password (formData st))
                            (fd_confirmPassword (formData st)))
        then throw (Js.Error "Passwords do not match")
        else
          Auth.register env fuel (fd_email (formData st))
            (fd_username (formData st)) (fd_password (formData st))) ;;;
     ret (mkState (isLoginMode st) (showPassword st) emptyForm false))
    (fun err => ret st).

End LoginModal.

(** ** [hooks/useViewportHeight.ts] *)

Module Viewport.

Inductive Target : Type := VisualViewport | Window.

(** The functions the effect creates when it runs for the [mount]-th
    time: [updateViewportHeight], and the arrow function that calls it
    after 100 ms. *)
Inductive Callback : Type :=
| UpdateViewportHeight (mount : nat)
| DelayedUpdate (mount : nat).

Record Listener : Type := mkListener {
  l_target : Target;
  l_type : string;
  l_callback : Callback;
}.

(** What the hook reads and writes: the height of
    [window.visualViewport], [None] where the browser has none,
    [window.innerHeight], the listeners registered, and the state
    [viewportHeight] of the hook. *)
Record Dom : Type := mkDom {
  visualViewport : option Q;
  innerHeight : Q;
  listeners : list Listener;
  viewportHeight : Q;
}.

Definition eqTarget (a b : Target) : bool :=
  match a, b with
  | VisualViewport, VisualViewport | Window, Window => true
  | _, _ => false
  end.

Definition eqCallback (a b : Callback) : bool :=
  match a, b with
  | UpdateViewportHeight m, UpdateViewportHeight n => (m =? n)%nat
  | DelayedUpdate m, DelayedUpdate n => (m =? n)%nat
  | _, _ => false
  end.

Definition eqListener (a b : Listener) : bool :=
  eqTarget (l_target a) (l_target b) && String.eqb (l_type a) (l_type b)
  && eqCallback (l_callback a) (l_callback b).

(** [target.addEventListener(type, callback)]: a listener that is
    already registered is not registered again. *)
Definition addEventListener (l : Listener) (dom : Dom) : Dom :=
  if List.existsb (eqListener l) (listeners dom) then dom
  else mkDom (visualViewport dom) (innerHeight dom) (listeners dom ++ [l])
         (viewportHeight dom).

(** [target.removeEventListener(type, callback)] *)
Definition removeEventListener (l : Listener) (dom : Dom) : Dom :=
  mkDom (visualViewport dom) (innerHeight dom)
    (List.filter (fun x => negb (eqListener l x)) (listeners dom))
    (viewportHeight dom).

Definition setViewportHeight (h : Q) (dom : Dom) : Dom :=
  mkDom (visualViewport dom) (innerHeight dom) (listeners dom) h.

(** The initial state: [window.visualViewport?.height ||
    window.innerHeight]. *)
Definition initialHeight (dom : Dom) : Q :=
  match visualViewport dom with
  | Some h => if Qeq_bool h 0 then innerHeight dom else h
  | None => innerHeight dom
  end.

Definition updateViewportHeight (dom : Dom) : Dom :=
  match visualViewport dom with
  | Some h => setViewportHeight h dom
  | None => setViewportHeight (innerHeight dom) dom
  end.

(** The effect, run for the [mount]-th time. *)
Definition effect (mount : nat) (dom : Dom) : Dom :=
  let dom1 :=
    match visualViewport dom with
    | Some _ =>
        addEventListener
          (mkListener VisualViewport "resize" (UpdateViewportHeight mount)) dom
    | None =>
        addEventListener
          (mkListener Window "resize" (UpdateViewportHeight mount)) dom
    end in
  let dom2 :=
    addEventListener
      (mkListener Window "orientationchange" (DelayedUpdate mount)) dom1 in
  updateViewportHeight dom2.

(** The function the effect returns. *)
Definition cleanup (mount : nat) (dom : Dom) : Dom :=
  let dom1 :=
    match visualViewport dom with
    | Some _ =>
        removeEventListener
          (mkListener VisualViewport "resize" (UpdateViewportHeight mount)) dom
    | None =>
        removeEventListener
          (mkListener Window "resize" (UpdateViewportHeight mount)) dom
    end in
  removeEventListener
    (mkListener Window "orientationchange" (UpdateViewportHeight mount)) dom1.

(** [n] times mounted and unmounted, the first time as mount [k]. *)
Fixpoint remount (n k : nat) (dom : Dom) : Dom :=
  match n with
  | O => dom
  | S n' => remount n' (S k) (cleanup k (effect k dom))
  end.

(** The mount a callback was created in. *)
Definition mountOf (c : Callback) : nat :=
  match c with UpdateViewportHeight m | DelayedUpdate m => m end.

(** Every listener registered comes from a mount before the [k]-th. *)
Definition olderThan (k : nat) (dom : Dom) : Prop :=
  forall l, In l (listeners dom) -> (mountOf (l_callback l) < k)%nat.

(** The listener for [resize] that the [k]-th run of the effect
    registers. *)
Definition resizeListener (k : nat) (dom : Dom) : Listener :=
  match visualViewport dom with
  | Some _ => mkListener VisualViewport "resize" (UpdateViewportHeight k)
  | None => mkListener Window "resize" (UpdateViewportHeight k)
  end.

End Viewport.

(** ** [services/api.ts]: the report methods *)

Module ReportService.

Record ReportFileInfo : Type := mkReportFileInfo {
  rf_id : option string;
  rf_name : string;
  rf_size : Z;
  rf_type : string;
  rf_filename : option string;
}.

Record ReportCreate : Type := mkReportCreate {
  rc_name : string;
  rc_email : string;
  rc_phone : option string;
  rc_subject : string;
  rc_description : string;
  rc_files : option (list ReportFileInfo);
}.

Record ReportResponse : Type := mkReportResponse {
  rr_id : Z;
  rr_name : string;
  rr_email : string;
  rr_phone : option string;
  rr_subject : string;
  rr_description : string;
  rr_files : list ReportFileInfo;
  rr_status : string;
  rr_created_at : string;
  rr_updated_at : string;
}.

Record ReportStats : Type := mkReportStats {
  total : Z;
  pending : Z;
  reviewed : Z;
  resolved : Z;
}.

(** The five report methods of [ApiService] that [AdminProvider]
    calls, as an interface.  Each one goes through [request], so each
    one acts on the world of the request executor; the bodies and the
    payloads of the report endpoints are left to the instance. *)
Record Methods : Type := mkMethods {
  createReport : ReportCreate -> M ReportResponse;
  updateReportStatus : Z -> string -> M ReportResponse;
  deleteReport : Z -> M unit;
  getAllReports : option string -> option string -> M (list ReportResponse);
  getReportStats : M ReportStats;
}.

End ReportService.

(** ** [contexts/AdminContext.tsx]: the report desk *)

Module Admin.

Import ReportService.

(** The status is the string of the server, cast to the union without
    a check. *)
Record Report : Type := mkReport {
  r_id : Z;
  r_name : string;
  r_phone : string;
  r_email : string;
  r_subject : string;
  r_description : string;
  r_files : list ReportFileInfo;
  r_created_at : string;
  r_updated_at : string;
  r_status : string;
}.

(** The state of [AdminProvider]. *)
Record State : Type := mkState {
  isAdminAuthenticated : bool;
  reports : list Report;
  reportStats : option ReportStats;
  isLoading : bool;
  error : option string;
}.

Definition initial : State := mkState false [] None false None.

(** Asynchronous functions of the provider: they act on its state and
    on the world. *)
Definition AM (A : Type) : Type := State -> World -> Outcome A * (State * World).

Definition aret {A} (a : A) : AM A := fun s w => (Resolved a, (s, w)).

Definition athrow {A} (e : Js.JsError) : AM A := fun s w => (Rejected e, (s, w)).

Definition abind {A B} (m : AM A) (k : A -> AM B) : AM B :=
  fun s w =>
    match m s w with
    | (Resolved a, (s', w')) => k a s' w'
    | (Rejected e, sw) => (Rejected e, sw)
    | (Unsettled why, sw) => (Unsettled why, sw)
    end.

Definition atry_catch {A} (m : AM A) (handler : Js.JsError -> AM A) : AM A :=
  fun s w =>
    match m s w with
    | (Rejected e, (s', w')) => handler e s' w'
    | r => r
    end.

Definition atry_finally {A} (m : AM A) (f : State -> State) : AM A :=
  fun s w =>
    match m s w with
    | (Resolved a, (s', w')) => (Resolved a, (f s', w'))
    | (Rejected e, (s', w')) => (Rejected e, (f s', w'))
    | (Unsettled why, sw) => (Unsettled why, sw)
    end.

(** A function of the world, run by the provider. *)
Definition lift {A} (m : M A) : AM A :=
  fun s w => let (o, w') := m w in (o, (s, w')).

Definition update (f : State -> State) : AM unit :=
  fun s w => (Resolved tt, (f s, w)).

Definition setIsAdminAuthenticated (b : bool) : AM unit :=
  update (fun s => mkState b (reports s) (reportStats s) (isLoading s) (error s)).

Definition setReports (f : list Report -> list Report) : AM unit :=
  update (fun s =>
    mkState (isAdminAuthenticated s) (f (reports s)) (reportStats s)
      (isLoading s) (error s)).

Definition setReportStats (v : option ReportStats) : AM unit :=
  update (fun s =>
    mkState (isAdminAuthenticated s) (reports s) v (isLoading s) (error s)).

Definition withIsLoading (b : bool) (s : State) : State :=
  mkState (isAdminAuthenticated s) (reports s) (reportStats s) b (error s).

Definition setIsLoading (b : bool) : AM unit := update (withIsLoading b).

Definition setError (v : option string) : AM unit :=
  update (fun s =>
    mkState (isAdminAuthenticated s) (reports s) (reportStats s) (isLoading s) v).

Declare Scope admin_scope.
Delimit Scope admin_scope with admin.

Notation "x <- m ;; k" := (abind m (fun x => k))
  (at level 100, m at next level, right associativity) : admin_scope.
Notation "m ;;; k" := (abind m (fun _ => k))
  (at level 100, right associativity) : admin_scope.

Local Open Scope admin_scope.

Definition ADMIN_PASSCODE : string := "sakhi12".

(** The effect run on mount. *)
Definition mountEffect : AM unit :=
  adminAuth <- lift (Api.getItem "admin_authenticated") ;;
  match adminAuth with
  | Some v => if String.eqb v "true" then setIsAdminAuthenticated true else aret tt
  | None => aret tt
  end.

Definition loginAdmin (passcode : string) : AM bool :=
  if String.eqb passcode ADMIN_PASSCODE then
    setIsAdminAuthenticated true ;;;
    lift (Api.setItem "admin_authenticated" "true") ;;;
    aret true
  else aret false.

Definition logoutAdmin : AM unit :=
  setIsAdminAuthenticated false ;;;
  lift (Api.removeItem "admin_authenticated") ;;;
  setReports (fun _ => []) ;;;
  setReportStats None.

(** The conversion of a report of the API, as written in [addReport]
    and [loadReports]. *)
Definition formatReport (report : ReportResponse) : Report :=
  mkReport (rr_id report) (rr_name report)
    (if Js.truthy (rr_phone report) then Js.template (rr_phone report) else "")
    (rr_email report) (rr_subject report) (rr_description report)
    (rr_files report) (rr_created_at report) (rr_updated_at report)
    (rr_status report).

Definition loadReportStats (api : Methods) : AM unit :=
  atry_catch
    (stats <- lift (ReportService.getReportStats api) ;;
     setReportStats (Some stats))
    (fun err => aret tt).

(** The argument of [addReport]: a report without [id], [created_at],
    [updated_at] and [status]. *)
Record ReportData : Type := mkReportData {
  rd_name : string;
  rd_phone : string;
  rd_email : string;
  rd_subject : string;
  rd_description : string;
  rd_files : list ReportFileInfo;
}.

Definition addReport (api : Methods) (reportData : ReportData) : AM unit :=
  atry_finally
    (atry_catch
       (setIsLoading true ;;;
        setError None ;;;
        let reportCreate :=
          mkReportCreate (rd_name reportData) (rd_email reportData)
            (Some (rd_phone reportData)) (rd_subject reportData)
            (rd_description reportData) (Some (rd_files reportData)) in
        newReport <- lift (ReportService.createReport api reportCreate) ;;
        let formattedReport := formatReport newReport in
        setReports (fun prev => formattedReport :: prev) ;;;
        loadReportStats api)
       (fun err =>
          setError (Some (Js.message err)) ;;;
          athrow err))
    (withIsLoading false).

(** [{ ...report, status: updatedReport.status, updated_at:
    updatedReport.updated_at }] *)
Definition restamp (updatedReport : ReportResponse) (report : Report) : Report :=
  mkReport (r_id report) (r_name report) (r_phone report) (r_email report)
    (r_subject report) (r_description report) (r_files report)
    (r_created_at report) (rr_updated_at updatedReport) (rr_status updatedReport).

Definition updateReportStatus (api : Methods) (reportId : Z) (status : string)
    : AM unit :=
  atry_finally
    (atry_catch
       (setIsLoading true ;;;
        setError None ;;;
        updatedReport <- lift (ReportService.updateReportStatus api reportId status) ;;
        setReports
          (List.map (fun report =>
             if r_id report =? reportId then restamp updatedReport report
             else report)) ;;;
        loadReportStats api)
       (fun err =>
          setError (Some (Js.message err)) ;;;
          athrow err))
    (withIsLoading false).

Definition deleteReport (api : Methods) (reportId : Z) : AM unit :=
  atry_finally
    (atry_catch
       (setIsLoading true ;;;
        setError None ;;;
        lift (ReportService.deleteReport api reportId) ;;;
        setReports (List.filter (fun report => negb (r_id report =? reportId))) ;;;
        loadReportStats api)
       (fun err =>
          setError (Some (Js.message err)) ;;;
          athrow err))
    (withIsLoading false).

Definition loadReports (api : Methods) (statusFilter search : option string)
    : AM unit :=
  atry_finally
    (atry_catch
       (setIsLoading true ;;;
        setError None ;;;
        apiReports <- lift (ReportService.getAllReports api statusFilter search) ;;
        let formattedReports := List.map formatReport apiReports in
        setReports (fun _ => formattedReports))
       (fun err =>
          setError (Some (Js.message err)) ;;;
          setReports (fun _ => [])))
    (withIsLoading false).

(** What a rejected server call leaves of the state in [addReport],
    [updateReportStatus] and [deleteReport]: the list and the counts
    as they were, the message of the error, no loading flag. *)
Definition failed (s : State) (e : Js.JsError) : State :=
  mkState (isAdminAuthenticated s) (reports s) (reportStats s) false
    (Some (Js.message e)).

End Admin.

(** ** Further vocabulary *)

(** The call a request starts with, for the token held in [w]. *)
Definition requestCall (env : Env) (w : World) (endpoint : string)
    (options : RequestInit) : FetchCall :=
  Api.mkCall env endpoint options
    (if Js.truthy (accessToken w) then Some (Api.bearer (accessToken w)) else None).

(** The token in memory is the stored one. *)
Definition tokenMirrored (w : World) : Prop :=
  localStorage w !! "access_token" = accessToken w.

(** A run that starts with the two tokens equal ends with them
    equal. *)
Definition mirror_kept (w w' : World) : Prop :=
  tokenMirrored w -> tokenMirrored w'.

(** No run of [m] ends with an exception. *)
Definition never_rejects {A} (m : M A) : Prop :=
  forall w e, fst (m w) <> Rejected e.

(** The current session, when there is one, has its id in the
    directory. *)
Definition currentListed (w : World) : Prop :=
  forall c, currentChat w = Some c ->
            In (h_id c) (List.map h_id (chatHistories w)).

(** [Number.isSafeInteger(n)]: the integers that a number of the
    language holds exactly, which [String] writes in plain decimal
    digits and [parseInt] reads back. *)
Definition safeInteger (n : Z) : Prop := - 2 ^ 53 < n < 2 ^ 53.

(** ** Further sample environments and worlds *)

Module Sample.

Definition asha : User := mkUser 1 "asha@example.org" "asha" true true "2024-01-01".

(** A backend that knows one account. *)
Definition authServer (past : list FetchCall) (call : FetchCall) : FetchResult :=
  let url := fc_url call in
  if String.eqb url (Demo.base +:+ "/auth/login") then
    Demo.reply 200 (PAuth (mkAuthResponse "access-9" "refresh-9" "bearer"))
  else if String.eqb url (Demo.base +:+ "/auth/register") then
    Demo.reply 200 (PUser asha)
  else if String.eqb url (Demo.base +:+ "/auth/me") then
    Demo.reply 200 (PUser asha)
  else Demo.reply 404 (PDetail "Not Found").

(** No backend is listening: every [fetch] rejects. *)
Definition downServer (past : list FetchCall) (call : FetchCall) : FetchResult :=
  FetchRejects (Js.TypeError "Failed to fetch").

(** A backend that goes down once it has registered an account. *)
Definition registerOnlyServer (past : list FetchCall) (call : FetchCall)
    : FetchResult :=
  if String.eqb (fc_url call) (Demo.base +:+ "/auth/register")
  then Demo.reply 200 (PUser asha)
  else FetchRejects (Js.TypeError "Failed to fetch").

(** A backend that lists session 5 and fails every other call. *)
Definition listOnlyServer (past : list FetchCall) (call : FetchCall)
    : FetchResult :=
  if String.eqb (fc_url call) (Demo.base +:+ "/chat/sessions")
  then Demo.reply 200 (PSessions [Demo.session5])
  else Demo.reply 500 (PDetail "Internal Server Error").

(** An access token is held and no refresh token is stored. *)
Definition halfSession : World :=
  mkWorld (Some "access-1") (<["access_token" := "access-1"]> ∅)
    [] [] 0 None false None [] None false.

(** A clock that shows the same millisecond ten reads in a row. *)
Definition coarseEnv : Env :=
  mkEnv Demo.base Demo.chatServer
    (fun k => 1700000000000 + Z.of_nat (k / 10))
    (fun k => 1 # 2)
    (fun k => "uuid-" +:+ Js.toString (Z.of_nat k)).


Definition photo : ReportForm.File :=
  ReportForm.mkFile "screenshot.png" 204800 "image/png".

Definition archive : ReportForm.File :=
  ReportForm.mkFile "logs.zip" 1024 "application/zip".

Definition film : ReportForm.File :=
  ReportForm.mkFile "recording.mp4" 52428800 "video/mp4".

Definition emptyReportForm : ReportForm.FormData :=
  ReportForm.mkFormData "Asha" "" "asha@example.org" "Doxxing" "" [].

Definition mismatched : LoginModal.State :=
  LoginModal.mkState false false
    (LoginModal.mkFormData "asha@example.org" "asha" "secret-1" "secret-2") true.

Definition loggingIn : LoginModal.State :=
  LoginModal.mkState true false
    (LoginModal.mkFormData "asha@example.org" "" "secret-1" "") true.

(** A browser with a visual viewport and no listener yet. *)
Definition phone : Viewport.Dom := Viewport.mkDom (Some 640%Q) 800%Q [] 0%Q.

Definition report3 : Admin.Report :=
  Admin.mkReport 3 "Asha" "" "asha@example.org" "Doxxing" "An address was posted."
    [] "2024-05-01T10:00:00" "2024-05-01T10:00:00" "pending".

Definition report4 : Admin.Report :=
  Admin.mkReport 4 "Bina" "555-0100" "bina@example.org" "Hate speech" "A thread."
    [] "2024-05-02T08:00:00" "2024-05-02T08:00:00" "pending".

Definition reviewed3 : ReportService.ReportResponse :=
  ReportService.mkReportResponse 3 "Asha" "asha@example.org" None "Doxxing"
    "An address was posted." [] "reviewed"
    "2024-05-01T10:00:00" "2024-05-03T12:00:00".

(** A report desk that serves every call. *)
Definition openDesk : ReportService.Methods :=
  ReportService.mkMethods
    (fun report => ret reviewed3)
    (fun reportId status => ret reviewed3)
    (fun reportId => ret tt)
    (fun statusFilter search => ret [reviewed3])
    (ret (ReportService.mkReportStats 2 1 1 0)).

(** A report desk that fails every call. *)
Definition closedDesk : ReportService.Methods :=
  ReportService.mkMethods
    (fun report => throw (Js.Error "HTTP error! status: 503"))
    (fun reportId status => throw (Js.Error "HTTP error! status: 503"))
    (fun reportId => throw (Js.Error "HTTP error! status: 503"))
    (fun statusFilter search => throw (Js.Error "HTTP error! status: 503"))
    (throw (Js.Error "HTTP error! status: 503")).

Definition desk : Admin.State :=
  Admin.mkState true [report4; report3] (Some (ReportService.mkReportStats 2 2 0 0))
    false None.

End Sample.

(** ** The doubles of the machine *)

(** The primitive floats of the kernel are binary64 numbers computed
    by the processor: the rounding of [Js.binary64] is tested against
    them. *)
Module Machine.

Import PrimFloat.

(** The rational a finite float is. *)
Definition ofFloat (f : float) : option Q :=
  match FloatOps.Prim2SF f with
  | SpecFloat.S754_zero _ => Some 0%Q
  | SpecFloat.S754_finite s m e =>
      Some ((if s then - inject_Z (Zpos m) else inject_Z (Zpos m)) * 2 ^ e)%Q
  | _ => None
  end.

(** [opQ] on the rationals of [a] and [b] is the rational of
    [op a b]. *)
Definition agrees (op : float -> float -> float) (opQ : Q -> Q -> Q)
    (a b : float) : bool :=
  match ofFloat a, ofFloat b, ofFloat (op a b) with
  | Some x, Some y, Some z => Qeq_bool (opQ x y) z
  | _, _, _ => false
  end.

(** Pairs of operands: the largest double below 1, the doubles next
    to one third and two thirds, one tenth and others, with the
    factors and the summand of [sendMessage]; subnormal numbers and
    ties. *)
Definition samples : list (float * float) :=
  [ (0x1.fffffffffffffp-1, 3); (0x1.fffffffffffffp-1, 2000);
    (1000, 0x1.f3fffffffffffp+10); (1000, 2000);
    (0x1.5555555555555p-2, 3); (0x1.5555555555556p-2, 3);
    (0x1.5555555555555p-1, 3); (0x1.5555555555555p-2, 2000);
    (0x1.999999999999ap-4, 3); (0x1.999999999999ap-4, 2000);
    (0x1.999999999999ap-4, 0x1.999999999999ap-3);
    (0.5, 2000); (0.75, 3); (0, 3); (0, 2000); (1000, 0);
    (0x1p-53, 2000); (0x1.0000000000001p-1, 3);
    (0x1p-1074, 0.5); (0x1p-1074, 1.5); (0x1.8p-1073, 0.5);
    (0x1.fffffffffffffp+52, 0.5); (0x1.fffffffffffffp+52, 1.5) ]%float.

End Machine.

(** ** General facts about the monad *)

Lemma bind_resolved {A B} (m : M A) (k : A -> M B) w a w' :
  m w = (Resolved a, w') -> bind m k w = k a w'.
Proof. intros H. unfold bind. rewrite H. reflexivity. Qed.

Lemma bind_rejected {A B} (m : M A) (k : A -> M B) w e w' :
  m w = (Rejected e, w') -> bind m k w = (Rejected e, w').
Proof. intros H. unfold bind. rewrite H. reflexivity. Qed.

Lemma bind_unsettled {A B} (m : M A) (k : A -> M B) w why w' :
  m w = (Unsettled why, w') -> bind m k w = (Unsettled why, w').
Proof. intros H. unfold bind. rewrite H. reflexivity. Qed.

Lemma try_catch_rejected {A} (m : M A) h w e w' :
  m w = (Rejected e, w') -> try_catch m h w = h e w'.
Proof. intros H. unfold try_catch. rewrite H. reflexivity. Qed.


Lemma try_catch_unsettled {A} (m : M A) h w why w' :
  m w = (Unsettled why, w') -> try_catch m h w = (Unsettled why, w').
Proof. intros H. unfold try_catch. rewrite H. reflexivity. Qed.

Section Stability.

Context (R : World -> World -> Prop) `{!PreOrder R}.

Lemma stable_ret {A} (a : A) : stable R (ret a).
Proof. intros w. reflexivity. Qed.

Lemma stable_throw {A} e : stable R (@throw A e).
Proof. intros w. reflexivity. Qed.

Lemma stable_halt {A} why : stable R (@halt A why).
Proof. intros w. reflexivity. Qed.

Lemma stable_gets {A} (f : World -> A) : stable R (gets f).
Proof. intros w. reflexivity. Qed.

Lemma stable_modify f : (forall w, R w (f w)) -> stable R (modify f).
Proof. intros H w. apply H. Qed.

Lemma stable_bind {A B} (m : M A) (k : A -> M B) :
  stable R m -> (forall a, stable R (k a)) -> stable R (bind m k).
Proof.
  intros Hm Hk w. unfold bind. specialize (Hm w).
  destruct (m w) as [[a | e | why] w']; simpl in *; try assumption.
  transitivity w'; [assumption | apply Hk].
Qed.

Lemma stable_try_catch {A} (m : M A) h :
  stable R m -> (forall e, stable R (h e)) -> stable R (try_catch m h).
Proof.
  intros Hm Hh w. unfold try_catch. specialize (Hm w).
  destruct (m w) as [[a | e | why] w']; simpl in *; try assumption.
  transitivity w'; [assumption | apply Hh].
Qed.

Lemma stable_try_finally {A} (m : M A) f :
  stable R m -> (forall w, R w (f w)) -> stable R (try_finally m f).
Proof.
  intros Hm Hf w. unfold try_finally. specialize (Hm w).
  destruct (m w) as [[a | e | why] w']; simpl in *; try assumption;
    (transitivity w'; [assumption | apply Hf]).
Qed.

End Stability.

(** One step of a proof of [stable R m], by the shape of [m]. *)
Ltac stable_step :=
  first
    [ apply stable_ret; solve [typeclasses eauto]
    | apply stable_throw; solve [typeclasses eauto]
    | apply stable_halt; solve [typeclasses eauto]
    | apply stable_gets; solve [typeclasses eauto]
    | apply stable_bind; [typeclasses eauto | | intros ?]
    | apply stable_try_catch; [typeclasses eauto | | intros ?]
    | match goal with
      | |- stable _ (if ?b then _ else _) => destruct b
      | |- stable _ (match ?x with _ => _ end) => destruct x
      end ].

#[export] Instance api_frame_preorder : PreOrder api_frame.
Proof.
  split.
  - intros w. unfold api_frame. tauto.
  - intros a b c Hab Hbc. unfold api_frame in *.
    destruct Hab as (?&?&?&?&?&?&?&?). destruct Hbc as (?&?&?&?&?&?&?&?).
    repeat split; congruence.
Qed.

#[export] Instance net_extends_preorder : PreOrder net_extends.
Proof.
  split.
  - intros w. exists []. reflexivity.
  - intros a b c [l1 H1] [l2 H2]. exists (l2 ++ l1).
    rewrite H2, H1. apply List.app_assoc.
Qed.

#[export] Instance ids_kept_preorder : PreOrder ids_kept.
Proof.
  split.
  - intros w. reflexivity.
  - intros a b c Hab Hbc. unfold ids_kept in *. congruence.
Qed.

(** ** The request executor writes nothing but the token store and the log *)

Section RequestStability.

Context (R : World -> World -> Prop) `{!PreOrder R}.
Hypothesis R_token : forall v w, R w (with_accessToken v w).
Hypothesis R_storage : forall v w, R w (with_localStorage v w).
Hypothesis R_call : forall c w, R w (with_net_log (c :: net_log w) w).

Lemma stable_fetch env c : stable R (fetch env c).
Proof.
  intros w. unfold fetch.
  destruct (server env (net_log w) c); simpl; apply R_call.
Qed.

Lemma stable_setItem k v : stable R (Api.setItem k v).
Proof. apply stable_modify. intros w. apply R_storage. Qed.

Lemma stable_removeItem k : stable R (Api.removeItem k).
Proof. apply stable_modify. intros w. apply R_storage. Qed.

Lemma stable_logout : stable R Api.logout.
Proof.
  unfold Api.logout.
  repeat first [ apply stable_removeItem
               | apply stable_modify; intros ?; apply R_token
               | stable_step ].
Qed.

Lemma stable_refreshToken_with req :
  (forall ep o, stable R (req ep o)) -> stable R (Api.refreshToken_with req).
Proof.
  intros Hreq. unfold Api.refreshToken_with.
  repeat first [ apply Hreq
               | apply stable_logout
               | apply stable_setItem
               | apply stable_modify; intros ?; apply R_token
               | progress unfold Api.getItem, Api.asAuthResponse
               | stable_step ].
Qed.

Lemma stable_request env fuel : forall ep o, stable R (Api.request env fuel ep o).
Proof.
  induction fuel as [| fuel IH]; intros ep o; cbn [Api.request].
  - apply stable_halt; typeclasses eauto.
  - repeat first [ apply stable_refreshToken_with; exact IH
                 | apply stable_fetch
                 | apply stable_logout
                 | progress unfold Api.getItem
                 | stable_step ].
Qed.

Lemma stable_getCurrentUser env fuel : stable R (Api.getCurrentUser env fuel).
Proof.
  unfold Api.getCurrentUser, Api.asUser.
  repeat first [ apply stable_request | stable_step ].
Qed.

Lemma stable_getChatSessions env fuel : stable R (Api.getChatSessions env fuel).
Proof.
  unfold Api.getChatSessions, Api.asSessions.
  repeat first [ apply stable_request | stable_step ].
Qed.

Lemma stable_createChatSession env fuel t :
  stable R (Api.createChatSession env fuel t).
Proof.
  unfold Api.createChatSession, Api.asSession.
  repeat first [ apply stable_request | stable_step ].
Qed.

Lemma stable_getChatMessages env fuel sid :
  stable R (Api.getChatMessages env fuel sid).
Proof.
  unfold Api.getChatMessages, Api.asMessages.
  repeat first [ apply stable_request | stable_step ].
Qed.

Lemma stable_sendMessage env fuel sid c :
  stable R (Api.sendMessage env fuel sid c).
Proof.
  unfold Api.sendMessage, Api.asChatResponse.
  repeat first [ apply stable_request | stable_step ].
Qed.

Lemma stable_deleteChatSession env fuel sid :
  stable R (Api.deleteChatSession env fuel sid).
Proof.
  unfold Api.deleteChatSession.
  repeat first [ apply stable_request | stable_step ].
Qed.

Lemma stable_updateSessionTitle env fuel sid :
  stable R (Api.updateSessionTitle env fuel sid).
Proof.
  unfold Api.updateSessionTitle, Api.asTitle.
  repeat first [ apply stable_request | stable_step ].
Qed.

End RequestStability.

Lemma api_frame_token v w : api_frame w (with_accessToken v w).
Proof. unfold api_frame. simpl. tauto. Qed.

Lemma api_frame_storage v w : api_frame w (with_localStorage v w).
Proof. unfold api_frame. simpl. tauto. Qed.

Lemma api_frame_call c w : api_frame w (with_net_log (c :: net_log w) w).
Proof. unfold api_frame. simpl. tauto. Qed.

Lemma net_extends_token v w : net_extends w (with_accessToken v w).
Proof. exists []. reflexivity. Qed.

Lemma net_extends_storage v w : net_extends w (with_localStorage v w).
Proof. exists []. reflexivity. Qed.

Lemma net_extends_call c w : net_extends w (with_net_log (c :: net_log w) w).
Proof. exists [c]. reflexivity. Qed.

Lemma ids_kept_token v w : ids_kept w (with_accessToken v w).
Proof. reflexivity. Qed.

Lemma ids_kept_storage v w : ids_kept w (with_localStorage v w).
Proof. reflexivity. Qed.

Lemma ids_kept_call c w : ids_kept w (with_net_log (c :: net_log w) w).
Proof. reflexivity. Qed.

Create HintDb frames.

#[local] Hint Resolve api_frame_token api_frame_storage api_frame_call
  net_extends_token net_extends_storage net_extends_call
  ids_kept_token ids_kept_storage ids_kept_call : frames.

(** Evaluation of the straight-line part of a run. *)
Ltac run :=
  lazy beta iota zeta delta
      [bind gets modify ret throw halt try_catch try_finally fst snd
       Chat.setCurrentChat Chat.setChatHistories Chat.setIsLoading
       readClock readRandom readUuid newDate sleep];
  cbn [accessToken localStorage net_log timers ticks user auth_isLoading
       auth_error chatHistories currentChat chat_isLoading
       with_accessToken with_localStorage with_net_log with_timers with_ticks
       with_user with_auth_isLoading with_auth_error with_chatHistories
       with_currentChat with_chat_isLoading].

(** Projections of records that are written out. *)
Ltac fields :=
  cbn [accessToken localStorage net_log timers ticks user auth_isLoading
       auth_error chatHistories currentChat chat_isLoading
       with_accessToken with_localStorage with_net_log with_timers with_ticks
       with_user with_auth_isLoading with_auth_error with_chatHistories
       with_currentChat with_chat_isLoading
       h_id h_title h_messages h_createdAt h_updatedAt
       m_id m_content m_role m_timestamp fst snd].

(** ** The authentication controller *)

Section AuthFacts.

Variable env : Env.
Variable fuel : nat.

Lemma logout_empties_store w :
  tokenStoreEmpty (snd (Api.logout w)).
Proof.
  unfold tokenStoreEmpty, Api.logout, Api.removeItem. run.
  split; [reflexivity |]. split.
  - rewrite lookup_delete_ne by discriminate. apply lookup_delete_eq.
  - apply lookup_delete_eq.
Qed.

Lemma logout_frame w : api_frame w (snd (Api.logout w)).
Proof. apply stable_logout; auto with frames. typeclasses eauto. Qed.

(** C10.  The application is in authenticated mode exactly when a
    profile has been fetched and an access token is held.  When the
    start-up check finds a token but the profile fetch fails, the
    check completes, the Token Store is emptied, no profile is set
    and the application is anonymous. *)
Theorem startup_profile_failure_is_anonymous :
  forall w e w',
    user w = None ->
    Api.isAuthenticated w = true ->
    Api.getCurrentUser env fuel w = (Rejected e, w') ->
    (forall v, Auth.isAuthenticated v = true <->
               (user v <> None /\ Js.truthy (accessToken v) = true)) /\
    fst (Auth.checkAuth env fuel w) = Resolved tt /\
    tokenStoreEmpty (snd (Auth.checkAuth env fuel w)) /\
    user (snd (Auth.checkAuth env fuel w)) = None /\
    auth_isLoading (snd (Auth.checkAuth env fuel w)) = false /\
    Auth.isAuthenticated (snd (Auth.checkAuth env fuel w)) = false.
Proof.
  intros w e w' Huser Htoken Hfetch.
  assert (Hframe : api_frame w w').
  { pose proof (stable_getCurrentUser api_frame api_frame_token
                  api_frame_storage api_frame_call env fuel w) as H.
    rewrite Hfetch in H. exact H. }
  split.
  { intros v. unfold Auth.isAuthenticated, Api.isAuthenticated.
    destruct (user v); simpl; split.
    - intros H. split; [discriminate | exact H].
    - intros [_ H]. exact H.
    - discriminate.
    - intros [H _]. congruence. }
  assert (Hrun : Auth.checkAuth env fuel w
                 = (Resolved tt, with_auth_isLoading false (snd (Api.logout w')))).
  { unfold Auth.checkAuth. run. rewrite Htoken, Hfetch. reflexivity. }
  rewrite Hrun. clear Hrun.
  pose proof (logout_empties_store w') as (Ha & Hb & Hc).
  pose proof (logout_frame w') as (_ & _ & Hu & _).
  destruct Hframe as (_ & _ & Hu' & _).
  simpl in Ha, Hb, Hc, Hu.
  unfold tokenStoreEmpty, Auth.isAuthenticated. simpl.
  rewrite Hu', Huser. repeat split; assumption.
Qed.

End AuthFacts.

(** ** Numbers and their decimal strings *)

Section ParseInt.

Lemma readDigits_acc d : forall a,
  Js.readDigits 10 (NilEmpty.string_of_uint d) (Some (Zpos a))
  = Some (Zpos (Pos.of_uint_acc d a)).
Proof.
  induction d; intros a; simpl; try reflexivity;
    rewrite <- IHd; f_equal;
    match goal with
    | |- context [Z.of_nat (nat_of_ascii ?c)] =>
        let v := eval vm_compute in (Z.of_nat (nat_of_ascii c)) in
        change (Z.of_nat (nat_of_ascii c)) with v
    end; f_equal; lia.
Qed.

Lemma readDigits_zero d :
  Js.readDigits 10 (NilEmpty.string_of_uint d) (Some 0)
  = Some (Z.of_N (Pos.of_uint d)).
Proof.
  induction d; simpl; try reflexivity; try exact IHd;
    apply (readDigits_acc d).
Qed.

Lemma parseMagnitude_decimal d :
  d <> Decimal.Nil ->
  Js.parseMagnitude (NilEmpty.string_of_uint d) = Some (Z.of_N (Pos.of_uint d)).
Proof.
  intros Hd. destruct d as [| d | d | d | d | d | d | d | d | d | d];
    try contradiction; try (simpl; apply (readDigits_acc d)).
  destruct d; simpl; try reflexivity;
    first [apply readDigits_zero | apply (readDigits_acc d)].
Qed.

Lemma parseInt_decimal d :
  d <> Decimal.Nil ->
  Js.parseInt (NilEmpty.string_of_uint d) = Js.parseMagnitude (NilEmpty.string_of_uint d).
Proof.
  intros Hd. destruct d; try contradiction; reflexivity.
Qed.

(** [parseInt(n.toString())] is [n]. *)
Lemma parseInt_toString (n : Z) : Js.parseInt (Js.toString n) = Some n.
Proof.
  destruct n as [| p | p]; [reflexivity | |].
  - unfold Js.toString. simpl.
    pose proof (Unsigned.to_uint_nonnil p) as Hnil.
    replace (NilZero.string_of_uint (Pos.to_uint p))
      with (NilEmpty.string_of_uint (Pos.to_uint p))
      by (destruct (Pos.to_uint p); [contradiction | reflexivity ..]).
    rewrite parseInt_decimal, parseMagnitude_decimal by exact Hnil.
    rewrite Unsigned.of_to. reflexivity.
  - unfold Js.toString. simpl.
    pose proof (Unsigned.to_uint_nonnil p) as Hnil.
    replace (NilZero.string_of_uint (Pos.to_uint p))
      with (NilEmpty.string_of_uint (Pos.to_uint p))
      by (destruct (Pos.to_uint p); [contradiction | reflexivity ..]).
    unfold Js.parseInt. simpl.
    rewrite parseMagnitude_decimal by exact Hnil.
    rewrite Unsigned.of_to. reflexivity.
Qed.

End ParseInt.

Lemma slice0_short (s : string) (n : nat) :
  (String.length s <= n)%nat -> Js.slice0 s n = s.
Proof.
  unfold Js.slice0. revert n. induction s as [| c s IH]; intros n Hn.
  - destruct n; reflexivity.
  - destruct n as [| n]; simpl in *; [lia |]. rewrite IH by lia. reflexivity.
Qed.

(** [s.slice(0, n)] is the prefix of [s] of [n] characters, or the
    whole of [s] when it has fewer. *)
Lemma slice0_prefix (s : string) (n : nat) :
  exists rest,
    s = Js.slice0 s n +:+ rest /\
    String.length (Js.slice0 s n) = Nat.min n (String.length s).
Proof.
  unfold Js.slice0. revert n. induction s as [| c s IH]; intros n.
  - exists "". destruct n; split; reflexivity.
  - destruct n as [| n].
    + exists (String c s). split; reflexivity.
    + destruct (IH n) as (rest & Hs & Hlen). exists rest. simpl. split.
      * change (String c s = String c (substring 0 n s +:+ rest)).
        f_equal. exact Hs.
      * f_equal. exact Hlen.
Qed.

(** ** The request executor starts with the call it was asked for *)

Lemma issues_first_then c w w' w'' :
  issues_first c w w' -> net_extends w' w'' -> issues_first c w w''.
Proof.
  intros [l Hl] [l' Hl']. exists (l' ++ l). rewrite Hl', Hl.
  apply List.app_assoc.
Qed.

Ltac stable_api :=
  repeat first
    [ apply stable_request; [typeclasses eauto | auto with frames ..]
    | apply stable_refreshToken_with; [typeclasses eauto | auto with frames ..]
    | apply stable_logout; [typeclasses eauto | auto with frames ..]
    | apply stable_fetch; auto with frames
    | progress unfold Api.getItem
    | stable_step ].

Lemma fetch_issues env c w :
  issues_first c w (snd (fetch env c w)).
Proof.
  unfold fetch. destruct (server env (net_log w) c); exists []; reflexivity.
Qed.

Lemma pipeline_issues_first {A B} env c
    (K : Response -> M A) (H : Js.JsError -> M A) (K2 : A -> M B) w :
  (forall r, stable net_extends (K r)) ->
  (forall e, stable net_extends (H e)) ->
  (forall a, stable net_extends (K2 a)) ->
  issues_first c w (snd (bind (try_catch (bind (fetch env c) K) H) K2 w)).
Proof.
  intros HK HH HK2.
  pose proof (fetch_issues env c w) as H1.
  unfold bind, try_catch.
  destruct (fetch env c w) as [[r | e | why] w1]; simpl in H1.
  - specialize (HK r w1). destruct (K r w1) as [[a | e | why] w2]; simpl in HK.
    + specialize (HK2 a w2).
      eapply issues_first_then; [eapply issues_first_then; eauto | exact HK2].
    + specialize (HH e w2). destruct (H e w2) as [[a | e' | why] w3]; simpl in HH.
      * specialize (HK2 a w3).
        eapply issues_first_then;
          [eapply issues_first_then; [eapply issues_first_then; eauto | eauto] |].
        exact HK2.
      * simpl. eapply issues_first_then; [eapply issues_first_then; eauto | eauto].
      * simpl. eapply issues_first_then; [eapply issues_first_then; eauto | eauto].
    + simpl. eapply issues_first_then; eauto.
  - specialize (HH e w1). destruct (H e w1) as [[a | e' | why] w2]; simpl in HH.
    + specialize (HK2 a w2).
      eapply issues_first_then; [eapply issues_first_then; eauto | exact HK2].
    + simpl. eapply issues_first_then; eauto.
    + simpl. eapply issues_first_then; eauto.
  - simpl. exact H1.
Qed.

Lemma request_issues_first env fuel ep o w :
  issues_first
    (Api.mkCall env ep o
       (if Js.truthy (accessToken w) then Some (Api.bearer (accessToken w)) else None))
    w (snd (Api.request env (S fuel) ep o w)).
Proof.
  cbn [Api.request].
  unfold bind at 1. unfold gets at 1. cbv beta iota.
  apply pipeline_issues_first; intros; stable_api.
Qed.

Lemma bind_issues_first {A B} c (m : M A) (k : A -> M B) w :
  issues_first c w (snd (m w)) ->
  (forall a, stable net_extends (k a)) ->
  issues_first c w (snd (bind m k w)).
Proof.
  intros Hm Hk. unfold bind.
  destruct (m w) as [[a | e | why] w1]; simpl in *; try exact Hm.
  eapply issues_first_then; [exact Hm | apply Hk].
Qed.

Lemma try_catch_issues_first {A} c (m : M A) h w :
  issues_first c w (snd (m w)) ->
  (forall e, stable net_extends (h e)) ->
  issues_first c w (snd (try_catch m h w)).
Proof.
  intros Hm Hh. unfold try_catch.
  destruct (m w) as [[a | e | why] w1]; simpl in *; try exact Hm.
  eapply issues_first_then; [exact Hm | apply Hh].
Qed.

Lemma net_extends_currentChat v w : net_extends w (with_currentChat v w).
Proof. exists []. reflexivity. Qed.

Lemma net_extends_chatHistories v w : net_extends w (with_chatHistories v w).
Proof. exists []. reflexivity. Qed.

Lemma net_extends_chat_isLoading v w : net_extends w (with_chat_isLoading v w).
Proof. exists []. reflexivity. Qed.

#[local] Hint Resolve net_extends_currentChat net_extends_chatHistories
  net_extends_chat_isLoading : frames.

(** ** The directory as a list *)

Lemma replaceById_ids id c l :
  h_id c = id -> List.map h_id (Chat.replaceById id c l) = List.map h_id l.
Proof.
  intros Hc. unfold Chat.replaceById. induction l as [| h l IH]; simpl.
  - reflexivity.
  - rewrite IH. f_equal.
    destruct (String.eqb_spec (h_id h) id) as [E | E]; congruence.
Qed.

Lemma replaceById_twice id c c' l :
  h_id c = id ->
  Chat.replaceById id c' (Chat.replaceById id c l) = Chat.replaceById id c' l.
Proof.
  intros Hc. unfold Chat.replaceById. induction l as [| h l IH]; simpl.
  - reflexivity.
  - rewrite IH. f_equal.
    destruct (String.eqb_spec (h_id h) id) as [E | E].
    + rewrite Hc, String.eqb_refl. reflexivity.
    + apply String.eqb_neq in E. rewrite E. reflexivity.
Qed.

Lemma replaceById_hit id c l h :
  In h (Chat.replaceById id c l) -> h_id h = id -> h_id c = id -> h = c.
Proof.
  unfold Chat.replaceById. intros Hin Hh Hc.
  apply List.in_map_iff in Hin. destruct Hin as [x [Hx _]].
  destruct (String.eqb_spec (h_id x) id) as [E | E]; congruence.
Qed.

Lemma replaceById_miss id c l h :
  In h (Chat.replaceById id c l) -> h_id h <> id -> h_id c = id -> In h l.
Proof.
  unfold Chat.replaceById. intros Hin Hh Hc.
  apply List.in_map_iff in Hin. destruct Hin as [x [Hx Hxin]].
  destruct (String.eqb_spec (h_id x) id) as [E | E]; congruence.
Qed.

Lemma removeById_gone chatId l h :
  In h (Chat.removeById chatId l) -> h_id h <> chatId.
Proof.
  unfold Chat.removeById. intros Hin. apply List.filter_In in Hin.
  destruct Hin as [_ Hne]. apply negb_true_iff, String.eqb_neq in Hne. exact Hne.
Qed.

Lemma removeById_kept chatId l h :
  In h l -> h_id h <> chatId -> In h (Chat.removeById chatId l).
Proof.
  unfold Chat.removeById. intros Hin Hne. apply List.filter_In. split; [exact Hin |].
  apply negb_true_iff, String.eqb_neq. exact Hne.
Qed.

(** ** The chat state machine *)

Section ChatFacts.

Variable env : Env.
Variable fuel : nat.

Lemma api_frame_of {A} (m : M A) w r w' :
  stable api_frame m -> m w = (r, w') -> api_frame w w'.
Proof. intros Hs Hm. specialize (Hs w). rewrite Hm in Hs. exact Hs. Qed.

(** C7.  Deleting a remote session: when the server call fails the
    directory and the current session are as before; when it succeeds
    the directory is the old one without the session, and a deleted
    current session gives way to the first, that is the most recent,
    of the sessions that remain, or to none. *)
Theorem deleteChat_remote_outcome :
  forall w chatId r w1,
    Chat.isLocal chatId = false ->
    Api.deleteChatSession env fuel (Js.parseInt chatId) w = (r, w1) ->
    let wf := snd (Chat.deleteChat env fuel true chatId w) in
    match r with
    | Rejected _ =>
        chatHistories wf = chatHistories w /\ currentChat wf = currentChat w
    | Resolved _ =>
        chatHistories wf = Chat.removeById chatId (chatHistories w) /\
        (forall h, In h (chatHistories wf) -> h_id h <> chatId) /\
        (forall h, In h (chatHistories w) -> h_id h <> chatId ->
                   In h (chatHistories wf)) /\
        currentChat wf =
          match currentChat w with
          | Some c => if String.eqb (h_id c) chatId
                      then List.head (chatHistories wf) else Some c
          | None => None
          end
    | Unsettled _ => True
    end.
Proof.
  intros w chatId r w1 Hremote Hdelete wf.
  assert (Hframe : api_frame w w1).
  { eapply api_frame_of; [| exact Hdelete].
    apply stable_deleteChatSession; auto with frames. typeclasses eauto. }
  destruct Hframe as (_ & _ & _ & _ & _ & Hh & Hc & _).
  subst wf. unfold Chat.deleteChat, Chat.removeChat. run.
  rewrite Hremote. cbn [negb]. rewrite Hdelete.
  destruct r as [[] | e | why]; [| | exact I].
  - destruct (currentChat w) as [c |] eqn:Hcur; run;
      [destruct (String.eqb (h_id c) chatId) |]; run;
      (split; [reflexivity |]);
      (split; [intros h; apply removeById_gone |]);
      (split; [intros h; apply removeById_kept |]);
      first [reflexivity | exact Hc].
  - run. split; assumption.
Qed.

(** A run of the dispatch step that throws has not touched the chat
    state: the exception comes from one of the two first calls. *)
Lemma dispatch_rejected_frame isAuthenticated targetChat updatedChat content w e w' :
  Chat.dispatch env fuel isAuthenticated targetChat updatedChat content w
    = (Rejected e, w') ->
  chatHistories w' = chatHistories w /\ currentChat w' = currentChat w.
Proof.
  unfold Chat.dispatch.
  destruct (isAuthenticated && negb (Chat.isLocal (h_id targetChat))).
  - run.
    destruct (Api.sendMessage env fuel (Js.parseInt (h_id targetChat)) content w)
      as [[r | e1 | why] w1] eqn:Hsend.
    + destruct (Api.getChatMessages env fuel (Js.parseInt (h_id targetChat)) w1)
        as [[ms | e2 | why] w2] eqn:Hget.
      * destruct (List.length (h_messages targetChat) =? 0)%nat; run;
          [| discriminate].
        match goal with
        | |- context [Api.updateSessionTitle ?a ?b ?c ?d] =>
            destruct (Api.updateSessionTitle a b c d) as [[t | e3 | why] w3]
        end; discriminate.
      * intros H. injection H as _ <-.
        apply api_frame_of in Hsend;
          [| apply stable_sendMessage; auto with frames; typeclasses eauto].
        apply api_frame_of in Hget;
          [| apply stable_getChatMessages; auto with frames; typeclasses eauto].
        destruct Hsend as (_ & _ & _ & _ & _ & Hh1 & Hc1 & _).
        destruct Hget as (_ & _ & _ & _ & _ & Hh2 & Hc2 & _).
        split; congruence.
      * discriminate.
    + intros H. injection H as _ <-.
      apply api_frame_of in Hsend;
        [| apply stable_sendMessage; auto with frames; typeclasses eauto].
      destruct Hsend as (_ & _ & _ & _ & _ & Hh1 & Hc1 & _).
      split; assumption.
    + discriminate.
  - unfold bind at 1. unfold readRandom at 1. cbv beta iota zeta.
    destruct (Chat.pickResponse (mathRandom env (ticks w))); [run |]; discriminate.
Qed.

(** C3.  When the dispatch step of [sendMessage] throws, the call
    still completes, the current session is the snapshot taken before
    the optimistic append (its messages, title and dates included,
    so without the optimistic user message), every directory entry of
    that id is that snapshot, and every other entry is as it was. *)
Theorem sendMessage_rollback :
  forall isAuthenticated content w targetChat w0 updatedChat w1 e w2,
    Chat.resolveTarget env fuel isAuthenticated w = (Resolved (Some targetChat), w0) ->
    Chat.optimisticAppend env targetChat content w0 = (Resolved updatedChat, w1) ->
    Chat.dispatch env fuel isAuthenticated targetChat updatedChat content w1
      = (Rejected e, w2) ->
    let wf := snd (Chat.sendMessage env fuel isAuthenticated content w) in
    fst (Chat.sendMessage env fuel isAuthenticated content w) = Resolved tt /\
    currentChat wf = Some targetChat /\
    chatHistories wf
      = Chat.replaceById (h_id targetChat) targetChat (chatHistories w0) /\
    (forall h, In h (chatHistories wf) -> h_id h = h_id targetChat ->
               h = targetChat) /\
    (forall h, In h (chatHistories wf) -> h_id h <> h_id targetChat ->
               In h (chatHistories w0)).
Proof.
  intros isAuthenticated content w targetChat w0 updatedChat w1 e w2
    Hresolve Happend Hdispatch wf.
  assert (Hrun : Chat.sendMessage env fuel isAuthenticated content w
                 = Chat.rollback targetChat w2).
  { unfold Chat.sendMessage.
    rewrite (bind_resolved _ _ _ _ _ Hresolve).
    rewrite (bind_resolved _ _ _ _ _ Happend).
    rewrite (try_catch_rejected _ _ _ _ _ Hdispatch). reflexivity. }
  apply dispatch_rejected_frame in Hdispatch. destruct Hdispatch as [Hh2 _].
  assert (Hh1 : chatHistories w1
                = Chat.replaceById (h_id targetChat) updatedChat (chatHistories w0)
                /\ h_id updatedChat = h_id targetChat).
  { revert Happend. unfold Chat.optimisticAppend. run.
    intros H. injection H as <- <-. split; reflexivity. }
  destruct Hh1 as [Hh1 Hid].
  assert (Hfinal : chatHistories wf
            = Chat.replaceById (h_id targetChat) targetChat (chatHistories w0)).
  { subst wf. rewrite Hrun. unfold Chat.rollback. run.
    rewrite Hh2, Hh1. apply replaceById_twice. exact Hid. }
  split; [rewrite Hrun; reflexivity |].
  split; [subst wf; rewrite Hrun; reflexivity |].
  split; [exact Hfinal |].
  rewrite Hfinal. split; intros h Hin Hh.
  - eapply replaceById_hit; eauto.
  - eapply replaceById_miss; eauto.
Qed.

Lemma optimisticAppend_run targetChat content w :
  exists updatedChat w1,
    Chat.optimisticAppend env targetChat content w = (Resolved updatedChat, w1) /\
    h_id updatedChat = h_id targetChat /\
    h_title updatedChat = Chat.speculativeTitle targetChat content /\
    (exists userMessage,
       h_messages updatedChat = h_messages targetChat ++ [userMessage] /\
       m_content userMessage = content /\ m_role userMessage = RoleUser) /\
    currentChat w1 = Some updatedChat /\
    chatHistories w1
      = Chat.replaceById (h_id targetChat) updatedChat (chatHistories w) /\
    net_log w1 = net_log w /\ timers w1 = timers w /\
    accessToken w1 = accessToken w /\ localStorage w1 = localStorage w.
Proof.
  unfold Chat.optimisticAppend. run.
  eexists. eexists. split; [reflexivity |]. cbn.
  repeat split; try reflexivity.
  eexists. split; [reflexivity |]. split; reflexivity.
Qed.

(** C5.  The optimistic update of [sendMessage] sets the title of a
    session whose message list is empty to the first 30 characters of
    the content followed by three dots: the title is [head] followed
    by the dots, where the content is [head] followed by some [rest]
    and [head] has 30 characters, or the length of the content when
    that is less.  The dots are there also when the content has 30
    characters or fewer, when the title is the whole content followed
    by them.  The title of a session that has messages is kept.  The
    session so updated is the current one and stands for the session
    in the directory while the dispatch step runs. *)
Theorem optimistic_title :
  forall isAuthenticated content w targetChat w0,
    Chat.resolveTarget env fuel isAuthenticated w
      = (Resolved (Some targetChat), w0) ->
    exists updatedChat w1,
      Chat.optimisticAppend env targetChat content w0
        = (Resolved updatedChat, w1) /\
      Chat.sendMessage env fuel isAuthenticated content w
        = try_catch
            (Chat.dispatch env fuel isAuthenticated targetChat updatedChat content)
            (fun error => Chat.rollback targetChat) w1 /\
      currentChat w1 = Some updatedChat /\
      (forall h, In h (chatHistories w1) -> h_id h = h_id targetChat ->
                 h = updatedChat) /\
      (h_messages targetChat = [] ->
         h_title updatedChat = Js.slice0 content 30 +:+ "..." /\
         ((String.length content <= 30)%nat ->
            h_title updatedChat = content +:+ "...") /\
         (exists head rest,
            content = head +:+ rest /\
            String.length head = Nat.min 30 (String.length content) /\
            h_title updatedChat = head +:+ "...")) /\
      (h_messages targetChat <> [] ->
         h_title updatedChat = h_title targetChat).
Proof.
  intros isAuthenticated content w targetChat w0 Hresolve.
  destruct (optimisticAppend_run targetChat content w0)
    as (updatedChat & w1 & Happend & Hid & Htitle & _ & Hcur & Hdir & _).
  exists updatedChat, w1.
  split; [exact Happend |].
  split.
  { unfold Chat.sendMessage.
    rewrite (bind_resolved _ _ _ _ _ Hresolve).
    rewrite (bind_resolved _ _ _ _ _ Happend). reflexivity. }
  split; [exact Hcur |].
  split.
  { intros h Hin Hh. rewrite Hdir in Hin. eapply replaceById_hit; eauto. }
  rewrite Htitle. unfold Chat.speculativeTitle. split.
  - intros Hempty. rewrite Hempty. simpl. split; [reflexivity |]. split.
    + intros Hshort. rewrite slice0_short by exact Hshort. reflexivity.
    + destruct (slice0_prefix content 30) as (rest & Hcontent & Hlen).
      exists (Js.slice0 content 30), rest.
      split; [exact Hcontent |]. split; [exact Hlen | reflexivity].
  - intros Hsome. destruct (h_messages targetChat); [contradiction | reflexivity].
Qed.

(** The dispatch step on a remote session, once the two first calls
    have succeeded. *)
Lemma dispatch_remote_run targetChat updatedChat content w1 reply w2 messages w3 :
  Chat.isLocal (h_id targetChat) = false ->
  Api.sendMessage env fuel (Js.parseInt (h_id targetChat)) content w1
    = (Resolved reply, w2) ->
  Api.getChatMessages env fuel (Js.parseInt (h_id targetChat)) w2
    = (Resolved messages, w3) ->
  exists finalChat w4,
    h_id finalChat = h_id updatedChat /\
    h_title finalChat = h_title updatedChat /\
    h_messages finalChat = List.map Chat.convertMessage messages /\
    currentChat w4 = Some finalChat /\
    chatHistories w4
      = Chat.replaceById (h_id targetChat) finalChat (chatHistories w3) /\
    net_log w4 = net_log w3 /\ accessToken w4 = accessToken w3 /\
    Chat.dispatch env fuel true targetChat updatedChat content w1
      = if (List.length (h_messages targetChat) =? 0)%nat then
          try_catch
            (title <- Api.updateSessionTitle env fuel (Js.parseInt (h_id targetChat)) ;;
             let chatWithTitle :=
               mkChatHistory (h_id finalChat) title (h_messages finalChat)
                 (h_createdAt finalChat) (h_updatedAt finalChat) in
             Chat.setCurrentChat (Some chatWithTitle) ;;;
             Chat.setChatHistories
               (Chat.replaceById (h_id targetChat) chatWithTitle))
            (fun titleError => ret tt) w4
        else (Resolved tt, w4).
Proof.
  intros Hremote Hsend Hget.
  unfold Chat.dispatch. rewrite Hremote. cbn [andb negb].
  cbv zeta.
  rewrite (bind_resolved _ _ _ _ _ Hsend).
  rewrite (bind_resolved _ _ _ _ _ Hget).
  eexists. eexists.
  repeat (split; [shelve |]).
  unfold bind at 1. unfold newDate at 1. unfold bind at 1. unfold readClock at 1.
  unfold ret at 1. cbv beta iota.
  unfold bind at 1. unfold Chat.setCurrentChat at 1. unfold modify at 1.
  cbv beta iota.
  unfold bind at 1. unfold Chat.setChatHistories at 1. unfold modify at 1.
  cbv beta iota.
  destruct (List.length (h_messages targetChat) =? 0)%nat; reflexivity.
  Unshelve. all: reflexivity.
Qed.

Lemma convertMessage_pointwise (messages : list ApiMessage) :
  Forall2
    (fun msg m =>
       m_id m = Js.toString (api_id msg) /\
       m_content m = api_content msg /\
       m_role m = (if is_user_message msg then RoleUser else RoleAssistant) /\
       m_timestamp m = Js.DateOfString (api_timestamp msg))
    messages (List.map Chat.convertMessage messages).
Proof.
  induction messages as [| msg l IH]; simpl; constructor; [| exact IH].
  repeat split.
Qed.

(** The outcome of the run of [sendMessage] whose two calls succeed,
    in terms of the conversion of the messages. *)
Lemma sendMessage_remote_run :
  forall content w targetChat w0 updatedChat w1 reply w2 messages w3,
    Chat.resolveTarget env fuel true w = (Resolved (Some targetChat), w0) ->
    Chat.isLocal (h_id targetChat) = false ->
    Chat.optimisticAppend env targetChat content w0 = (Resolved updatedChat, w1) ->
    Api.sendMessage env fuel (Js.parseInt (h_id targetChat)) content w1
      = (Resolved reply, w2) ->
    Api.getChatMessages env fuel (Js.parseInt (h_id targetChat)) w2
      = (Resolved messages, w3) ->
    let wf := snd (Chat.sendMessage env fuel true content w) in
    exists c,
      currentChat wf = Some c /\
      h_id c = h_id targetChat /\
      h_messages c = List.map Chat.convertMessage messages /\
      (forall h, In h (chatHistories wf) -> h_id h = h_id targetChat -> h = c).
Proof.
  intros content w targetChat w0 updatedChat w1 reply w2 messages w3
    Hresolve Hremote Happend Hsend Hget wf.
  assert (Hid : h_id updatedChat = h_id targetChat).
  { destruct (optimisticAppend_run targetChat content w0)
      as (u & w' & Hrun & Hid & _). rewrite Hrun in Happend.
    injection Happend as <- _. exact Hid. }
  destruct (dispatch_remote_run targetChat updatedChat content w1 reply w2
              messages w3 Hremote Hsend Hget)
    as (finalChat & w4 & Hfid & _ & Hmsgs & Hcur & Hdir & _ & _ & Hrun).
  assert (Hfid' : h_id finalChat = h_id targetChat) by congruence.
  assert (Hsm : Chat.sendMessage env fuel true content w
                = match Chat.dispatch env fuel true targetChat updatedChat content w1 with
                  | (Rejected e, w') => Chat.rollback targetChat w'
                  | r => r
                  end).
  { unfold Chat.sendMessage.
    rewrite (bind_resolved _ _ _ _ _ Hresolve).
    rewrite (bind_resolved _ _ _ _ _ Happend). reflexivity. }
  subst wf. rewrite Hsm, Hrun. clear Hsm Hrun.
  destruct (List.length (h_messages targetChat) =? 0)%nat.
  - unfold try_catch, bind.
    destruct (Api.updateSessionTitle env fuel (Js.parseInt (h_id targetChat)) w4)
      as [[title | e | why] w5] eqn:Htitle;
      (apply api_frame_of in Htitle;
         [| apply stable_updateSessionTitle; auto with frames; typeclasses eauto]);
      destruct Htitle as (_ & _ & _ & _ & _ & Hh5 & Hc5 & _).
    + run. eexists. split; [reflexivity |]. cbn.
      split; [exact Hfid' |]. split; [exact Hmsgs |].
      intros h Hin Hh. eapply replaceById_hit; eauto.
    + run. exists finalChat. rewrite Hc5, Hh5, Hdir.
      split; [exact Hcur |]. split; [exact Hfid' |]. split; [exact Hmsgs |].
      intros h Hin Hh. eapply replaceById_hit; eauto.
    + run. exists finalChat. rewrite Hc5, Hh5, Hdir.
      split; [exact Hcur |]. split; [exact Hfid' |]. split; [exact Hmsgs |].
      intros h Hin Hh. eapply replaceById_hit; eauto.
  - simpl. exists finalChat. rewrite Hdir.
    split; [exact Hcur |]. split; [exact Hfid' |]. split; [exact Hmsgs |].
    intros h Hin Hh. eapply replaceById_hit; eauto.
Qed.

(** C2.  A [sendMessage] on a remote session of an authenticated
    user whose two calls succeed, the one that sends the content and
    the one that fetches the log again, leaves the current session and
    every directory entry of its id with exactly the log the server
    returned: as many messages, in the order of the server, each with
    the id, the content, the role and the time stamp of the message of
    the server at its place.  Nothing of the list held before, the
    message appended by the optimistic update included, is left. *)
Theorem sendMessage_reconciles :
  forall content w targetChat w0 updatedChat w1 reply w2 messages w3,
    Chat.resolveTarget env fuel true w = (Resolved (Some targetChat), w0) ->
    Chat.isLocal (h_id targetChat) = false ->
    Chat.optimisticAppend env targetChat content w0 = (Resolved updatedChat, w1) ->
    Api.sendMessage env fuel (Js.parseInt (h_id targetChat)) content w1
      = (Resolved reply, w2) ->
    Api.getChatMessages env fuel (Js.parseInt (h_id targetChat)) w2
      = (Resolved messages, w3) ->
    let wf := snd (Chat.sendMessage env fuel true content w) in
    exists c,
      currentChat wf = Some c /\
      h_id c = h_id targetChat /\
      h_messages c = List.map Chat.convertMessage messages /\
      (forall h, In h (chatHistories wf) -> h_id h = h_id targetChat -> h = c) /\
      List.length (h_messages c) = List.length messages /\
      Forall2
        (fun msg m =>
           m_id m = Js.toString (api_id msg) /\
           m_content m = api_content msg /\
           m_role m = (if is_user_message msg then RoleUser else RoleAssistant) /\
           m_timestamp m = Js.DateOfString (api_timestamp msg))
        messages (h_messages c).
Proof.
  intros content w targetChat w0 updatedChat w1 reply w2 messages w3
    Hresolve Hremote Happend Hsend Hget wf.
  destruct (sendMessage_remote_run content w targetChat w0 updatedChat w1 reply w2
              messages w3 Hresolve Hremote Happend Hsend Hget)
    as (c & Hcur & Hid & Hmsgs & Hdir).
  exists c. split; [exact Hcur |]. split; [exact Hid |]. split; [exact Hmsgs |].
  split; [exact Hdir |]. rewrite Hmsgs.
  split; [apply List.length_map | apply convertMessage_pointwise].
Qed.

(** C9.  [sendMessage] takes the message for the first of its
    session when the list it holds in memory is empty, whatever log
    the server returns for the session: on a remote session with an
    empty local list it overwrites the title with the speculative one
    and, once the content is sent and the log fetched, asks the server
    for a generated title; with a local list that is not empty it
    keeps the title and makes no further call. *)
Theorem first_message_test_reads_local_list :
  forall content w targetChat w0 updatedChat w1 reply w2 messages w3,
    Chat.resolveTarget env fuel true w = (Resolved (Some targetChat), w0) ->
    Chat.isLocal (h_id targetChat) = false ->
    Chat.optimisticAppend env targetChat content w0 = (Resolved updatedChat, w1) ->
    Api.sendMessage env fuel (Js.parseInt (h_id targetChat)) content w1
      = (Resolved reply, w2) ->
    Api.getChatMessages env fuel (Js.parseInt (h_id targetChat)) w2
      = (Resolved messages, w3) ->
    let wf := snd (Chat.sendMessage env fuel true content w) in
    let titleCall :=
      Api.mkCall env
        (Api.sessionPath (Js.parseInt (h_id targetChat)) +:+ "/title")
        (mkRequestInit (Some POST) None)
        (if Js.truthy (accessToken w3)
         then Some (Api.bearer (accessToken w3)) else None) in
    (h_messages targetChat = [] ->
       h_title updatedChat = Js.slice0 content 30 +:+ "..." /\
       issues_first titleCall w3 wf) /\
    (h_messages targetChat <> [] ->
       h_title updatedChat = h_title targetChat /\
       net_log wf = net_log w3).
Proof.
  intros content w targetChat w0 updatedChat w1 reply w2 messages w3
    Hresolve Hremote Happend Hsend Hget wf titleCall.
  assert (Htitle : h_title updatedChat = Chat.speculativeTitle targetChat content).
  { destruct (optimisticAppend_run targetChat content w0)
      as (u & w' & Hrun & _ & Ht & _). rewrite Hrun in Happend.
    injection Happend as <- _. exact Ht. }
  destruct (dispatch_remote_run targetChat updatedChat content w1 reply w2
              messages w3 Hremote Hsend Hget)
    as (finalChat & w4 & _ & _ & _ & _ & _ & Hnet & Htok & Hrun).
  assert (Hsm : Chat.sendMessage env fuel true content w
                = match Chat.dispatch env fuel true targetChat updatedChat content w1 with
                  | (Rejected e, w') => Chat.rollback targetChat w'
                  | r => r
                  end).
  { unfold Chat.sendMessage.
    rewrite (bind_resolved _ _ _ _ _ Hresolve).
    rewrite (bind_resolved _ _ _ _ _ Happend). reflexivity. }
  assert (Hfuel : exists fuel', fuel = S fuel').
  { destruct fuel as [| fuel']; [discriminate Hsend | eauto]. }
  destruct Hfuel as [fuel' Hfuel].
  subst wf. rewrite Hsm, Hrun, Htitle. clear Hsm Hrun.
  unfold Chat.speculativeTitle. split.
  - intros Hempty. rewrite Hempty. cbn [List.length Nat.eqb].
    split; [reflexivity |].
    assert (Hissue : issues_first titleCall w4
              (snd (try_catch
                 (title <- Api.updateSessionTitle env fuel (Js.parseInt (h_id targetChat)) ;;
                  let chatWithTitle :=
                    mkChatHistory (h_id finalChat) title (h_messages finalChat)
                      (h_createdAt finalChat) (h_updatedAt finalChat) in
                  Chat.setCurrentChat (Some chatWithTitle) ;;;
                  Chat.setChatHistories
                    (Chat.replaceById (h_id targetChat) chatWithTitle))
                 (fun titleError => ret tt) w4))).
    { apply try_catch_issues_first;
        [| intros; apply stable_ret; typeclasses eauto].
      apply bind_issues_first.
      - unfold Api.updateSessionTitle. apply bind_issues_first.
        + subst titleCall. rewrite <- Htok, Hfuel. apply request_issues_first.
        + intros p. unfold Api.asTitle. stable_api.
      - intros title. cbv zeta. unfold Chat.setCurrentChat, Chat.setChatHistories.
        repeat first [ stable_step
                     | apply stable_modify; intros; auto with frames ]. }
    destruct Hissue as [l Hl].
    match goal with
    | |- issues_first _ _ (snd (match ?r with _ => _ end)) =>
        destruct r as [[[] | e | why] w5]
    end; simpl in Hl |- *; exists l; simpl; rewrite Hl, Hnet; reflexivity.
  - intros Hsome.
    destruct (h_messages targetChat) as [| m ms]; [contradiction |].
    cbn [List.length Nat.eqb]. split; [reflexivity |]. simpl. exact Hnet.
Qed.

End ChatFacts.

(** ** The reaction to a change of the authentication state *)

Section Transition.

Variable env : Env.
Variable fuel : nat.

Lemma convertApiChatToLocal_pointwise (sessions : list ChatSession) :
  Forall2
    (fun session h =>
       h_id h = Js.toString (session_id session) /\
       h_title h = session_title session /\
       h_messages h = [] /\
       h_createdAt h = Js.DateOfString (session_created_at session) /\
       h_updatedAt h = Js.DateOfString (session_updated_at session))
    sessions
    (List.map (fun session => Chat.convertApiChatToLocal session []) sessions).
Proof.
  induction sessions as [| session l IH]; simpl; constructor; [| exact IH].
  repeat split.
Qed.

(** C4, as the code has it.  On the transition to the authenticated
    state the list of sessions is requested.  When the request fails,
    the directory and the current session are as they were.  When the
    list arrives, the directory is exactly that list, whatever it held
    before: one entry for each session of the server, in the order of
    the server, with the id, the title and the dates of that session
    and no messages.  When a session was current, it stays current.
    When no session was current and the list is empty, no session is
    current.  When no session was current and the server has a
    session, the log of the most recent one is requested: if the log
    arrives, that session becomes current, with its id, title and
    dates and with the messages of the log, each with the id, the
    content, the role and the time stamp the server gave; if the
    request fails, no session is current.  The effect completes in all
    these cases. *)
Theorem authenticated_transition_reloads :
  forall w,
    let res := Chat.authEffect env fuel true w in
    (forall e w1,
       Api.getChatSessions env fuel (with_chat_isLoading true w) = (Rejected e, w1) ->
       fst res = Resolved tt /\
       chatHistories (snd res) = chatHistories w /\
       currentChat (snd res) = currentChat w) /\
    (forall sessions w1,
       Api.getChatSessions env fuel (with_chat_isLoading true w)
         = (Resolved sessions, w1) ->
       let histories :=
         List.map (fun session => Chat.convertApiChatToLocal session []) sessions in
       chatHistories (snd res) = histories /\
       Forall2
         (fun session h =>
            h_id h = Js.toString (session_id session) /\
            h_title h = session_title session /\
            h_messages h = [] /\
            h_createdAt h = Js.DateOfString (session_created_at session) /\
            h_updatedAt h = Js.DateOfString (session_updated_at session))
         sessions (chatHistories (snd res)) /\
       match currentChat w, sessions with
       | Some c, _ => fst res = Resolved tt /\ currentChat (snd res) = Some c
       | None, [] => fst res = Resolved tt /\ currentChat (snd res) = None
       | None, session0 :: _ =>
           (forall messages w2,
              Api.getChatMessages env fuel
                (Js.parseInt (Js.toString (session_id session0)))
                (with_chatHistories histories w1) = (Resolved messages, w2) ->
              fst res = Resolved tt /\
              exists c,
                currentChat (snd res) = Some c /\
                c = Chat.convertApiChatToLocal session0 messages /\
                h_id c = Js.toString (session_id session0) /\
                h_title c = session_title session0 /\
                h_createdAt c = Js.DateOfString (session_created_at session0) /\
                h_updatedAt c = Js.DateOfString (session_updated_at session0) /\
                Forall2
                  (fun msg m =>
                     m_id m = Js.toString (api_id msg) /\
                     m_content m = api_content msg /\
                     m_role m
                       = (if is_user_message msg then RoleUser else RoleAssistant) /\
                     m_timestamp m = Js.DateOfString (api_timestamp msg))
                  messages (h_messages c)) /\
           (forall e w2,
              Api.getChatMessages env fuel
                (Js.parseInt (Js.toString (session_id session0)))
                (with_chatHistories histories w1) = (Rejected e, w2) ->
              fst res = Resolved tt /\ currentChat (snd res) = None)
       end).
Proof.
  intros w res. split.
  - intros e w1 Hlist.
    assert (Hframe : api_frame (with_chat_isLoading true w) w1).
    { eapply api_frame_of; [| exact Hlist].
      apply stable_getChatSessions; auto with frames. typeclasses eauto. }
    destruct Hframe as (_ & _ & _ & _ & _ & Hh & Hc & _).
    revert Hh Hc. fields. intros Hh Hc.
    subst res. unfold Chat.authEffect, Chat.loadChatSessions. cbn [negb]. run.
    rewrite Hlist. run. repeat split; try reflexivity; assumption.
  - intros sessions w1 Hlist histories.
    assert (H1 : api_frame (with_chat_isLoading true w) w1).
    { eapply api_frame_of; [| exact Hlist].
      apply stable_getChatSessions; auto with frames. typeclasses eauto. }
    destruct H1 as (_ & _ & _ & _ & _ & _ & Hc1 & _).
    revert Hc1. fields. intros Hc1.
    assert (Hrun : res
              = try_finally
                  (try_catch
                     (match histories, sessions, currentChat w with
                      | mostRecent :: _, session0 :: _, None =>
                          messages <-
                            Api.getChatMessages env fuel
                              (Js.parseInt (h_id mostRecent)) ;;
                          Chat.setCurrentChat
                            (Some (Chat.convertApiChatToLocal session0 messages))
                      | _, _, _ => ret tt
                      end)
                     (fun error => ret tt))
                  (with_chat_isLoading false)
                  (with_chatHistories histories w1)).
    { subst res. unfold Chat.authEffect, Chat.loadChatSessions. cbn [negb].
      unfold bind at 1. unfold gets at 1. cbv beta iota.
      unfold try_finally, try_catch.
      unfold bind at 1. unfold Chat.setIsLoading at 1. unfold modify at 1.
      cbv beta iota.
      rewrite (bind_resolved _ _ _ _ _ Hlist).
      unfold bind at 1. unfold Chat.setChatHistories at 1. unfold modify at 1.
      cbv beta iota zeta. reflexivity. }
    assert (Hdir : chatHistories (snd res) = histories).
    { rewrite Hrun.
      destruct (currentChat w) as [c |];
        [destruct histories, sessions; reflexivity |].
      destruct sessions as [| session0 rest]; [reflexivity |].
      subst histories. cbn [List.map]. unfold try_finally, try_catch, bind.
      match goal with
      | |- context [Api.getChatMessages ?a ?b ?c ?d] =>
          destruct (Api.getChatMessages a b c d) as [[ms | e | why] w2] eqn:Hget
      end;
        (apply api_frame_of in Hget;
           [| apply stable_getChatMessages; auto with frames; typeclasses eauto]);
        destruct Hget as (_ & _ & _ & _ & _ & Hh2 & _); simpl; exact Hh2. }
    split; [exact Hdir |].
    split; [rewrite Hdir; apply convertApiChatToLocal_pointwise |].
    destruct (currentChat w) as [c |] eqn:Hcur.
    + rewrite Hrun. destruct histories, sessions; simpl; (split; [reflexivity | exact Hc1]).
    + destruct sessions as [| session0 rest].
      * rewrite Hrun. simpl. split; [reflexivity | exact Hc1].
      * split.
        -- intros messages w2 Hget. rewrite Hrun. subst histories.
           cbn [List.map Chat.convertApiChatToLocal h_id] in Hget |- *.
           unfold try_finally, try_catch, bind. rewrite Hget. run.
           split; [reflexivity |]. eexists. split; [reflexivity |].
           split; [reflexivity |].
           cbn [Chat.convertApiChatToLocal h_id h_title h_createdAt h_updatedAt
                h_messages].
           repeat (split; [reflexivity |]).
           apply convertMessage_pointwise.
        -- intros e w2 Hget.
           assert (H2 : api_frame (with_chatHistories histories w1) w2).
           { eapply api_frame_of; [| exact Hget].
             apply stable_getChatMessages; auto with frames. typeclasses eauto. }
           destruct H2 as (_ & _ & _ & _ & _ & _ & Hc2 & _).
           revert Hc2. fields. intros Hc2.
           rewrite Hrun. subst histories.
           cbn [List.map Chat.convertApiChatToLocal h_id] in Hget |- *.
           unfold try_finally, try_catch, bind. rewrite Hget. run.
           split; [reflexivity | congruence].
Qed.

End Transition.

(** C4, as the specification words it, fails: a user who chatted
    anonymously and logs in keeps the local session as the current one,
    although the server lists a session and the directory now holds
    that session only. *)
Lemma transition_keeps_current_session :
  fst (Api.getChatSessions Demo.env 2 (with_chat_isLoading true Demo.justLoggedIn))
    = Resolved [Demo.session5] /\
  currentChat Demo.justLoggedIn = Some Demo.localChat /\
  chatHistories (snd (Chat.authEffect Demo.env 2 true Demo.justLoggedIn))
    = [Demo.listed5] /\
  currentChat (snd (Chat.authEffect Demo.env 2 true Demo.justLoggedIn))
    = Some Demo.localChat /\
  currentChat (snd (Chat.authEffect Demo.env 2 true Demo.justLoggedIn))
    <> Some Demo.loaded5.
Proof.
  split; [vm_compute; reflexivity |].
  split; [reflexivity |].
  split; [vm_compute; reflexivity |].
  split; [vm_compute; reflexivity |].
  vm_compute. discriminate.
Qed.

(** ** The arithmetic of doubles *)

Section Binary64.

Local Open Scope Q_scope.

(** Powers of two with an integer exponent. *)
Lemma pow2_pos (e : Z) : 0 < 2 ^ e.
Proof. apply Qpower_0_lt. reflexivity. Qed.















(** The rounding to an integer moves a number by one half at most. *)
Lemma roundHalfEven_near (y : Q) :
  inject_Z (Js.roundHalfEven y) - (1 # 2) <= y /\
  y <= inject_Z (Js.roundHalfEven y) + (1 # 2).
Proof.
  unfold Js.roundHalfEven.
  pose proof (Qfloor_le y) as Hf. pose proof (Qlt_floor y) as Hc.
  rewrite inject_Z_plus in Hc. change (inject_Z 1) with 1 in Hc.
  destruct (y - inject_Z (Qfloor y) ?= 1 # 2) eqn:Hcmp.
  - apply Qeq_alt in Hcmp.
    destruct (Z.even (Qfloor y)); rewrite ?inject_Z_plus;
      change (inject_Z 1) with 1; set (f := inject_Z (Qfloor y)) in *;
      clearbody f; lra.
  - apply Qlt_alt in Hcmp. set (f := inject_Z (Qfloor y)) in *. clearbody f. lra.
  - apply Qgt_alt in Hcmp. rewrite inject_Z_plus. change (inject_Z 1) with 1.
    set (f := inject_Z (Qfloor y)) in *. clearbody f. lra.
Qed.

(** [Js.binary64 x] is a multiple of the unit in the last place of
    [x], half a unit away from [x] at most. *)
Lemma binary64_near (x : Q) :
  Js.binary64 x - (1 # 2) * 2 ^ Js.ulpExponent x <= x /\
  x <= Js.binary64 x + (1 # 2) * 2 ^ Js.ulpExponent x.
Proof.
  unfold Js.binary64. cbv zeta.
  pose proof (pow2_pos (Js.ulpExponent x)) as Hu.
  destruct (roundHalfEven_near (x / 2 ^ Js.ulpExponent x)) as [Hlo Hhi].
  set (N := inject_Z (Js.roundHalfEven (x / 2 ^ Js.ulpExponent x))) in *.
  clearbody N.
  assert (Hx : x == x / 2 ^ Js.ulpExponent x * 2 ^ Js.ulpExponent x).
  { field. intros H. rewrite H in Hu. discriminate Hu. }
  set (y := x / 2 ^ Js.ulpExponent x) in *. clearbody y.
  set (u := 2 ^ Js.ulpExponent x) in *. clearbody u.
  split.
  - rewrite Hx.
    assert (H : N * u - (1 # 2) * u == (N - (1 # 2)) * u) by ring.
    rewrite H. apply Qmult_le_compat_r; [exact Hlo | apply Qlt_le_weak; exact Hu].
  - rewrite Hx.
    assert (H : N * u + (1 # 2) * u == (N + (1 # 2)) * u) by ring.
    rewrite H. apply Qmult_le_compat_r; [exact Hhi | apply Qlt_le_weak; exact Hu].
Qed.








(** On the operands of [Machine.samples], the product and the sum of
    the model are the ones the machine computes. *)
Example binary64_agrees_with_the_machine :
  List.forallb
    (fun '(a, b) =>
       Machine.agrees PrimFloat.mul Js.mul a b
       && Machine.agrees PrimFloat.add Js.add a b)
    Machine.samples = true.
Proof. vm_compute. reflexivity. Qed.

End Binary64.

(** ** The local-only path *)

Section LocalPath.

Variable env : Env.
Variable fuel : nat.

Lemma isLocal_prefixed s : Chat.isLocal ("local-" +:+ s) = true.
Proof. unfold Chat.isLocal, Js.startsWith. simpl. destruct s; reflexivity. Qed.







End LocalPath.

(** ** What every step of [sendMessage] preserves *)

#[export] Instance keeps_session_preorder id : PreOrder (keeps_session id).
Proof.
  split.
  - intros w. split; [reflexivity | tauto].
  - intros a b c [Hab Hab'] [Hbc Hbc']. split; [etransitivity; eassumption | tauto].
Qed.

Section SendStability.

Context (R : World -> World -> Prop) `{!PreOrder R}.
Variable id : string.
Hypothesis R_token : forall v w, R w (with_accessToken v w).
Hypothesis R_storage : forall v w, R w (with_localStorage v w).
Hypothesis R_call : forall c w, R w (with_net_log (c :: net_log w) w).
Hypothesis R_ticks : forall v w, R w (with_ticks v w).
Hypothesis R_timers : forall v w, R w (with_timers v w).
Hypothesis R_current : forall c w, h_id c = id -> R w (with_currentChat (Some c) w).
Hypothesis R_directory : forall c w,
  h_id c = id ->
  R w (with_chatHistories (Chat.replaceById id c (chatHistories w)) w).

Lemma stable_readClock env : stable R (readClock env).
Proof. intros w. apply R_ticks. Qed.

Lemma stable_readRandom env : stable R (readRandom env).
Proof. intros w. apply R_ticks. Qed.

Lemma stable_readUuid env : stable R (readUuid env).
Proof. intros w. apply R_ticks. Qed.

Lemma stable_newDate env : stable R (newDate env).
Proof.
  unfold newDate. apply stable_bind; [typeclasses eauto | apply stable_readClock |].
  intros ms. apply stable_ret. typeclasses eauto.
Qed.

Lemma stable_sleep d : stable R (sleep d).
Proof. intros w. apply R_timers. Qed.

Lemma stable_setCurrent c : h_id c = id -> stable R (Chat.setCurrentChat (Some c)).
Proof. intros Hc w. apply R_current. exact Hc. Qed.

Lemma stable_replace c :
  h_id c = id -> stable R (Chat.setChatHistories (Chat.replaceById id c)).
Proof. intros Hc w. apply R_directory. exact Hc. Qed.

Ltac stable_send :=
  repeat
    lazymatch goal with
    | |- stable _ (Api.sendMessage _ _ _ _) =>
        apply stable_sendMessage; [typeclasses eauto | assumption ..]
    | |- stable _ (Api.getChatMessages _ _ _) =>
        apply stable_getChatMessages; [typeclasses eauto | assumption ..]
    | |- stable _ (Api.updateSessionTitle _ _ _) =>
        apply stable_updateSessionTitle; [typeclasses eauto | assumption ..]
    | |- stable _ (newDate _) => apply stable_newDate
    | |- stable _ (readUuid _) => apply stable_readUuid
    | |- stable _ (readRandom _) => apply stable_readRandom
    | |- stable _ (sleep _) => apply stable_sleep
    | |- stable _ (Chat.setCurrentChat _) =>
        apply stable_setCurrent; cbn [h_id]; congruence
    | |- stable _ (Chat.setChatHistories _) =>
        apply stable_replace; cbn [h_id]; congruence
    | |- stable _ (ret _) => apply stable_ret; typeclasses eauto
    | |- stable _ (halt _) => apply stable_halt; typeclasses eauto
    | |- stable _ (bind _ _) => apply stable_bind; [typeclasses eauto | | intros ?]
    | |- stable _ (try_catch _ _) =>
        apply stable_try_catch; [typeclasses eauto | | intros ?]
    | |- stable _ (if ?b then _ else _) => destruct b
    | |- stable _ (match ?x with _ => _ end) => destruct x
    end.

Lemma stable_optimisticAppend env targetChat content :
  h_id targetChat = id ->
  stable R (Chat.optimisticAppend env targetChat content).
Proof.
  intros Hid. unfold Chat.optimisticAppend. rewrite Hid. cbv zeta. stable_send.
Qed.

Lemma stable_dispatch env fuel isAuthenticated targetChat updatedChat content :
  h_id targetChat = id -> h_id updatedChat = id ->
  stable R (Chat.dispatch env fuel isAuthenticated targetChat updatedChat content).
Proof.
  intros Hid Hid'. unfold Chat.dispatch. rewrite Hid. cbv zeta. stable_send.
Qed.

Lemma stable_rollback targetChat :
  h_id targetChat = id -> stable R (Chat.rollback targetChat).
Proof.
  intros Hid. unfold Chat.rollback. rewrite Hid. stable_send.
Qed.

(** [sendMessage] from the optimistic update on. *)
Lemma stable_send_from_append env fuel isAuthenticated targetChat content :
  h_id targetChat = id ->
  stable R
    (updatedChat <- Chat.optimisticAppend env targetChat content ;;
     try_catch
       (Chat.dispatch env fuel isAuthenticated targetChat updatedChat content)
       (fun error => Chat.rollback targetChat)).
Proof.
  intros Hid w.
  destruct (optimisticAppend_run env targetChat content w)
    as (updatedChat & w1 & Happend & Hid' & _).
  rewrite (bind_resolved _ _ _ _ _ Happend).
  transitivity w1.
  - pose proof (stable_optimisticAppend env targetChat content Hid w) as H.
    rewrite Happend in H. exact H.
  - apply stable_try_catch; [typeclasses eauto | |].
    + apply stable_dispatch; congruence.
    + intros e. apply stable_rollback. exact Hid.
Qed.

End SendStability.

Lemma keeps_session_token id v w : keeps_session id w (with_accessToken v w).
Proof. split; [reflexivity | tauto]. Qed.

Lemma keeps_session_storage id v w : keeps_session id w (with_localStorage v w).
Proof. split; [reflexivity | tauto]. Qed.

Lemma keeps_session_call id c w :
  keeps_session id w (with_net_log (c :: net_log w) w).
Proof. split; [reflexivity | tauto]. Qed.

Lemma keeps_session_ticks id v w : keeps_session id w (with_ticks v w).
Proof. split; [reflexivity | tauto]. Qed.

Lemma keeps_session_timers id v w : keeps_session id w (with_timers v w).
Proof. split; [reflexivity | tauto]. Qed.

Lemma keeps_session_current id c w :
  h_id c = id -> keeps_session id w (with_currentChat (Some c) w).
Proof. intros Hc. split; [reflexivity |]. intros _. simpl. congruence. Qed.

Lemma keeps_session_directory id c w :
  h_id c = id ->
  keeps_session id w (with_chatHistories (Chat.replaceById id c (chatHistories w)) w).
Proof.
  intros Hc. split; [| tauto]. unfold ids_kept. simpl.
  apply replaceById_ids. exact Hc.
Qed.

Lemma net_extends_ticks v w : net_extends w (with_ticks v w).
Proof. exists []. reflexivity. Qed.

Lemma net_extends_timers v w : net_extends w (with_timers v w).
Proof. exists []. reflexivity. Qed.

#[local] Hint Resolve net_extends_ticks net_extends_timers : frames.

(** [stable net_extends m] for a chat operation [m], by its shape. *)
Ltac net_stable :=
  repeat
    lazymatch goal with
    | |- stable _ (Api.request _ _ _ _) =>
        apply stable_request; [typeclasses eauto | auto with frames ..]
    | |- stable _ (Api.sendMessage _ _ _ _) =>
        apply stable_sendMessage; [typeclasses eauto | auto with frames ..]
    | |- stable _ (Api.getChatMessages _ _ _) =>
        apply stable_getChatMessages; [typeclasses eauto | auto with frames ..]
    | |- stable _ (Api.updateSessionTitle _ _ _) =>
        apply stable_updateSessionTitle; [typeclasses eauto | auto with frames ..]
    | |- stable _ (Api.deleteChatSession _ _ _) =>
        apply stable_deleteChatSession; [typeclasses eauto | auto with frames ..]
    | |- stable _ (newDate _) =>
        apply stable_newDate; [typeclasses eauto | auto with frames]
    | |- stable _ (readUuid _) => apply stable_readUuid; auto with frames
    | |- stable _ (readRandom _) => apply stable_readRandom; auto with frames
    | |- stable _ (sleep _) => apply stable_sleep; auto with frames
    | |- stable _ (Chat.setCurrentChat _) =>
        apply stable_modify; intros; auto with frames
    | |- stable _ (Chat.setChatHistories _) =>
        apply stable_modify; intros; auto with frames
    | |- stable _ (Chat.setIsLoading _) =>
        apply stable_modify; intros; auto with frames
    | |- stable _ (Chat.removeChat _ _ _) => unfold Chat.removeChat; cbv zeta
    | |- stable _ (Chat.rollback _) => unfold Chat.rollback
    | |- stable _ (Api.asMessages _) => unfold Api.asMessages
    | |- stable _ (Api.asChatResponse _) => unfold Api.asChatResponse
    | |- stable _ (ret _) => apply stable_ret; typeclasses eauto
    | |- stable _ (halt _) => apply stable_halt; typeclasses eauto
    | |- stable _ (throw _) => apply stable_throw; typeclasses eauto
    | |- stable _ (bind _ _) => apply stable_bind; [typeclasses eauto | | intros ?]
    | |- stable _ (try_catch _ _) =>
        apply stable_try_catch; [typeclasses eauto | | intros ?]
    | |- stable _ (if ?b then _ else _) => destruct b
    | |- stable _ (match ?x with _ => _ end) => destruct x
    end.

Lemma try_finally_issues_first {A} c (m : M A) f w :
  issues_first c w (snd (m w)) ->
  (forall w', net_extends w' (f w')) ->
  issues_first c w (snd (try_finally m f w)).
Proof.
  intros Hm Hf. unfold try_finally.
  destruct (m w) as [[a | e | why] w1]; simpl in *; try exact Hm;
    (eapply issues_first_then; [exact Hm | apply Hf]).
Qed.

Lemma issues_first_from c w w' x :
  net_log w' = net_log w -> issues_first c w' x -> issues_first c w x.
Proof. intros Hn [l Hl]. exists l. rewrite Hl, Hn. reflexivity. Qed.

(** ** Which path an operation takes *)

Section Paths.

Variable env : Env.

Lemma resolveTarget_current fuel isAuthenticated w targetChat :
  currentChat w = Some targetChat ->
  Chat.resolveTarget env fuel isAuthenticated w = (Resolved (Some targetChat), w).
Proof.
  intros Hcur. unfold Chat.resolveTarget. unfold bind, gets.
  rewrite Hcur. reflexivity.
Qed.

Lemma sendMessage_current fuel isAuthenticated content w targetChat :
  currentChat w = Some targetChat ->
  Chat.sendMessage env fuel isAuthenticated content w
  = (updatedChat <- Chat.optimisticAppend env targetChat content ;;
     try_catch
       (Chat.dispatch env fuel isAuthenticated targetChat updatedChat content)
       (fun error => Chat.rollback targetChat)) w.
Proof.
  intros Hcur. unfold Chat.sendMessage.
  rewrite (bind_resolved _ _ _ _ _ (resolveTarget_current fuel isAuthenticated w _ Hcur)).
  reflexivity.
Qed.

(** Off the authenticated remote case the dispatch step makes no
    call, and neither does the rollback. *)
Lemma local_dispatch_offline fuel isAuthenticated targetChat updatedChat content w1 :
  isAuthenticated && negb (Chat.isLocal (h_id targetChat)) = false ->
  net_log (snd (try_catch
                  (Chat.dispatch env fuel isAuthenticated targetChat updatedChat content)
                  (fun error => Chat.rollback targetChat) w1))
  = net_log w1.
Proof.
  intros Hcond. unfold Chat.dispatch. rewrite Hcond. unfold try_catch.
  unfold bind at 1. unfold readRandom at 1. cbv beta iota zeta.
  destruct (Chat.pickResponse (mathRandom env (ticks w1))); [run |]; reflexivity.
Qed.

Lemma sendMessage_offline fuel isAuthenticated content w targetChat :
  currentChat w = Some targetChat ->
  isAuthenticated && negb (Chat.isLocal (h_id targetChat)) = false ->
  net_log (snd (Chat.sendMessage env fuel isAuthenticated content w)) = net_log w.
Proof.
  intros Hcur Hcond. rewrite (sendMessage_current _ _ _ _ _ Hcur).
  destruct (optimisticAppend_run env targetChat content w)
    as (updatedChat & w1 & Happend & _ & _ & _ & _ & _ & Hnet & _).
  rewrite (bind_resolved _ _ _ _ _ Happend).
  rewrite local_dispatch_offline by exact Hcond. exact Hnet.
Qed.

Lemma sendMessage_remote_call fuel content w targetChat :
  currentChat w = Some targetChat ->
  Chat.isLocal (h_id targetChat) = false ->
  issues_first
    (sessionCall env w POST
       (Api.sessionPath (Js.parseInt (h_id targetChat)) +:+ "/messages")
       (Some (BodyContent content)))
    w (snd (Chat.sendMessage env (S fuel) true content w)).
Proof.
  intros Hcur Hremote. rewrite (sendMessage_current _ _ _ _ _ Hcur).
  destruct (optimisticAppend_run env targetChat content w)
    as (updatedChat & w1 & Happend & _ & _ & _ & _ & _ & Hnet & _ & Htok & _).
  rewrite (bind_resolved _ _ _ _ _ Happend).
  apply (issues_first_from _ _ w1); [exact Hnet |].
  apply try_catch_issues_first; [| intros e; net_stable].
  unfold Chat.dispatch. rewrite Hremote. cbn [andb negb]. cbv zeta.
  apply bind_issues_first; [| intros r; net_stable].
  unfold Api.sendMessage.
  apply bind_issues_first; [| intros p; net_stable].
  unfold sessionCall. rewrite <- Htok. apply request_issues_first.
Qed.

Lemma selectChat_remote_call fuel chatId w :
  Chat.isLocal chatId = false ->
  issues_first
    (sessionCall env w GET
       (Api.sessionPath (Js.parseInt chatId) +:+ "/messages") None)
    w (snd (Chat.selectChat env (S fuel) true chatId w)).
Proof.
  intros Hremote. unfold Chat.selectChat.
  unfold bind at 1. unfold gets at 1. cbv beta iota.
  rewrite Hremote. cbn [negb].
  apply try_finally_issues_first; [| intros; auto with frames].
  apply try_catch_issues_first; [| intros e; net_stable].
  unfold bind at 1. unfold Chat.setIsLoading at 1. unfold modify at 1.
  cbv beta iota.
  apply (issues_first_from _ _ (with_chat_isLoading true w)); [reflexivity |].
  apply bind_issues_first; [| intros r; net_stable].
  unfold Api.getChatMessages.
  apply bind_issues_first; [| intros p; net_stable].
  assert (Hcall : forall c, sessionCall env w GET c None
                            = Api.mkCall env c (mkRequestInit None None)
                                (if Js.truthy (accessToken (with_chat_isLoading true w))
                                 then Some (Api.bearer (accessToken (with_chat_isLoading true w)))
                                 else None)) by reflexivity.
  rewrite Hcall. apply request_issues_first.
Qed.

Lemma deleteChat_remote_call fuel chatId w :
  Chat.isLocal chatId = false ->
  issues_first
    (sessionCall env w DELETE (Api.sessionPath (Js.parseInt chatId)) None)
    w (snd (Chat.deleteChat env (S fuel) true chatId w)).
Proof.
  intros Hremote. unfold Chat.deleteChat.
  unfold bind at 1. unfold gets at 1. cbv beta iota.
  unfold bind at 1. unfold gets at 1. cbv beta iota.
  rewrite Hremote. cbn [negb].
  apply try_catch_issues_first; [| intros e; net_stable].
  apply bind_issues_first; [| intros r; net_stable].
  unfold Api.deleteChatSession.
  apply bind_issues_first; [| intros p; net_stable].
  apply request_issues_first.
Qed.

Lemma selectChat_directory fuel isAuthenticated chatId w :
  chatHistories (snd (Chat.selectChat env fuel isAuthenticated chatId w))
  = chatHistories w.
Proof.
  unfold Chat.selectChat. unfold bind at 1. unfold gets at 1. cbv beta iota.
  destruct (Chat.isLocal chatId).
  - destruct (Chat.findById chatId (chatHistories w)); reflexivity.
  - destruct isAuthenticated; [| reflexivity]. cbn [negb].
    unfold try_finally, try_catch. run.
    match goal with
    | |- context [Api.getChatMessages ?a ?b ?c ?d] =>
        destruct (Api.getChatMessages a b c d) as [[ms | e | why] w1] eqn:Hget
    end;
      (apply api_frame_of in Hget;
         [| apply stable_getChatMessages; auto with frames; typeclasses eauto]);
      destruct Hget as (_ & _ & _ & _ & _ & Hh & _); simpl in Hh;
      try (destruct (Chat.findById chatId (chatHistories w))); run; exact Hh.
Qed.

Lemma deleteChat_directory fuel isAuthenticated chatId w :
  chatHistories (snd (Chat.deleteChat env fuel isAuthenticated chatId w))
    = chatHistories w \/
  chatHistories (snd (Chat.deleteChat env fuel isAuthenticated chatId w))
    = Chat.removeById chatId (chatHistories w).
Proof.
  unfold Chat.deleteChat, Chat.removeChat. run.
  destruct (Chat.isLocal chatId).
  - right. destruct (currentChat w) as [c |];
      [destruct (String.eqb (h_id c) chatId) |]; reflexivity.
  - destruct isAuthenticated; [| left; reflexivity]. cbn [negb].
    destruct (Api.deleteChatSession env fuel (Js.parseInt chatId) w)
      as [[[] | e | why] w1] eqn:Hdelete;
      (apply api_frame_of in Hdelete;
         [| apply stable_deleteChatSession; auto with frames; typeclasses eauto]);
      destruct Hdelete as (_ & _ & _ & _ & _ & Hh & _).
    + right. destruct (currentChat w) as [c |];
        [destruct (String.eqb (h_id c) chatId) |]; reflexivity.
    + left. exact Hh.
    + left. exact Hh.
Qed.

Lemma sendMessage_keeps_session fuel isAuthenticated content w targetChat :
  currentChat w = Some targetChat ->
  keeps_session (h_id targetChat) w
    (snd (Chat.sendMessage env fuel isAuthenticated content w)).
Proof.
  intros Hcur. rewrite (sendMessage_current _ _ _ _ _ Hcur).
  apply (stable_send_from_append (keeps_session (h_id targetChat)) (h_id targetChat));
    intros;
    auto using keeps_session_token, keeps_session_storage, keeps_session_call,
      keeps_session_ticks, keeps_session_timers, keeps_session_current,
      keeps_session_directory.
Qed.

(** C8, as the code has it.  A session whose id starts with
    [local-] is handled without any call, in [selectChat],
    [deleteChat] and [sendMessage] alike and whatever the
    authentication state.  A session of another id is handled by a
    call to its endpoint on the server when the provider is
    authenticated; when it is not, [selectChat] and [deleteChat] do
    nothing and [sendMessage] makes no call.  No operation rewrites an
    id: [sendMessage] keeps the ids of the directory and of the
    current session, [selectChat] keeps the directory, [deleteChat]
    keeps it or removes the entries of the id it was given. *)
Theorem path_follows_namespace_and_mode :
  forall fuel w,
    (forall isAuthenticated chatId,
       Chat.isLocal chatId = true ->
       net_log (snd (Chat.selectChat env fuel isAuthenticated chatId w)) = net_log w /\
       net_log (snd (Chat.deleteChat env fuel isAuthenticated chatId w)) = net_log w) /\
    (forall isAuthenticated content targetChat,
       currentChat w = Some targetChat ->
       Chat.isLocal (h_id targetChat) = true ->
       net_log (snd (Chat.sendMessage env fuel isAuthenticated content w))
         = net_log w) /\
    (forall chatId,
       Chat.isLocal chatId = false ->
       issues_first
         (sessionCall env w GET
            (Api.sessionPath (Js.parseInt chatId) +:+ "/messages") None)
         w (snd (Chat.selectChat env (S fuel) true chatId w)) /\
       issues_first
         (sessionCall env w DELETE (Api.sessionPath (Js.parseInt chatId)) None)
         w (snd (Chat.deleteChat env (S fuel) true chatId w))) /\
    (forall content targetChat,
       currentChat w = Some targetChat ->
       Chat.isLocal (h_id targetChat) = false ->
       issues_first
         (sessionCall env w POST
            (Api.sessionPath (Js.parseInt (h_id targetChat)) +:+ "/messages")
            (Some (BodyContent content)))
         w (snd (Chat.sendMessage env (S fuel) true content w))) /\
    (forall chatId,
       Chat.isLocal chatId = false ->
       Chat.selectChat env fuel false chatId w = (Resolved tt, w) /\
       Chat.deleteChat env fuel false chatId w = (Resolved tt, w)) /\
    (forall content targetChat,
       currentChat w = Some targetChat ->
       net_log (snd (Chat.sendMessage env fuel false content w)) = net_log w) /\
    (forall isAuthenticated content targetChat,
       currentChat w = Some targetChat ->
       keeps_session (h_id targetChat) w
         (snd (Chat.sendMessage env fuel isAuthenticated content w))) /\
    (forall isAuthenticated chatId,
       same_directory w (snd (Chat.selectChat env fuel isAuthenticated chatId w)) /\
       (same_directory w (snd (Chat.deleteChat env fuel isAuthenticated chatId w)) \/
        chatHistories (snd (Chat.deleteChat env fuel isAuthenticated chatId w))
          = Chat.removeById chatId (chatHistories w))).
Proof.
  intros fuel w.
  split.
  { intros isAuthenticated chatId Hlocal. split.
    - unfold Chat.selectChat. unfold bind at 1. unfold gets at 1. cbv beta iota.
      rewrite Hlocal. destruct (Chat.findById chatId (chatHistories w)); reflexivity.
    - unfold Chat.deleteChat, Chat.removeChat. run. rewrite Hlocal.
      destruct (currentChat w) as [c |];
        [destruct (String.eqb (h_id c) chatId) |]; reflexivity. }
  split.
  { intros isAuthenticated content targetChat Hcur Hlocal.
    apply sendMessage_offline with (targetChat := targetChat); [assumption |].
    rewrite Hlocal. apply andb_false_r. }
  split.
  { intros chatId Hremote. split.
    - apply selectChat_remote_call. assumption.
    - apply deleteChat_remote_call. assumption. }
  split.
  { intros content targetChat Hcur Hremote.
    apply sendMessage_remote_call; assumption. }
  split.
  { intros chatId Hremote. split.
    - unfold Chat.selectChat. run. rewrite Hremote. reflexivity.
    - unfold Chat.deleteChat. run. rewrite Hremote. reflexivity. }
  split.
  { intros content targetChat Hcur.
    apply sendMessage_offline with (targetChat := targetChat); [assumption |].
    reflexivity. }
  split.
  { intros isAuthenticated content targetChat Hcur.
    apply sendMessage_keeps_session. assumption. }
  intros isAuthenticated chatId. split.
  - apply selectChat_directory.
  - apply deleteChat_directory.
Qed.

End Paths.

(** C8, as the specification words it, fails: the id alone does not
    select the path.  With the same remote session current,
    [sendMessage] answers with a canned reply and makes no call when
    the provider is not authenticated, and calls the server when it
    is. *)
Lemma namespace_alone_does_not_select_path :
  currentChat Demo.staleRemote = Some Demo.loaded5 /\
  Chat.isLocal (h_id Demo.loaded5) = false /\
  net_log (snd (Chat.sendMessage Demo.env 2 false "Hello" Demo.staleRemote))
    = net_log Demo.staleRemote /\
  option_map (fun c => List.map m_content (List.skipn 2 (h_messages c)))
    (currentChat (snd (Chat.sendMessage Demo.env 2 false "Hello" Demo.staleRemote)))
    = Some ["Hello"; List.nth 1 Chat.mockResponses ""] /\
  net_log (snd (Chat.sendMessage Demo.env 2 true "Hello" Demo.staleRemote))
    <> net_log Demo.staleRemote.
Proof.
  split; [reflexivity |].
  split; [reflexivity |].
  split; [vm_compute; reflexivity |].
  split; [vm_compute; reflexivity |].
  vm_compute. discriminate.
Qed.

(** ** The refresh-and-retry path of the request executor *)

Section Refresh.

Variable env : Env.

(** The server answers every call, the refresh call included, with
    401. *)
Hypothesis unauthorized :
  forall past call,
    exists r, server env past call = FetchResolves r /\ status r = 401.

Lemma isRefreshCall_refresh o a :
  isRefreshCall env (Api.mkCall env "/auth/refresh" o a) = true.
Proof. unfold isRefreshCall, Api.mkCall. simpl. apply String.eqb_refl. Qed.

Lemma refreshCalls_cons c w :
  refreshCalls env (with_net_log (c :: net_log w) w)
  = ((if isRefreshCall env c then 1 else 0) + refreshCalls env w)%nat.
Proof.
  unfold refreshCalls. simpl. destruct (isRefreshCall env c); reflexivity.
Qed.

Lemma request_never_settles fuel : forall ep o w,
  Js.truthy (accessToken w) = true ->
  Js.truthy (localStorage w !! "refresh_token") = true ->
  exists w',
    Api.request env (S fuel) ep o w = (Unsettled OutOfFuel, w') /\
    accessToken w' = accessToken w /\
    localStorage w' = localStorage w /\
    refreshCalls env w'
    = (refreshCalls env w + fuel
       + (if isRefreshCall env
               (Api.mkCall env ep o (Some (Api.bearer (accessToken w))))
          then 1 else 0))%nat.
Proof.
  induction fuel as [| fuel IH]; intros ep o w Htoken Hrefresh.
  - cbn [Api.request]. unfold Api.refreshToken_with. run. unfold Api.getItem, fetch. run.
    rewrite Htoken.
    destruct (unauthorized (net_log w)
                (Api.mkCall env ep o (Some (Api.bearer (accessToken w)))))
      as (r & Hr & Hstatus).
    rewrite Hr. run. unfold ok. rewrite Hstatus.
    change (negb ((200 <=? 401) && (401 <=? 299))) with true.
    change (401 =? 401) with true. run. rewrite Htoken. cbn [andb]. run.
    rewrite Hrefresh. run.
    destruct (localStorage w !! "refresh_token") as [rt |] eqn:Hrt;
      [| discriminate Hrefresh].
    rewrite Hrefresh. run.
    eexists. split; [reflexivity |]. fields.
    split; [reflexivity |]. split; [reflexivity |].
    rewrite refreshCalls_cons. lia.
  - remember (S fuel) as n eqn:Hn.
    cbn [Api.request]. unfold Api.refreshToken_with. run. unfold Api.getItem, fetch. run.
    rewrite Htoken.
    set (call := Api.mkCall env ep o (Some (Api.bearer (accessToken w)))).
    destruct (unauthorized (net_log w) call) as (r & Hr & Hstatus).
    rewrite Hr. run. unfold ok. rewrite Hstatus.
    change (negb ((200 <=? 401) && (401 <=? 299))) with true.
    change (401 =? 401) with true. run. rewrite Htoken. cbn [andb]. run.
    rewrite Hrefresh. run.
    destruct (localStorage w !! "refresh_token") as [rt |] eqn:Hrt;
      [| discriminate Hrefresh].
    rewrite Hrefresh. run.
    subst n.
    destruct (IH "/auth/refresh"
                (mkRequestInit (Some POST) (Some (BodyRefresh rt)))
                (with_net_log (call :: net_log w) w))
      as (w' & Hrun & Ha & Hs & Hcount);
      [exact Htoken | fields; rewrite Hrt; exact Hrefresh |].
    rewrite Hrun. run.
    exists w'. split; [reflexivity |].
    split; [exact Ha |]. split; [exact Hs |].
    rewrite Hcount, isRefreshCall_refresh, refreshCalls_cons. lia.
Qed.

(** C1 at the input where the code departs from it.  Against a
    server that answers every call with 401, a request made with an
    access token attached and a refresh token stored never settles:
    whatever the bound on the depth of the recursion, the run uses it
    up, and it has by then called the refresh endpoint once per level,
    so more often than any fixed number.  Nothing is cleared and no
    error reaches the caller. *)
Theorem refresh_recurses_without_bound :
  forall fuel ep o w,
    Js.truthy (accessToken w) = true ->
    Js.truthy (localStorage w !! "refresh_token") = true ->
    fst (Api.request env (S fuel) ep o w) = Unsettled OutOfFuel /\
    (fuel <= refreshCalls env (snd (Api.request env (S fuel) ep o w)))%nat /\
    accessToken (snd (Api.request env (S fuel) ep o w)) = accessToken w /\
    localStorage (snd (Api.request env (S fuel) ep o w)) = localStorage w.
Proof.
  intros fuel ep o w Htoken Hrefresh.
  destruct (request_never_settles fuel ep o w Htoken Hrefresh)
    as (w' & Hrun & Ha & Hs & Hcount).
  rewrite Hrun. cbn [fst snd].
  split; [reflexivity |]. split; [lia |]. split; assumption.
Qed.

End Refresh.

Section RefreshOnce.

Variable env : Env.

(** A refresh request whose answer is not a 401 makes that one call
    and settles. *)
Lemma refresh_request_makes_one_call fuel rt w1 :
  match server env (net_log w1)
          (Api.mkCall env "/auth/refresh"
             (mkRequestInit (Some POST) (Some (BodyRefresh rt)))
             (if Js.truthy (accessToken w1)
              then Some (Api.bearer (accessToken w1)) else None)) with
  | FetchResolves r => status r <> 401
  | FetchRejects _ => True
  end ->
  exists out,
    Api.request env (S fuel) "/auth/refresh"
      (mkRequestInit (Some POST) (Some (BodyRefresh rt))) w1
    = (out,
       with_net_log
         (Api.mkCall env "/auth/refresh"
            (mkRequestInit (Some POST) (Some (BodyRefresh rt)))
            (if Js.truthy (accessToken w1)
             then Some (Api.bearer (accessToken w1)) else None)
          :: net_log w1) w1) /\
    out <> Unsettled OutOfFuel.
Proof.
  intros Hanswer. cbn [Api.request]. unfold fetch. run.
  set (rc := Api.mkCall env "/auth/refresh" _ _) in *.
  destruct (server env (net_log w1) rc) as [e | r].
  - run. destruct (Js.isTypeError e && Js.includes (Js.message e) "fetch"); run;
      eexists; (split; [reflexivity | discriminate]).
  - run. destruct (ok r) eqn:Hok; cbn [negb]; run.
    + destruct (json r); run; eexists; (split; [reflexivity | discriminate]).
    + apply Z.eqb_neq in Hanswer. rewrite Hanswer. cbn [andb]. run.
      eexists; (split; [reflexivity | discriminate]).
Qed.


Lemma isRefreshCall_mkCall ep o a a' :
  isRefreshCall env (Api.mkCall env ep o a) = isRefreshCall env (Api.mkCall env ep o a').
Proof. reflexivity. Qed.

(** The three conclusions of the lemma below, at the end of a run. *)
Ltac conclude Hcount Hcleared :=
    unfold Api.logout, Api.removeItem; run;
    cbn [Js.isTypeError andb]; run; fields;
    match goal with
    | |- refreshCalls _ ?W = _ /\ _ /\ _ =>
        let H1 := fresh in let H2 := fresh in
        destruct (Hcount W) as [H1 H2];
        [ fields; first [left; reflexivity | right; eexists; reflexivity]
        | split; [exact H1 | split; [exact H2 |]] ]
    end;
    first
      [ exact I
      | reflexivity
      | right; eexists; reflexivity
      | left; split; [reflexivity |];
        unfold tokenStoreEmpty; fields;
        split; [reflexivity | apply Hcleared] ].

(** Where the recovery is single-shot.  A request answered with 401
    while an access token is attached and a refresh token is stored,
    and whose refresh call is answered with anything but a 401, makes
    exactly one refresh call and at most one retry.  When the refresh
    or the retry fails the caller gets the error
    [Authentication failed] and the Token Store is empty; the one
    exception is a retry answered with a success status and a body that
    is not JSON, whose parse error passes both [catch] clauses. *)
Lemma refresh_once_unless_unauthorized fuel ep o w rt r :
  Js.truthy (accessToken w) = true ->
  localStorage w !! "refresh_token" = Some rt ->
  Js.truthy (Some rt) = true ->
  let call := Api.mkCall env ep o (Some (Api.bearer (accessToken w))) in
  let refreshCall :=
    Api.mkCall env "/auth/refresh"
      (mkRequestInit (Some POST) (Some (BodyRefresh rt)))
      (Some (Api.bearer (accessToken w))) in
  server env (net_log w) call = FetchResolves r ->
  status r = 401 ->
  match server env (call :: net_log w) refreshCall with
  | FetchResolves r' => status r' <> 401
  | FetchRejects _ => True
  end ->
  isRefreshCall env call = false ->
  let res := Api.request env (S (S fuel)) ep o w in
  refreshCalls env (snd res) = S (refreshCalls env w) /\
  (List.length (net_log (snd res)) <= List.length (net_log w) + 3)%nat /\
  match fst res with
  | Resolved _ => True
  | Rejected e =>
      (e = Js.Error "Authentication failed" /\ tokenStoreEmpty (snd res)) \/
      (exists m, e = Js.SyntaxError m)
  | Unsettled why => why = IllTyped
  end.
Proof.
  intros Htoken Hrt Htruthy call refreshCall Hfirst Hstatus Hrefresh Hother res.
  subst res. remember (S fuel) as n eqn:Hn.
  cbn [Api.request]. unfold Api.refreshToken_with. run. unfold Api.getItem, fetch. run.
  rewrite Htoken. fold call. rewrite Hfirst. run. unfold ok. rewrite Hstatus.
  change (negb ((200 <=? 401) && (401 <=? 299))) with true.
  change (401 =? 401) with true. run. rewrite Htoken. cbn [andb]. run.
  repeat (first [rewrite Hrt | rewrite Htruthy | rewrite Htoken]; run).
  subst n.
  set (w1 := with_net_log (call :: net_log w) w).
  destruct (refresh_request_makes_one_call fuel rt w1) as (out & Hreq & Hne).
  { subst w1. fields. rewrite Htoken. exact Hrefresh. }
  assert (Hrc : (if Js.truthy (accessToken w1)
                 then Some (Api.bearer (accessToken w1)) else None)
                = Some (Api.bearer (accessToken w)))
    by (subst w1; fields; rewrite Htoken; reflexivity).
  rewrite Hrc in Hreq. fold refreshCall in Hreq. fold w1. rewrite Hreq. clear Hreq.
  set (w2 := with_net_log (refreshCall :: net_log w1) w1).
  assert (Hrefreshcall : isRefreshCall env refreshCall = true)
    by apply isRefreshCall_refresh.
  assert (Hretry : forall a, isRefreshCall env (Api.mkCall env ep o a) = false)
    by (intros a; rewrite <- Hother; apply isRefreshCall_mkCall).
  assert (Hcount : forall W,
            net_log W = refreshCall :: call :: net_log w \/
            (exists a, net_log W = Api.mkCall env ep o a :: refreshCall :: call :: net_log w) ->
            refreshCalls env W = S (refreshCalls env w) /\
            (List.length (net_log W) <= List.length (net_log w) + 3)%nat).
  { intros W [HW | [a HW]]; unfold refreshCalls; rewrite HW;
      cbn [List.filter List.length];
      rewrite ?Hretry, Hrefreshcall, Hother; cbn [List.length]; split; lia. }
  assert (Hcleared : forall ls : gmap string string,
            delete "refresh_token" (delete "access_token" ls) !! "access_token"
              = (None : option string) /\
            delete "refresh_token" (delete "access_token" ls) !! "refresh_token"
              = (None : option string)).
  { intros ls. split.
    - rewrite lookup_delete_ne by discriminate. apply lookup_delete_eq.
    - apply lookup_delete_eq. }
  destruct out as [p | e | why]; run.
  - destruct p; unfold Api.asAuthResponse; run;
      try (subst w2 w1; conclude Hcount Hcleared).
    unfold Api.setItem; run.
    match goal with
    | |- context [server env ?l ?c] => destruct (server env l c) as [e1 | r1]
    end; run.
    + subst w2 w1; conclude Hcount Hcleared.
    + destruct ((200 <=? status r1) && (status r1 <=? 299)); cbn [negb]; run.
      * destruct (json r1); run; subst w2 w1; conclude Hcount Hcleared.
      * subst w2 w1; conclude Hcount Hcleared.
  - subst w2 w1; conclude Hcount Hcleared.
  - destruct why; [contradiction Hne; reflexivity |].
    subst w2 w1; conclude Hcount Hcleared.
Qed.

End RefreshOnce.

(** A run that does settle and still refreshes more than once: the
    server rejects the request and the first refresh call with 401 and
    serves every later call.  The refresh endpoint is called three
    times. *)
Lemma refresh_called_three_times :
  let r := Api.request (Demo.envOf Demo.recoveringServer) 3 "/auth/me"
             (mkRequestInit None None) Demo.loggedIn in
  (exists u, fst r = Resolved (PUser u)) /\
  refreshCalls (Demo.envOf Demo.recoveringServer) (snd r) = 3%nat /\
  List.length (net_log (snd r)) = 5%nat.
Proof.
  cbv zeta. split; [eexists; vm_compute; reflexivity |].
  split; vm_compute; reflexivity.
Qed.

(** ** Three runs from start to end *)

(** An anonymous user sends "Hello": a local session is made, its
    title becomes "Hello...", no call is made, and after a delay of
    2000 ms the second canned reply follows the message. *)
Example anonymous_hello :
  let r := Chat.sendMessage Demo.env 2 false "Hello" Demo.anonymous in
  fst r = Resolved tt /\
  option_map h_id (currentChat (snd r)) = Some "local-1700000000000" /\
  option_map h_title (currentChat (snd r)) = Some "Hello..." /\
  option_map (fun c => List.map m_content (h_messages c)) (currentChat (snd r))
    = Some ["Hello"; List.nth 1 Chat.mockResponses ""] /\
  option_map (fun c => List.map m_role (h_messages c)) (currentChat (snd r))
    = Some [RoleUser; RoleAssistant] /\
  List.map Qred (timers (snd r)) = [2000%Q] /\
  net_log (snd r) = [].
Proof. cbv zeta. repeat split; vm_compute; reflexivity. Qed.

(** An authenticated user with no session sends a message: one remote
    session is created, the log is the one of the server, and the title
    is the one the server generated, not the speculative one. *)
Example authenticated_first_message :
  let r := Chat.sendMessage Demo.env 2 true "Explain recursion" Demo.starting in
  fst r = Resolved tt /\
  option_map h_id (currentChat (snd r)) = Some "5" /\
  option_map h_title (currentChat (snd r)) = Some "A trip to Lisbon" /\
  option_map h_messages (currentChat (snd r))
    = Some (List.map Chat.convertMessage Demo.serverLog) /\
  List.map (fun c => (fc_method c, fc_url c)) (List.rev (net_log (snd r)))
    = [ (POST, "http://localhost:8000/chat/sessions");
        (POST, "http://localhost:8000/chat/sessions/5/messages");
        (GET, "http://localhost:8000/chat/sessions/5/messages");
        (POST, "http://localhost:8000/chat/sessions/5/title") ].
Proof. cbv zeta. repeat split; vm_compute; reflexivity. Qed.

(** A stored refresh token that is valid and an access token that has
    expired: the first call fails once, one refresh call succeeds, the
    retry succeeds, and the caller sees the profile and no error. *)
Example transparent_refresh :
  let env := Demo.envOf Demo.staleAccessServer in
  let r := Api.getCurrentUser env 2 Demo.starting in
  (exists u, fst r = Resolved u) /\
  refreshCalls env (snd r) = 1%nat /\
  List.map (fun c => (fc_url c, fc_authorization c)) (List.rev (net_log (snd r)))
    = [ ("http://localhost:8000/auth/me", Some "Bearer access-1");
        ("http://localhost:8000/auth/refresh", Some "Bearer access-1");
        ("http://localhost:8000/auth/me", Some "Bearer access-2") ] /\
  accessToken (snd r) = Some "access-2" /\
  localStorage (snd r) !! "refresh_token" = Some "refresh-2".
Proof.
  cbv zeta. split; [eexists; vm_compute; reflexivity |].
  repeat split; vm_compute; reflexivity.
Qed.

(** ** The theorems at sample inputs *)

Lemma refresh_recurses_without_bound_witness :
  Js.truthy (accessToken Demo.loggedIn) = true /\
  Js.truthy (localStorage Demo.loggedIn !! "refresh_token") = true /\
  fst (Api.request (Demo.envOf Demo.expiredServer) 5 "/auth/me"
         (mkRequestInit None None) Demo.loggedIn) = Unsettled OutOfFuel /\
  (4 <= refreshCalls (Demo.envOf Demo.expiredServer)
          (snd (Api.request (Demo.envOf Demo.expiredServer) 5 "/auth/me"
                  (mkRequestInit None None) Demo.loggedIn)))%nat.
Proof.
  split; [reflexivity |]. split; [reflexivity |].
  destruct (refresh_recurses_without_bound (Demo.envOf Demo.expiredServer)
              (fun past call =>
                 ex_intro _ (mkResponse 401 (Some (PDetail "Could not validate credentials")))
                   (conj eq_refl eq_refl))
              4 "/auth/me" (mkRequestInit None None) Demo.loggedIn
              eq_refl eq_refl) as (H1 & H2 & _).
  split; assumption.
Defined.

Lemma startup_profile_failure_witness :
  user Demo.starting = None /\
  Api.isAuthenticated Demo.starting = true /\
  fst (Api.getCurrentUser (Demo.envOf Demo.brokenServer) 2 Demo.starting)
    = Rejected (Js.Error "Internal Server Error") /\
  tokenStoreEmpty (snd (Auth.checkAuth (Demo.envOf Demo.brokenServer) 2 Demo.starting)) /\
  Auth.isAuthenticated (snd (Auth.checkAuth (Demo.envOf Demo.brokenServer) 2 Demo.starting))
    = false.
Proof.
  split; [reflexivity |]. split; [reflexivity |].
  split; [vm_compute; reflexivity |].
  edestruct (startup_profile_failure_is_anonymous (Demo.envOf Demo.brokenServer) 2
               Demo.starting) as (_ & _ & Hempty & _ & _ & Hanon);
    [reflexivity | reflexivity | vm_compute; reflexivity |].
  split; assumption.
Defined.


Lemma deleteChat_remote_witness :
  Chat.isLocal "5" = false /\
  fst (Api.deleteChatSession Demo.env 2 (Js.parseInt "5") Demo.loggedIn) = Resolved tt /\
  chatHistories (snd (Chat.deleteChat Demo.env 2 true "5" Demo.loggedIn)) = [] /\
  currentChat (snd (Chat.deleteChat Demo.env 2 true "5" Demo.loggedIn)) = None.
Proof.
  split; [reflexivity |]. split; [vm_compute; reflexivity |].
  pose proof (deleteChat_remote_outcome Demo.env 2 Demo.loggedIn "5" (Resolved tt)
                (snd (Api.deleteChatSession Demo.env 2 (Js.parseInt "5") Demo.loggedIn))
                eq_refl) as H.
  cbv zeta iota in H.
  destruct H as (Hdir & _ & _ & Hcur); [vm_compute; reflexivity |].
  rewrite Hcur, Hdir. split; reflexivity.
Defined.

Lemma sendMessage_rollback_witness :
  (exists updatedChat w1 e w2,
     Chat.optimisticAppend (Demo.envOf Demo.brokenServer) Demo.loaded5
       "Sintra too?" Demo.loggedIn = (Resolved updatedChat, w1) /\
     Chat.dispatch (Demo.envOf Demo.brokenServer) 2 true Demo.loaded5
       updatedChat "Sintra too?" w1 = (Rejected e, w2)) /\
  currentChat (snd (Chat.sendMessage (Demo.envOf Demo.brokenServer) 2 true
                      "Sintra too?" Demo.loggedIn)) = Some Demo.loaded5 /\
  chatHistories (snd (Chat.sendMessage (Demo.envOf Demo.brokenServer) 2 true
                        "Sintra too?" Demo.loggedIn)) = [Demo.loaded5].
Proof.
  split.
  { eexists. eexists. eexists. eexists.
    split; vm_compute; reflexivity. }
  edestruct (sendMessage_rollback (Demo.envOf Demo.brokenServer) 2 true "Sintra too?"
               Demo.loggedIn Demo.loaded5 Demo.loggedIn)
    as (_ & Hcur & Hdir & _);
    [reflexivity | vm_compute; reflexivity | vm_compute; reflexivity |].
  split; [exact Hcur | exact Hdir].
Defined.

Lemma optimistic_title_witness :
  Chat.resolveTarget Demo.env 2 false Demo.freshlyOpened
    = (Resolved (Some Demo.freshLocal), Demo.freshlyOpened) /\
  (exists updatedChat w1,
     Chat.optimisticAppend Demo.env Demo.freshLocal "Hello" Demo.freshlyOpened
       = (Resolved updatedChat, w1) /\
     currentChat w1 = Some updatedChat /\
     h_title updatedChat = "Hello...") /\
  (exists updatedChat w1,
     Chat.optimisticAppend Demo.env Demo.freshLocal
       "Please help me plan a three-day trip to Lisbon" Demo.freshlyOpened
       = (Resolved updatedChat, w1) /\
     currentChat w1 = Some updatedChat /\
     h_title updatedChat = "Please help me plan a three-da...") /\
  (exists updatedChat w1,
     Chat.optimisticAppend Demo.env Demo.freshLocal
       "Thirty characters, not one mor" Demo.freshlyOpened
       = (Resolved updatedChat, w1) /\
     h_title updatedChat = "Thirty characters, not one mor...") /\
  Chat.resolveTarget Demo.env 2 true Demo.loggedIn
    = (Resolved (Some Demo.loaded5), Demo.loggedIn) /\
  (exists updatedChat w1,
     Chat.optimisticAppend Demo.env Demo.loaded5 "Sintra too?" Demo.loggedIn
       = (Resolved updatedChat, w1) /\
     h_title updatedChat = "Trip plans").
Proof.
  split; [reflexivity |].
  destruct (optimistic_title Demo.env 2 false "Hello" Demo.freshlyOpened
              Demo.freshLocal Demo.freshlyOpened eq_refl)
    as (short & w1 & Hshort & _ & Hcur1 & _ & Hempty1 & _).
  destruct (optimistic_title Demo.env 2 false
              "Please help me plan a three-day trip to Lisbon" Demo.freshlyOpened
              Demo.freshLocal Demo.freshlyOpened eq_refl)
    as (long & w2 & Hlong & _ & Hcur2 & _ & Hempty2 & _).
  destruct (optimistic_title Demo.env 2 false
              "Thirty characters, not one mor" Demo.freshlyOpened
              Demo.freshLocal Demo.freshlyOpened eq_refl)
    as (exact30 & w3 & Hexact & _ & _ & _ & Hempty3 & _).
  destruct (optimistic_title Demo.env 2 true "Sintra too?" Demo.loggedIn
              Demo.loaded5 Demo.loggedIn eq_refl)
    as (kept & w4 & Hkept & _ & _ & _ & _ & Hsome).
  split.
  { exists short, w1. split; [exact Hshort |]. split; [exact Hcur1 |].
    destruct (Hempty1 eq_refl) as (_ & Hle & _). apply Hle. simpl. lia. }
  split.
  { exists long, w2. split; [exact Hlong |]. split; [exact Hcur2 |].
    destruct (Hempty2 eq_refl) as (Htitle & _). exact Htitle. }
  split.
  { exists exact30, w3. split; [exact Hexact |].
    destruct (Hempty3 eq_refl) as (_ & Hle & _). apply Hle. simpl. lia. }
  split; [reflexivity |].
  exists kept, w4. split; [exact Hkept |]. apply Hsome. discriminate.
Defined.

Lemma sendMessage_reconciles_witness :
  Chat.isLocal (h_id Demo.loaded5) = false /\
  exists c,
    currentChat (snd (Chat.sendMessage Demo.env 2 true "Sintra too?" Demo.loggedIn))
      = Some c /\
    h_id c = "5" /\
    h_messages c
    = [ mkMessage "11" "Where to?" RoleUser (Js.DateOfString "2024-05-01T10:00:01");
        mkMessage "12" "Lisbon." RoleAssistant
          (Js.DateOfString "2024-05-01T10:00:03") ].
Proof.
  split; [reflexivity |].
  edestruct (sendMessage_reconciles Demo.env 2 "Sintra too?" Demo.loggedIn
               Demo.loaded5 Demo.loggedIn)
    as (c & Hcur & Hid & Hlog & _);
    [ reflexivity | reflexivity | vm_compute; reflexivity
    | vm_compute; reflexivity | vm_compute; reflexivity |].
  exists c. split; [exact Hcur |]. split; [exact Hid |]. exact Hlog.
Defined.

Lemma first_message_test_witness :
  h_messages Demo.listed5 = [] /\
  Demo.serverLog <> [] /\
  exists w3,
    List.length (net_log w3) = 2%nat /\
    issues_first
      (mkFetchCall "http://localhost:8000/chat/sessions/5/title" POST
         (Some "Bearer access-1") None)
      w3 (snd (Chat.sendMessage Demo.env 2 true "Sintra too?" Demo.listedCurrent)).
Proof.
  split; [reflexivity |]. split; [discriminate |].
  edestruct (first_message_test_reads_local_list Demo.env 2 "Sintra too?"
               Demo.listedCurrent Demo.listed5 Demo.listedCurrent)
    as [Hempty _];
    [ reflexivity | reflexivity | vm_compute; reflexivity
    | vm_compute; reflexivity | vm_compute; reflexivity |].
  destruct (Hempty eq_refl) as [_ Hissue].
  eexists. split; [| exact Hissue]. reflexivity.
Defined.

Lemma authenticated_transition_witness :
  currentChat Demo.starting = None /\
  (fst (Api.getChatSessions Demo.env 2 (with_chat_isLoading true Demo.starting))
     = Resolved [Demo.session5] /\
   chatHistories (snd (Chat.authEffect Demo.env 2 true Demo.starting))
     = [ mkChatHistory "5" "Trip plans" []
           (Js.DateOfString "2024-05-01T10:00:00")
           (Js.DateOfString "2024-05-02T09:30:00") ] /\
   currentChat (snd (Chat.authEffect Demo.env 2 true Demo.starting))
     = Some (mkChatHistory "5" "Trip plans"
               [ mkMessage "11" "Where to?" RoleUser
                   (Js.DateOfString "2024-05-01T10:00:01");
                 mkMessage "12" "Lisbon." RoleAssistant
                   (Js.DateOfString "2024-05-01T10:00:03") ]
               (Js.DateOfString "2024-05-01T10:00:00")
               (Js.DateOfString "2024-05-02T09:30:00"))) /\
  (fst (Api.getChatSessions (Demo.envOf Sample.listOnlyServer) 2
          (with_chat_isLoading true Demo.starting))
     = Resolved [Demo.session5] /\
   chatHistories (snd (Chat.authEffect (Demo.envOf Sample.listOnlyServer) 2 true
                         Demo.starting)) = [Demo.listed5] /\
   currentChat (snd (Chat.authEffect (Demo.envOf Sample.listOnlyServer) 2 true
                       Demo.starting)) = None) /\
  (fst (Api.getChatSessions (Demo.envOf Demo.brokenServer) 2
          (with_chat_isLoading true Demo.justLoggedIn))
     = Rejected (Js.Error "Internal Server Error") /\
   chatHistories (snd (Chat.authEffect (Demo.envOf Demo.brokenServer) 2 true
                         Demo.justLoggedIn)) = [Demo.localChat] /\
   currentChat (snd (Chat.authEffect (Demo.envOf Demo.brokenServer) 2 true
                       Demo.justLoggedIn)) = Some Demo.localChat).
Proof.
  split; [reflexivity |].
  destruct (authenticated_transition_reloads Demo.env 2 Demo.starting)
    as [_ Hserved].
  destruct (Hserved [Demo.session5]
              (snd (Api.getChatSessions Demo.env 2
                      (with_chat_isLoading true Demo.starting)))
              ltac:(vm_compute; reflexivity))
    as (Hdir & _ & Hloaded & _).
  destruct (Hloaded Demo.serverLog
              (snd (Api.getChatMessages Demo.env 2 (Some 5)
                      (with_chatHistories [Demo.listed5]
                         (snd (Api.getChatSessions Demo.env 2
                                 (with_chat_isLoading true Demo.starting))))))
              ltac:(vm_compute; reflexivity))
    as (_ & c & Hcur & Hc & _).
  destruct (authenticated_transition_reloads (Demo.envOf Sample.listOnlyServer) 2
              Demo.starting) as [_ Hlisted].
  destruct (Hlisted [Demo.session5]
              (snd (Api.getChatSessions (Demo.envOf Sample.listOnlyServer) 2
                      (with_chat_isLoading true Demo.starting)))
              ltac:(vm_compute; reflexivity))
    as (Hdir2 & _ & _ & Hfails).
  destruct (Hfails (Js.Error "Internal Server Error")
              (snd (Api.getChatMessages (Demo.envOf Sample.listOnlyServer) 2 (Some 5)
                      (with_chatHistories [Demo.listed5]
                         (snd (Api.getChatSessions (Demo.envOf Sample.listOnlyServer) 2
                                 (with_chat_isLoading true Demo.starting))))))
              ltac:(vm_compute; reflexivity))
    as (_ & Hnone).
  destruct (authenticated_transition_reloads (Demo.envOf Demo.brokenServer) 2
              Demo.justLoggedIn) as [Hdown _].
  destruct (Hdown (Js.Error "Internal Server Error")
              (snd (Api.getChatSessions (Demo.envOf Demo.brokenServer) 2
                      (with_chat_isLoading true Demo.justLoggedIn)))
              ltac:(vm_compute; reflexivity))
    as (_ & Hkept & Hsame).
  split.
  { split; [vm_compute; reflexivity |]. split; [exact Hdir |].
    rewrite Hcur, Hc. reflexivity. }
  split.
  { split; [vm_compute; reflexivity |]. split; [exact Hdir2 | exact Hnone]. }
  split; [vm_compute; reflexivity |]. split; [exact Hkept | exact Hsame].
Defined.



Lemma path_witness :
  Chat.isLocal "local-1700000000000" = true /\
  Chat.isLocal "5" = false /\
  net_log (snd (Chat.selectChat Demo.env 2 true "local-1700000000000" Demo.justLoggedIn))
    = [] /\
  issues_first
    (mkFetchCall "http://localhost:8000/chat/sessions/5" DELETE
       (Some "Bearer access-1") None)
    Demo.loggedIn (snd (Chat.deleteChat Demo.env 2 true "5" Demo.loggedIn)) /\
  Chat.selectChat Demo.env 2 false "5" Demo.staleRemote
    = (Resolved tt, Demo.staleRemote).
Proof.
  split; [reflexivity |]. split; [reflexivity |].
  destruct (path_follows_namespace_and_mode Demo.env 2 Demo.justLoggedIn)
    as (Hlocal & _).
  destruct (path_follows_namespace_and_mode Demo.env 1 Demo.loggedIn)
    as (_ & _ & Hremote & _).
  destruct (path_follows_namespace_and_mode Demo.env 2 Demo.staleRemote)
    as (_ & _ & _ & _ & Hanon & _).
  split; [exact (proj1 (Hlocal true "local-1700000000000" eq_refl)) |].
  split; [exact (proj2 (Hremote "5" eq_refl)) |].
  exact (proj1 (Hanon "5" eq_refl)).
Defined.

(** * Further properties of the code *)

(** ** What a request makes of the first answer *)

Section RequestOutcome.

Variable env : Env.

Lemma request_one_call fuel ep o w :
  match server env (net_log w) (requestCall env w ep o) with
  | FetchResolves r =>
      ok r = true \/ status r <> 401 \/ Js.truthy (accessToken w) = false
  | FetchRejects _ => True
  end ->
  snd (Api.request env (S fuel) ep o w)
  = with_net_log (requestCall env w ep o :: net_log w) w /\
  fst (Api.request env (S fuel) ep o w)
  = match server env (net_log w) (requestCall env w ep o) with
    | FetchRejects e =>
        Rejected
          (if Js.isTypeError e && Js.includes (Js.message e) "fetch"
           then Js.Error
                  ("Backend server is not running. Please check if the backend server is running on "
                   +:+ API_BASE_URL env)
           else e)
    | FetchResolves r =>
        if ok r then
          match json r with
          | Some p => Resolved p
          | None => Rejected (Js.SyntaxError "Unexpected token in JSON")
          end
        else Rejected (Js.Error (Api.errorMessage r))
    end.
Proof.
  unfold requestCall. intros Hanswer. cbn [Api.request]. unfold fetch. run.
  set (c := Api.mkCall env ep o _) in *.
  destruct (server env (net_log w) c) as [e | r].
  - run. destruct (Js.isTypeError e && Js.includes (Js.message e) "fetch"); run;
      split; reflexivity.
  - run. destruct (ok r) eqn:Hok; cbn [negb]; run.
    + destruct (json r); run; split; reflexivity.
    + destruct Hanswer as [H | [H | H]].
      * discriminate H.
      * apply Z.eqb_neq in H. rewrite H. cbn [andb]. run. split; reflexivity.
      * rewrite H, andb_false_r. run. split; reflexivity.
Qed.

(** X1.  A request made while no access token is held carries no
    [Authorization] header, makes exactly one call and settles,
    whatever the answer.  It never refreshes and never logs out: the
    token store is as before, also when the answer is a 401, and a
    failure status is reported with the message of the server, or with
    the status when there is none. *)
Theorem anonymous_request_never_refreshes :
  forall fuel ep o w,
    Js.truthy (accessToken w) = false ->
    let res := Api.request env (S fuel) ep o w in
    net_log (snd res) = Api.mkCall env ep o None :: net_log w /\
    accessToken (snd res) = accessToken w /\
    localStorage (snd res) = localStorage w /\
    (forall why, fst res <> Unsettled why) /\
    (forall r,
       server env (net_log w) (Api.mkCall env ep o None) = FetchResolves r ->
       ok r = false ->
       fst res = Rejected (Js.Error (Api.errorMessage r))).
Proof.
  intros fuel ep o w Htoken res.
  destruct (request_one_call fuel ep o w) as [Hw Hout].
  { destruct (server env (net_log w) (requestCall env w ep o)); [exact I |].
    right. right. exact Htoken. }
  subst res. rewrite Hw, Hout. unfold requestCall. rewrite Htoken. fields.
  split; [reflexivity |]. split; [reflexivity |]. split; [reflexivity |].
  split.
  - intros why.
    destruct (server env (net_log w) (Api.mkCall env ep o None)) as [e | r];
      [discriminate |].
    destruct (ok r); [destruct (json r) |]; discriminate.
  - intros r Hr Hok. rewrite Hr, Hok. reflexivity.
Qed.

(** X2.  A request answered with 401 while an access token is held and
    no refresh token is stored is not retried: the Token Store is
    emptied, the caller gets the error [Authentication required], and
    the one call made carried the token. *)
Theorem unauthorized_without_refresh_token :
  forall fuel ep o w r,
    Js.truthy (accessToken w) = true ->
    Js.truthy (localStorage w !! "refresh_token") = false ->
    server env (net_log w) (Api.mkCall env ep o (Some (Api.bearer (accessToken w))))
      = FetchResolves r ->
    status r = 401 ->
    let res := Api.request env (S fuel) ep o w in
    fst res = Rejected (Js.Error "Authentication required") /\
    tokenStoreEmpty (snd res) /\
    net_log (snd res)
      = Api.mkCall env ep o (Some (Api.bearer (accessToken w))) :: net_log w.
Proof.
  intros fuel ep o w r Htoken Hrefresh Hanswer Hstatus res. subst res.
  cbn [Api.request]. unfold Api.getItem, fetch. run.
  rewrite Htoken, Hanswer. run. unfold ok. rewrite Hstatus.
  change (negb ((200 <=? 401) && (401 <=? 299))) with true.
  change (401 =? 401) with true. run. rewrite Htoken. cbn [andb]. run.
  rewrite Hrefresh. unfold Api.logout, Api.removeItem. run.
  cbn [Js.isTypeError andb]. run.
  split; [reflexivity |]. split; [| reflexivity].
  unfold tokenStoreEmpty. fields. split; [reflexivity |]. split.
  - rewrite lookup_delete_ne by discriminate. apply lookup_delete_eq.
  - apply lookup_delete_eq.
Qed.

(** X3.  When [ApiService.login] resolves, the access token of the
    response is the one in memory and in storage, the refresh token is
    stored, and nothing but the token store and the log of calls has
    changed.  With a token that is not empty the service counts as
    authenticated, and the next request, whatever its endpoint, starts
    with a call that carries that token. *)
Theorem login_stores_tokens :
  forall fuel email password w r w',
    Api.login env fuel email password w = (Resolved r, w') ->
    accessToken w' = Some (access_token r) /\
    localStorage w' !! "access_token" = Some (access_token r) /\
    localStorage w' !! "refresh_token" = Some (refresh_token r) /\
    api_frame w w' /\
    (access_token r <> "" ->
     Api.isAuthenticated w' = true /\
     forall fuel' ep o,
       issues_first
         (Api.mkCall env ep o (Some ("Bearer " +:+ access_token r)))
         w' (snd (Api.request env (S fuel') ep o w'))).
Proof.
  intros fuel email password w r w' Hlogin.
  assert (Hframe : api_frame w w').
  { pose proof (stable_request api_frame api_frame_token api_frame_storage
                  api_frame_call env fuel "/auth/login"
                  (mkRequestInit (Some POST) (Some (BodyCredentials email password))) w)
      as Hreq.
    revert Hlogin. unfold Api.login, Api.setItem. run.
    destruct (Api.request env fuel "/auth/login" _ w) as [[p | e | why] w1];
      [| discriminate | discriminate].
    destruct p; unfold Api.asAuthResponse; run; try discriminate.
    intros H. injection H as <- <-. cbn [snd] in Hreq.
    destruct Hreq as (?&?&?&?&?&?&?&?). unfold api_frame. fields. tauto. }
  revert Hlogin. unfold Api.login, Api.setItem. run.
  destruct (Api.request env fuel "/auth/login" _ w) as [[p | e | why] w1];
    [| discriminate | discriminate].
  destruct p; unfold Api.asAuthResponse; run; try discriminate.
  intros H. injection H as <- <-. fields.
  split; [reflexivity |]. split.
  { rewrite lookup_insert_ne by discriminate. apply lookup_insert_eq. }
  split; [apply lookup_insert_eq |].
  split; [exact Hframe |].
  intros Hne.
  assert (Htruthy : Js.truthy (Some (access_token r0)) = true).
  { unfold Js.truthy. apply negb_true_iff, String.eqb_neq. exact Hne. }
  split; [exact Htruthy |].
  intros fuel' ep o.
  match goal with
  | |- issues_first _ ?W _ =>
      pose proof (request_issues_first env fuel' ep o W) as Hissue
  end.
  revert Hissue. fields. rewrite Htruthy. intros Hissue. exact Hissue.
Qed.

End RequestOutcome.

(** ** The token in memory mirrors the stored one *)

#[export] Instance mirror_kept_preorder : PreOrder mirror_kept.
Proof.
  split.
  - intros w H. exact H.
  - intros a b c Hab Hbc H. apply Hbc, Hab, H.
Qed.

Lemma mirror_frame w w' :
  accessToken w' = accessToken w -> localStorage w' = localStorage w ->
  mirror_kept w w'.
Proof. unfold mirror_kept, tokenMirrored. intros -> ->. exact id. Qed.

Lemma mirror_fetch env c : stable mirror_kept (fetch env c).
Proof.
  intros w. unfold fetch.
  destruct (server env (net_log w) c); apply mirror_frame; reflexivity.
Qed.

Lemma mirror_logout : stable mirror_kept Api.logout.
Proof.
  intros w _. unfold Api.logout, Api.removeItem, tokenMirrored. run.
  rewrite lookup_delete_ne by discriminate. apply lookup_delete_eq.
Qed.

Lemma mirror_setItem_refresh v : stable mirror_kept (Api.setItem "refresh_token" v).
Proof.
  intros w. unfold Api.setItem, mirror_kept, tokenMirrored. run.
  rewrite lookup_insert_ne by discriminate. exact id.
Qed.

Lemma mirror_store {A} a (k : M A) :
  stable mirror_kept k ->
  stable mirror_kept
    (modify (with_accessToken (Some a)) ;;; Api.setItem "access_token" a ;;; k).
Proof.
  intros Hk w _. unfold Api.setItem. run.
  match goal with
  | |- tokenMirrored (let (_, y) := k ?W in y) => specialize (Hk W)
  end.
  apply Hk. unfold tokenMirrored. fields. apply lookup_insert_eq.
Qed.

Lemma mirror_modify f :
  (forall w, accessToken (f w) = accessToken w) ->
  (forall w, localStorage (f w) = localStorage w) ->
  stable mirror_kept (modify f).
Proof. intros Ha Hs w. apply mirror_frame; [apply Ha | apply Hs]. Qed.

(** [stable mirror_kept m], by the shape of [m]. *)
Ltac mirror_stable :=
  repeat
    lazymatch goal with
    | H : forall ep o, stable mirror_kept (Api.request ?env ?fuel ep o)
      |- stable _ (Api.request ?env ?fuel _ _) => apply H
    | |- stable _ (fetch _ _) => apply mirror_fetch
    | |- stable _ Api.logout => apply mirror_logout
    | |- stable _ (bind (modify (with_accessToken (Some _))) _) => apply mirror_store
    | |- stable _ (Api.setItem "refresh_token" _) => apply mirror_setItem_refresh
    | |- stable _ (Api.getItem _) => unfold Api.getItem
    | |- stable _ (Api.refreshToken_with _) => unfold Api.refreshToken_with
    | |- stable _ (Api.refreshToken _ _) => unfold Api.refreshToken
    | |- stable _ (Api.asAuthResponse _) => unfold Api.asAuthResponse
    | |- stable _ (Api.asUser _) => unfold Api.asUser
    | |- stable _ (Api.asSessions _) => unfold Api.asSessions
    | |- stable _ (Api.asSession _) => unfold Api.asSession
    | |- stable _ (Api.asMessages _) => unfold Api.asMessages
    | |- stable _ (Api.asChatResponse _) => unfold Api.asChatResponse
    | |- stable _ (Api.asTitle _) => unfold Api.asTitle
    | |- stable _ (Api.login _ _ _ _) => unfold Api.login
    | |- stable _ (Api.register _ _ _ _ _) => unfold Api.register
    | |- stable _ (Api.getCurrentUser _ _) => unfold Api.getCurrentUser
    | |- stable _ (Auth.login _ _ _ _) => unfold Auth.login
    | |- stable _ (modify _) => apply mirror_modify; intros; reflexivity
    | |- stable _ (gets _) => apply stable_gets; typeclasses eauto
    | |- stable _ (ret _) => apply stable_ret; typeclasses eauto
    | |- stable _ (halt _) => apply stable_halt; typeclasses eauto
    | |- stable _ (throw _) => apply stable_throw; typeclasses eauto
    | |- stable _ (bind _ _) => apply stable_bind; [typeclasses eauto | | intros ?]
    | |- stable _ (try_catch _ _) =>
        apply stable_try_catch; [typeclasses eauto | | intros ?]
    | |- stable _ (try_finally _ _) =>
        apply stable_try_finally;
          [typeclasses eauto | | intros; apply mirror_frame; reflexivity]
    | |- stable _ (if ?b then _ else _) => destruct b
    | |- stable _ (match ?x with _ => _ end) => destruct x
    end.

Lemma mirror_request env fuel :
  forall ep o, stable mirror_kept (Api.request env fuel ep o).
Proof.
  induction fuel as [| fuel IH]; intros ep o; cbn [Api.request].
  - apply stable_halt; typeclasses eauto.
  - mirror_stable.
Qed.

Lemma mirror_readClock env : stable mirror_kept (readClock env).
Proof. intros w. apply mirror_frame; reflexivity. Qed.

Lemma mirror_readRandom env : stable mirror_kept (readRandom env).
Proof. intros w. apply mirror_frame; reflexivity. Qed.

Lemma mirror_readUuid env : stable mirror_kept (readUuid env).
Proof. intros w. apply mirror_frame; reflexivity. Qed.

(** The same for the operations of the two providers. *)
Ltac mirror_ops :=
  repeat
    first
      [ progress mirror_stable
      | lazymatch goal with
        | |- stable _ (Api.request _ _ _ _) => apply mirror_request
        | |- stable _ (readClock _) => apply mirror_readClock
        | |- stable _ (readRandom _) => apply mirror_readRandom
        | |- stable _ (readUuid _) => apply mirror_readUuid
        | |- stable _ (newDate _) => unfold newDate
        | |- stable _ (sleep _) => unfold sleep
        | |- stable _ (Api.getChatSessions _ _) => unfold Api.getChatSessions
        | |- stable _ (Api.createChatSession _ _ _) => unfold Api.createChatSession
        | |- stable _ (Api.getChatMessages _ _ _) => unfold Api.getChatMessages
        | |- stable _ (Api.sendMessage _ _ _ _) => unfold Api.sendMessage
        | |- stable _ (Api.deleteChatSession _ _ _) => unfold Api.deleteChatSession
        | |- stable _ (Api.updateSessionTitle _ _ _) => unfold Api.updateSessionTitle
        | |- stable _ (Auth.register _ _ _ _ _) => unfold Auth.register
        | |- stable _ (Auth.checkAuth _ _) => unfold Auth.checkAuth
        | |- stable _ Auth.logout => unfold Auth.logout
        | |- stable _ (Chat.setCurrentChat _) => unfold Chat.setCurrentChat
        | |- stable _ (Chat.setChatHistories _) => unfold Chat.setChatHistories
        | |- stable _ (Chat.setIsLoading _) => unfold Chat.setIsLoading
        | |- stable _ (Chat.loadChatSessions _ _ _) => unfold Chat.loadChatSessions
        | |- stable _ (Chat.authEffect _ _ _) => unfold Chat.authEffect
        | |- stable _ (Chat.newLocalChat _) => unfold Chat.newLocalChat
        | |- stable _ (Chat.createNewChat _ _ _) => unfold Chat.createNewChat
        | |- stable _ (Chat.selectChat _ _ _ _) => unfold Chat.selectChat
        | |- stable _ (Chat.resolveTarget _ _ _) => unfold Chat.resolveTarget
        | |- stable _ (Chat.optimisticAppend _ _ _) => unfold Chat.optimisticAppend
        | |- stable _ (Chat.dispatch _ _ _ _ _ _) => unfold Chat.dispatch
        | |- stable _ (Chat.rollback _) => unfold Chat.rollback
        | |- stable _ (Chat.sendMessage _ _ _ _) => unfold Chat.sendMessage
        | |- stable _ (Chat.removeChat _ _ _) => unfold Chat.removeChat
        | |- stable _ (Chat.deleteChat _ _ _ _) => unfold Chat.deleteChat
        | |- stable _ (let _ := _ in _) => cbv zeta
        end ].

(** X4.  The access token in memory and the one in [localStorage]
    are one value.  The constructor of [ApiService] makes them so, and
    every operation of the service and of the two providers keeps them
    so; a service constructed anew over the storage of such a world
    holds the token the old one held. *)
Theorem token_mirror_is_invariant :
  forall env fuel w,
    tokenMirrored w ->
    newApiService w = w /\
    (forall w0, tokenMirrored (newApiService w0)) /\
    (forall ep o, tokenMirrored (snd (Api.request env fuel ep o w))) /\
    (forall email password,
       tokenMirrored (snd (Api.login env fuel email password w))) /\
    tokenMirrored (snd (Api.refreshToken env fuel w)) /\
    tokenMirrored (snd (Api.logout w)) /\
    (forall email password,
       tokenMirrored (snd (Auth.login env fuel email password w))) /\
    (forall email username password,
       tokenMirrored (snd (Auth.register env fuel email username password w))) /\
    tokenMirrored (snd (Auth.checkAuth env fuel w)) /\
    tokenMirrored (snd (Auth.logout w)) /\
    (forall isAuthenticated,
       tokenMirrored (snd (Chat.authEffect env fuel isAuthenticated w)) /\
       tokenMirrored (snd (Chat.createNewChat env fuel isAuthenticated w))) /\
    (forall isAuthenticated chatId,
       tokenMirrored (snd (Chat.selectChat env fuel isAuthenticated chatId w)) /\
       tokenMirrored (snd (Chat.deleteChat env fuel isAuthenticated chatId w))) /\
    (forall isAuthenticated content,
       tokenMirrored (snd (Chat.sendMessage env fuel isAuthenticated content w))).
Proof.
  intros env fuel w Hw.
  assert (Hall : forall A (m : M A), stable mirror_kept m -> tokenMirrored (snd (m w))).
  { intros A m Hm. apply Hm, Hw. }
  split.
  { unfold newApiService. unfold tokenMirrored in Hw. rewrite Hw.
    destruct w; reflexivity. }
  split; [intros w0; reflexivity |].
  split; [intros; apply Hall; mirror_ops |].
  split; [intros; apply Hall; mirror_ops |].
  split; [apply Hall; mirror_ops |].
  split; [apply Hall; mirror_ops |].
  split; [intros; apply Hall; mirror_ops |].
  split; [intros; apply Hall; mirror_ops |].
  split; [apply Hall; mirror_ops |].
  split; [apply Hall; mirror_ops |].
  split; [intros; split; apply Hall; mirror_ops |].
  split; [intros; split; apply Hall; mirror_ops |].
  intros; apply Hall; mirror_ops.
Qed.

(** ** Operations that keep their exceptions to themselves *)

Section NeverRejects.

Lemma quiet_ret {A} (a : A) : never_rejects (ret a).
Proof. intros w e. discriminate. Qed.

Lemma quiet_halt {A} why : never_rejects (@halt A why).
Proof. intros w e. discriminate. Qed.

Lemma quiet_gets {A} (f : World -> A) : never_rejects (gets f).
Proof. intros w e. discriminate. Qed.

Lemma quiet_modify f : never_rejects (modify f).
Proof. intros w e. discriminate. Qed.

Lemma quiet_read {A} (f : World -> A) (g : World -> World) :
  never_rejects (fun w => (Resolved (f w), g w)).
Proof. intros w e. discriminate. Qed.

Lemma quiet_bind {A B} (m : M A) (k : A -> M B) :
  never_rejects m -> (forall a, never_rejects (k a)) -> never_rejects (bind m k).
Proof.
  intros Hm Hk w e. unfold bind. specialize (Hm w).
  destruct (m w) as [[a | e' | why] w']; simpl in *.
  - apply Hk.
  - intros _. exact (Hm e' eq_refl).
  - discriminate.
Qed.

Lemma quiet_try_catch {A} (m : M A) h :
  (forall e, never_rejects (h e)) -> never_rejects (try_catch m h).
Proof.
  intros Hh w e. unfold try_catch.
  destruct (m w) as [[a | e' | why] w']; simpl; [discriminate | apply Hh | discriminate].
Qed.

Lemma quiet_try_finally {A} (m : M A) f :
  never_rejects m -> never_rejects (try_finally m f).
Proof.
  intros Hm w e. unfold try_finally. specialize (Hm w).
  destruct (m w) as [[a | e' | why] w']; simpl in *;
    [discriminate | intros _; exact (Hm e' eq_refl) | discriminate].
Qed.

End NeverRejects.

Ltac quiet :=
  repeat
    lazymatch goal with
    | |- never_rejects (ret _) => apply quiet_ret
    | |- never_rejects (halt _) => apply quiet_halt
    | |- never_rejects (gets _) => apply quiet_gets
    | |- never_rejects (modify _) => apply quiet_modify
    | |- never_rejects (readClock _) => apply quiet_read
    | |- never_rejects (readRandom _) => apply quiet_read
    | |- never_rejects (readUuid _) => apply quiet_read
    | |- never_rejects (newDate _) => unfold newDate
    | |- never_rejects (sleep _) => unfold sleep
    | |- never_rejects Api.logout => unfold Api.logout
    | |- never_rejects (Api.removeItem _) => unfold Api.removeItem
    | |- never_rejects (Chat.setCurrentChat _) => unfold Chat.setCurrentChat
    | |- never_rejects (Chat.setChatHistories _) => unfold Chat.setChatHistories
    | |- never_rejects (Chat.setIsLoading _) => unfold Chat.setIsLoading
    | |- never_rejects (Chat.newLocalChat _) => unfold Chat.newLocalChat
    | |- never_rejects (Chat.resolveTarget _ _ _) => unfold Chat.resolveTarget
    | |- never_rejects (Chat.optimisticAppend _ _ _) => unfold Chat.optimisticAppend
    | |- never_rejects (Chat.rollback _) => unfold Chat.rollback
    | |- never_rejects (Chat.removeChat _ _ _) => unfold Chat.removeChat
    | |- never_rejects (Chat.loadChatSessions _ _ _) => unfold Chat.loadChatSessions
    | |- never_rejects (let _ := _ in _) => cbv zeta
    | |- never_rejects (bind _ _) => apply quiet_bind; [| intros ?]
    | |- never_rejects (try_catch _ _) => apply quiet_try_catch; intros ?
    | |- never_rejects (try_finally _ _) => apply quiet_try_finally
    | |- never_rejects (if ?b then _ else _) => destruct b
    | |- never_rejects (match ?x with _ => _ end) => destruct x
    end.

(** X5.  No operation of the chat provider ends with an exception,
    and neither does the start-up check: whatever the server does,
    the promise of [createNewChat], [selectChat], [deleteChat],
    [sendMessage], of the effect on the authentication state and of
    [checkAuth] does not reject. *)
Theorem chat_operations_never_reject :
  forall env fuel isAuthenticated w e,
    fst (Chat.authEffect env fuel isAuthenticated w) <> Rejected e /\
    fst (Chat.createNewChat env fuel isAuthenticated w) <> Rejected e /\
    (forall chatId,
       fst (Chat.selectChat env fuel isAuthenticated chatId w) <> Rejected e /\
       fst (Chat.deleteChat env fuel isAuthenticated chatId w) <> Rejected e) /\
    (forall content,
       fst (Chat.sendMessage env fuel isAuthenticated content w) <> Rejected e) /\
    fst (Auth.checkAuth env fuel w) <> Rejected e.
Proof.
  intros env fuel isAuthenticated w e.
  assert (Hall : forall A (m : M A), never_rejects m -> fst (m w) <> Rejected e).
  { intros A m Hm. apply Hm. }
  split; [apply Hall; unfold Chat.authEffect; quiet |].
  split; [apply Hall; unfold Chat.createNewChat; quiet |].
  split; [intros chatId; split; apply Hall;
          [unfold Chat.selectChat | unfold Chat.deleteChat]; quiet |].
  split; [intros content; apply Hall; unfold Chat.sendMessage; quiet |].
  apply Hall. unfold Auth.checkAuth. quiet.
Qed.

(** ** Logging in, registering, logging out *)

Section AuthStability.

Context (R : World -> World -> Prop) `{!PreOrder R}.
Hypothesis R_token : forall v w, R w (with_accessToken v w).
Hypothesis R_storage : forall v w, R w (with_localStorage v w).
Hypothesis R_call : forall c w, R w (with_net_log (c :: net_log w) w).

Lemma stable_api_login env fuel email password :
  stable R (Api.login env fuel email password).
Proof.
  unfold Api.login, Api.asAuthResponse.
  repeat first [ apply stable_request; assumption
               | apply stable_setItem; assumption
               | apply stable_modify; intros ?; apply R_token
               | stable_step ].
Qed.

Lemma stable_api_register env fuel email username password :
  stable R (Api.register env fuel email username password).
Proof.
  unfold Api.register, Api.asUser.
  repeat first [ apply stable_request; assumption | stable_step ].
Qed.

End AuthStability.

Section AuthOutcome.

Variable env : Env.

(** The state in which the body of [login] and of [register] starts. *)
Lemma login_run fuel email password w :
  Auth.login env fuel email password w
  = try_finally
      (try_catch
         (_ <- Api.login env fuel email password ;;
          userData <- Api.getCurrentUser env fuel ;;
          modify (with_user (Some userData)))
         (fun err =>
            modify (with_auth_error (Some (Auth.loginMessage err))) ;;;
            throw err))
      (with_auth_isLoading false)
      (with_auth_error None (with_auth_isLoading true w)).
Proof. reflexivity. Qed.

(** X6.  A [login] whose token exchange and whose profile fetch
    both succeed completes with the profile set, no error, the loading
    flag down and the chat state untouched; the application is then
    authenticated exactly when the token held at the end is not
    empty. *)
Theorem login_success_authenticates :
  forall fuel email password w r w1 u w2,
    Api.login env fuel email password
      (with_auth_error None (with_auth_isLoading true w)) = (Resolved r, w1) ->
    Api.getCurrentUser env fuel w1 = (Resolved u, w2) ->
    let res := Auth.login env fuel email password w in
    fst res = Resolved tt /\
    user (snd res) = Some u /\
    auth_error (snd res) = None /\
    auth_isLoading (snd res) = false /\
    Auth.isAuthenticated (snd res) = Js.truthy (accessToken w2) /\
    chatHistories (snd res) = chatHistories w /\
    currentChat (snd res) = currentChat w.
Proof.
  intros fuel email password w r w1 u w2 Hlogin Hme res.
  assert (H1 : api_frame (with_auth_error None (with_auth_isLoading true w)) w1).
  { eapply api_frame_of; [| exact Hlogin].
    apply stable_api_login; auto with frames. typeclasses eauto. }
  assert (H2 : api_frame w1 w2).
  { eapply api_frame_of; [| exact Hme].
    apply stable_getCurrentUser; auto with frames. typeclasses eauto. }
  destruct H1 as (_ & _ & _ & _ & He1 & Hh1 & Hc1 & _).
  destruct H2 as (_ & _ & _ & _ & He2 & Hh2 & Hc2 & _).
  revert He1 Hh1 Hc1. fields. intros He1 Hh1 Hc1.
  subst res. rewrite login_run. unfold try_finally, try_catch.
  rewrite (bind_resolved _ _ _ _ _ Hlogin).
  rewrite (bind_resolved _ _ _ _ _ Hme). run.
  unfold Auth.isAuthenticated, Api.isAuthenticated. fields.
  split; [reflexivity |]. split; [reflexivity |].
  split; [congruence |]. split; [reflexivity |].
  split; [reflexivity |]. split; congruence.
Qed.

(** X7.  A [login] that fails, at the token exchange or at the
    profile fetch, rethrows the error, shows the message
    [loginMessage] makes of it, lowers the loading flag and leaves the
    profile and the chat state as they were. *)
Theorem login_failure_shows_message :
  forall fuel email password w e,
    fst (Auth.login env fuel email password w) = Rejected e ->
    let w' := snd (Auth.login env fuel email password w) in
    auth_error w' = Some (Auth.loginMessage e) /\
    auth_isLoading w' = false /\
    user w' = user w /\
    chatHistories w' = chatHistories w /\
    currentChat w' = currentChat w.
Proof.
  intros fuel email password w e. cbv zeta. rewrite login_run.
  unfold try_finally, try_catch, bind.
  set (w0 := with_auth_error None (with_auth_isLoading true w)).
  destruct (Api.login env fuel email password w0) as [[r | e1 | why] w1] eqn:Hlogin;
    [| | discriminate].
  - assert (H1 : api_frame w0 w1).
    { eapply api_frame_of; [| exact Hlogin].
      apply stable_api_login; auto with frames. typeclasses eauto. }
    destruct H1 as (_ & _ & Hu1 & _ & _ & Hh1 & Hc1 & _).
    destruct (Api.getCurrentUser env fuel w1) as [[u | e2 | why] w2] eqn:Hme;
      [discriminate | | discriminate].
    assert (H2 : api_frame w1 w2).
    { eapply api_frame_of; [| exact Hme].
      apply stable_getCurrentUser; auto with frames. typeclasses eauto. }
    destruct H2 as (_ & _ & Hu2 & _ & _ & Hh2 & Hc2 & _).
    run. intros H. injection H as <-. subst w0. revert Hu1 Hh1 Hc1. fields.
    intros Hu1 Hh1 Hc1.
    split; [reflexivity |]. split; [reflexivity |].
    split; [congruence |]. split; congruence.
  - assert (H1 : api_frame w0 w1).
    { eapply api_frame_of; [| exact Hlogin].
      apply stable_api_login; auto with frames. typeclasses eauto. }
    destruct H1 as (_ & _ & Hu1 & _ & _ & Hh1 & Hc1 & _).
    run. intros H. injection H as <-. subst w0. revert Hu1 Hh1 Hc1. fields.
    intros Hu1 Hh1 Hc1.
    split; [reflexivity |]. split; [reflexivity |].
    split; [congruence |]. split; congruence.
Qed.

(** X8.  When the [fetch] of the login call rejects with a
    [TypeError] whose message contains [fetch], [login] fails with
    the error of the request executor that names the base URL, and
    shows the fixed sentence that asks to start the backend.  One call
    was attempted; tokens, storage and profile are as before. *)
Theorem login_reports_backend_down :
  forall fuel email password w m,
    server env (net_log w)
      (requestCall env w "/auth/login"
         (mkRequestInit (Some POST) (Some (BodyCredentials email password))))
      = FetchRejects (Js.TypeError m) ->
    Js.includes m "fetch" = true ->
    let res := Auth.login env (S fuel) email password w in
    fst res
      = Rejected
          (Js.Error
             ("Backend server is not running. Please check if the backend server is running on "
              +:+ API_BASE_URL env)) /\
    auth_error (snd res)
      = Some "Backend server is not running. Please start the backend server." /\
    accessToken (snd res) = accessToken w /\
    localStorage (snd res) = localStorage w /\
    user (snd res) = user w /\
    auth_isLoading (snd res) = false /\
    List.length (net_log (snd res)) = S (List.length (net_log w)).
Proof.
  intros fuel email password w m Hanswer Hfetch. cbv zeta.
  set (w0 := with_auth_error None (with_auth_isLoading true w)).
  set (o := mkRequestInit (Some POST) (Some (BodyCredentials email password))) in *.
  assert (Hcall : requestCall env w0 "/auth/login" o = requestCall env w "/auth/login" o)
    by reflexivity.
  destruct (request_one_call env fuel "/auth/login" o w0) as [Hw Hout].
  { rewrite Hcall. change (net_log w0) with (net_log w). rewrite Hanswer. exact I. }
  rewrite Hcall in Hw, Hout. change (net_log w0) with (net_log w) in Hw, Hout.
  rewrite Hanswer in Hout. cbn [Js.isTypeError Js.message andb] in Hout.
  rewrite Hfetch in Hout.
  assert (Hlogin : Api.login env (S fuel) email password w0
            = (Rejected (Js.Error
                 ("Backend server is not running. Please check if the backend server is running on "
                  +:+ API_BASE_URL env)),
               with_net_log (requestCall env w "/auth/login" o :: net_log w) w0)).
  { unfold Api.login. fold o.
    destruct (Api.request env (S fuel) "/auth/login" o w0) as [out w1] eqn:Hreq.
    cbn [fst snd] in Hw, Hout. subst out w1.
    apply bind_rejected. exact Hreq. }
  rewrite login_run. fold w0. unfold try_finally, try_catch.
  rewrite (bind_rejected _ _ _ _ _ Hlogin). run. subst w0. fields.
  split; [reflexivity |]. split; [vm_compute; reflexivity |].
  repeat split; reflexivity.
Qed.

(** X9.  A login attempted while no token is held and refused by
    the server, with whatever failure status, makes that one call,
    fails with the message of the server and shows what
    [loginMessage] makes of that message; the token store and the
    profile are as before. *)
Theorem refused_login_shows_server_message :
  forall fuel email password w r,
    Js.truthy (accessToken w) = false ->
    server env (net_log w)
      (Api.mkCall env "/auth/login"
         (mkRequestInit (Some POST) (Some (BodyCredentials email password))) None)
      = FetchResolves r ->
    ok r = false ->
    let res := Auth.login env (S fuel) email password w in
    fst res = Rejected (Js.Error (Api.errorMessage r)) /\
    auth_error (snd res)
      = Some (Auth.loginMessage (Js.Error (Api.errorMessage r))) /\
    accessToken (snd res) = accessToken w /\
    localStorage (snd res) = localStorage w /\
    user (snd res) = user w /\
    auth_isLoading (snd res) = false /\
    List.length (net_log (snd res)) = S (List.length (net_log w)).
Proof.
  intros fuel email password w r Htoken Hanswer Hok. cbv zeta.
  set (w0 := with_auth_error None (with_auth_isLoading true w)).
  set (o := mkRequestInit (Some POST) (Some (BodyCredentials email password))) in *.
  assert (Hcall : requestCall env w0 "/auth/login" o = Api.mkCall env "/auth/login" o None).
  { unfold requestCall. subst w0. fields. rewrite Htoken. reflexivity. }
  destruct (request_one_call env fuel "/auth/login" o w0) as [Hw Hout].
  { rewrite Hcall. change (net_log w0) with (net_log w). rewrite Hanswer.
    right. right. exact Htoken. }
  rewrite Hcall in Hw, Hout. change (net_log w0) with (net_log w) in Hw, Hout.
  rewrite Hanswer, Hok in Hout.
  assert (Hlogin : Api.login env (S fuel) email password w0
            = (Rejected (Js.Error (Api.errorMessage r)),
               with_net_log (Api.mkCall env "/auth/login" o None :: net_log w) w0)).
  { unfold Api.login. fold o.
    destruct (Api.request env (S fuel) "/auth/login" o w0) as [out w1] eqn:Hreq.
    cbn [fst snd] in Hw, Hout. subst out w1.
    apply bind_rejected. exact Hreq. }
  rewrite login_run. fold w0. unfold try_finally, try_catch.
  rewrite (bind_rejected _ _ _ _ _ Hlogin). run. subst w0. fields.
  repeat split; reflexivity.
Qed.

Lemma register_run fuel email username password w :
  Auth.register env fuel email username password w
  = try_finally
      (try_catch
         (_ <- Api.register env fuel email username password ;;
          Auth.login env fuel email password)
         (fun err =>
            modify (with_auth_error (Some (Js.message err))) ;;;
            throw err))
      (with_auth_isLoading false)
      (with_auth_error None (with_auth_isLoading true w)).
Proof. reflexivity. Qed.

(** X10.  A [register] whose registration call fails stops there:
    the error is rethrown, its message is shown as it is, and the
    world is the one the call left, so no login was attempted.  When
    the registration succeeds and the login that follows fails, the
    message shown in the end is again the raw message of the error,
    not the sentence [login] had chosen for it. *)
Theorem register_failure_shows_raw_message :
  forall fuel email username password w out w1,
    Api.register env fuel email username password
      (with_auth_error None (with_auth_isLoading true w)) = (out, w1) ->
    let res := Auth.register env fuel email username password w in
    match out with
    | Rejected e =>
        res = (Rejected e,
               with_auth_isLoading false (with_auth_error (Some (Js.message e)) w1))
    | Resolved _ =>
        forall e,
          fst (Auth.login env fuel email password w1) = Rejected e ->
          fst res = Rejected e /\
          auth_error (snd res) = Some (Js.message e) /\
          auth_isLoading (snd res) = false
    | Unsettled why => fst res = Unsettled why
    end.
Proof.
  intros fuel email username password w out w1 Hregister. cbv zeta.
  rewrite register_run. unfold try_finally, try_catch.
  destruct out as [u | e | why].
  - rewrite (bind_resolved _ _ _ _ _ Hregister).
    intros e.
    destruct (Auth.login env fuel email password w1) as [[[] | e1 | why] w2];
      cbn [fst]; try discriminate.
    intros H. injection H as <-. run. repeat split; reflexivity.
  - rewrite (bind_rejected _ _ _ _ _ Hregister). reflexivity.
  - rewrite (bind_unsettled _ _ _ _ _ Hregister). reflexivity.
Qed.

(** X11.  [logout] of the authentication provider always
    completes, makes no call, empties the Token Store, clears the
    profile and the error and leaves the application anonymous.  It
    removes the two token keys from [localStorage] and no other key,
    and it does not touch the chat state. *)
Theorem logout_is_local :
  forall w,
    let w' := snd (Auth.logout w) in
    fst (Auth.logout w) = Resolved tt /\
    Auth.isAuthenticated w' = false /\
    tokenStoreEmpty w' /\
    user w' = None /\
    auth_error w' = None /\
    net_log w' = net_log w /\
    chatHistories w' = chatHistories w /\
    currentChat w' = currentChat w /\
    (forall key,
       key <> "access_token" -> key <> "refresh_token" ->
       localStorage w' !! key = localStorage w !! key).
Proof.
  intros w. cbv zeta. unfold Auth.logout, Api.logout, Api.removeItem. run.
  unfold Auth.isAuthenticated, tokenStoreEmpty. fields.
  split; [reflexivity |]. split; [reflexivity |].
  split.
  { split; [reflexivity |]. split.
    - rewrite lookup_delete_ne by discriminate. apply lookup_delete_eq.
    - apply lookup_delete_eq. }
  repeat (split; [reflexivity |]).
  intros key Ha Hr.
  rewrite lookup_delete_ne by congruence. apply lookup_delete_ne. congruence.
Qed.

End AuthOutcome.

(** ** The two namespaces of session ids *)

Lemma isLocal_toString n : Chat.isLocal (Js.toString n) = false.
Proof.
  unfold Chat.isLocal, Js.startsWith, Js.toString.
  destruct n as [| p | p]; [reflexivity | | reflexivity].
  cbn [Z.to_int NilZero.string_of_int].
  pose proof (Unsigned.to_uint_nonnil p) as Hnil.
  destruct (Pos.to_uint p); [contradiction | reflexivity ..].
Qed.

(** X12.  The ids of the sessions of the server and the ids of the
    local sessions never meet.  For a session whose number is a safe
    integer (below 2^53 in absolute value, so that the number the
    client holds is the one the server sent), the id of the converted
    session does not start with [local-], and [parseInt] reads the
    number of the session back from it, so that the path of its
    endpoint is the one of that number; an id that starts with
    [local-] parses to [NaN]. *)
Theorem session_namespaces_are_disjoint :
  forall session messages suffix,
    safeInteger (session_id session) ->
    Chat.isLocal (h_id (Chat.convertApiChatToLocal session messages)) = false /\
    Js.parseInt (h_id (Chat.convertApiChatToLocal session messages))
      = Some (session_id session) /\
    Api.sessionPath (Js.parseInt (h_id (Chat.convertApiChatToLocal session messages)))
      = "/chat/sessions/" +:+ Js.toString (session_id session) /\
    Chat.isLocal ("local-" +:+ suffix) = true /\
    Js.parseInt ("local-" +:+ suffix) = None /\
    Api.sessionPath (Js.parseInt ("local-" +:+ suffix)) = "/chat/sessions/NaN".
Proof.
  intros session messages suffix _. cbn [Chat.convertApiChatToLocal h_id].
  rewrite parseInt_toString.
  split; [apply isLocal_toString |].
  split; [reflexivity |]. split; [reflexivity |].
  split; [apply isLocal_prefixed |]. split; reflexivity.
Qed.

Section ChatOutcome.

Variable env : Env.
Variable fuel : nat.

Lemma filter_filter {A} (f : A -> bool) l :
  List.filter f (List.filter f l) = List.filter f l.
Proof.
  induction l as [| a l IH]; simpl; [reflexivity |].
  destruct (f a) eqn:Ha; simpl; [rewrite Ha, IH |]; auto.
Qed.

(** X13.  On the transition to the anonymous state the effect keeps
    exactly the local sessions of the directory, in their order, keeps
    the current session exactly when it is a local one, and makes no
    call.  Run again on its result, it changes nothing. *)
Theorem logout_transition_keeps_local_sessions :
  forall w,
    let res := Chat.authEffect env fuel false w in
    fst res = Resolved tt /\
    chatHistories (snd res)
      = List.filter (fun chat => Chat.isLocal (h_id chat)) (chatHistories w) /\
    (forall h, In h (chatHistories (snd res)) <->
               In h (chatHistories w) /\ Chat.isLocal (h_id h) = true) /\
    (forall c, currentChat (snd res) = Some c <->
               currentChat w = Some c /\ Chat.isLocal (h_id c) = true) /\
    net_log (snd res) = net_log w /\
    Chat.authEffect env fuel false (snd res) = (Resolved tt, snd res).
Proof.
  intros w. cbv zeta. unfold Chat.authEffect. run.
  split; [reflexivity |]. split; [reflexivity |].
  split; [intros h; apply List.filter_In |].
  split.
  { intros c. destruct (currentChat w) as [prev |].
    - destruct (Chat.isLocal (h_id prev)) eqn:Hlocal; split.
      + intros H. injection H as <-. split; [reflexivity | exact Hlocal].
      + intros [H _]. exact H.
      + discriminate.
      + intros [H Hc]. injection H as <-. congruence.
    - split; [discriminate | intros [H _]; discriminate]. }
  split; [reflexivity |].
  rewrite filter_filter. unfold with_currentChat, with_chatHistories. fields.
  do 2 f_equal.
  destruct (currentChat w) as [prev |]; [| reflexivity].
  destruct (Chat.isLocal (h_id prev)) eqn:Hlocal; [rewrite Hlocal |]; reflexivity.
Qed.

(** X14.  [createNewChat] of an authenticated user: when the server
    creates the session, the converted session, with no messages and
    an id of the remote namespace, is put at the head of the directory
    and becomes current; when the call fails, the operation completes
    and the directory and the current session are as before. *)
Theorem createNewChat_remote_outcome :
  forall w out w1,
    Api.createChatSession env fuel "New Conversation" w = (out, w1) ->
    let res := Chat.createNewChat env fuel true w in
    match out with
    | Resolved session =>
        fst res = Resolved tt /\
        chatHistories (snd res)
          = Chat.convertApiChatToLocal session [] :: chatHistories w /\
        currentChat (snd res) = Some (Chat.convertApiChatToLocal session []) /\
        Chat.isLocal (h_id (Chat.convertApiChatToLocal session [])) = false
    | Rejected _ =>
        fst res = Resolved tt /\
        chatHistories (snd res) = chatHistories w /\
        currentChat (snd res) = currentChat w
    | Unsettled why => fst res = Unsettled why
    end.
Proof.
  intros w out w1 Hcreate. cbv zeta.
  assert (Hframe : api_frame w w1).
  { eapply api_frame_of; [| exact Hcreate].
    apply stable_createChatSession; auto with frames. typeclasses eauto. }
  destruct Hframe as (_ & _ & _ & _ & _ & Hh & Hc & _).
  unfold Chat.createNewChat. cbn [negb]. unfold try_catch.
  destruct out as [session | e | why].
  - rewrite (bind_resolved _ _ _ _ _ Hcreate). run.
    split; [reflexivity |]. split; [rewrite Hh; reflexivity |].
    split; [reflexivity |]. apply isLocal_toString.
  - rewrite (bind_rejected _ _ _ _ _ Hcreate). run.
    split; [reflexivity |]. split; assumption.
  - rewrite (bind_unsettled _ _ _ _ _ Hcreate). reflexivity.
Qed.

Lemma findById_id chatId l h :
  Chat.findById chatId l = Some h -> In h l /\ h_id h = chatId.
Proof.
  unfold Chat.findById. intros H. apply List.find_some in H.
  destruct H as [Hin Heq]. apply String.eqb_eq in Heq. split; assumption.
Qed.

(** X15.  [selectChat] on a remote id by an authenticated user
    never changes the directory.  When the log arrives and the id is
    in the directory, the current session becomes the directory entry
    with the converted log for messages; when the id is not in the
    directory, or the call fails, the current session stays.  In each
    case the operation completes with the loading flag down. *)
Theorem selectChat_remote_outcome :
  forall w chatId out w1,
    Chat.isLocal chatId = false ->
    Api.getChatMessages env fuel (Js.parseInt chatId) (with_chat_isLoading true w)
      = (out, w1) ->
    let res := Chat.selectChat env fuel true chatId w in
    chatHistories (snd res) = chatHistories w /\
    match out with
    | Resolved messages =>
        fst res = Resolved tt /\
        chat_isLoading (snd res) = false /\
        match Chat.findById chatId (chatHistories w) with
        | Some session =>
            exists c,
              currentChat (snd res) = Some c /\
              h_id c = chatId /\ h_title c = h_title session /\
              h_messages c = List.map Chat.convertMessage messages /\
              h_createdAt c = h_createdAt session /\
              h_updatedAt c = h_updatedAt session
        | None => currentChat (snd res) = currentChat w
        end
    | Rejected _ =>
        fst res = Resolved tt /\
        chat_isLoading (snd res) = false /\
        currentChat (snd res) = currentChat w
    | Unsettled why => fst res = Unsettled why
    end.
Proof.
  intros w chatId out w1 Hremote Hget. cbv zeta.
  split; [apply selectChat_directory |].
  assert (Hframe : api_frame (with_chat_isLoading true w) w1).
  { eapply api_frame_of; [| exact Hget].
    apply stable_getChatMessages; auto with frames. typeclasses eauto. }
  destruct Hframe as (_ & _ & _ & _ & _ & _ & Hc & _). revert Hc. fields. intros Hc.
  unfold Chat.selectChat. run. rewrite Hremote. cbn [negb]. rewrite Hget.
  destruct out as [messages | e | why]; [| | reflexivity].
  - destruct (Chat.findById chatId (chatHistories w)) as [session |] eqn:Hfind; run.
    + split; [reflexivity |]. split; [reflexivity |].
      eexists. split; [reflexivity |]. cbn.
      apply findById_id in Hfind. destruct Hfind as [_ Hid].
      repeat split; try reflexivity. exact Hid.
    + split; [reflexivity |]. split; [reflexivity | exact Hc].
  - run. split; [reflexivity |]. split; [reflexivity | exact Hc].
Qed.

(** X16.  On the transition to the authenticated state, a failure
    to fetch the list of sessions leaves the directory and the current
    session as they were.  When the list arrives, no session is
    current and the fetch of the log of the most recent session
    fails, the directory is the new list and no session is current.
    In both cases the effect completes with the loading flag down. *)
Theorem session_list_failure_leaves_state :
  forall w,
    (forall e w1,
       Api.getChatSessions env fuel (with_chat_isLoading true w) = (Rejected e, w1) ->
       let res := Chat.authEffect env fuel true w in
       fst res = Resolved tt /\
       chatHistories (snd res) = chatHistories w /\
       currentChat (snd res) = currentChat w /\
       chat_isLoading (snd res) = false) /\
    (forall session0 rest w1 e w2,
       currentChat w = None ->
       Api.getChatSessions env fuel (with_chat_isLoading true w)
         = (Resolved (session0 :: rest), w1) ->
       Api.getChatMessages env fuel (Some (session_id session0))
         (with_chatHistories
            (List.map (fun session => Chat.convertApiChatToLocal session [])
               (session0 :: rest)) w1) = (Rejected e, w2) ->
       let res := Chat.authEffect env fuel true w in
       fst res = Resolved tt /\
       chatHistories (snd res)
         = List.map (fun session => Chat.convertApiChatToLocal session [])
             (session0 :: rest) /\
       currentChat (snd res) = None /\
       chat_isLoading (snd res) = false).
Proof.
  intros w. split.
  - intros e w1 Hlist. cbv zeta.
    assert (Hframe : api_frame (with_chat_isLoading true w) w1).
    { eapply api_frame_of; [| exact Hlist].
      apply stable_getChatSessions; auto with frames. typeclasses eauto. }
    destruct Hframe as (_ & _ & _ & _ & _ & Hh & Hc & _).
    revert Hh Hc. fields. intros Hh Hc.
    unfold Chat.authEffect, Chat.loadChatSessions. cbn [negb]. run.
    rewrite Hlist. run. repeat split; try reflexivity; assumption.
  - intros session0 rest w1 e w2 Hcur Hlist Hget. cbv zeta.
    assert (H1 : api_frame (with_chat_isLoading true w) w1).
    { eapply api_frame_of; [| exact Hlist].
      apply stable_getChatSessions; auto with frames. typeclasses eauto. }
    assert (H2 : api_frame
                   (with_chatHistories
                      (List.map (fun session => Chat.convertApiChatToLocal session [])
                         (session0 :: rest)) w1) w2).
    { eapply api_frame_of; [| exact Hget].
      apply stable_getChatMessages; auto with frames. typeclasses eauto. }
    destruct H1 as (_ & _ & _ & _ & _ & _ & Hc1 & _).
    destruct H2 as (_ & _ & _ & _ & _ & Hh2 & Hc2 & _).
    revert Hc1 Hh2 Hc2. fields. intros Hc1 Hh2 Hc2.
    unfold Chat.authEffect, Chat.loadChatSessions. cbn [negb]. run.
    rewrite Hlist, Hcur. run. cbn [List.map Chat.convertApiChatToLocal h_id].
    rewrite parseInt_toString.
    cbn [List.map Chat.convertApiChatToLocal] in Hget. rewrite Hget. run.
    split; [reflexivity |]. split; [exact Hh2 |].
    split; [congruence | reflexivity].
Qed.

(** X17.  [sendMessage] of an authenticated user with no current
    session, when the server fails to create one: the operation
    completes and the content is dropped.  No session is created or
    made current, no message is appended, no timer is set. *)
Theorem sendMessage_without_session_gives_up :
  forall w content e w1,
    currentChat w = None ->
    Api.createChatSession env fuel "New Conversation" w = (Rejected e, w1) ->
    Chat.sendMessage env fuel true content w = (Resolved tt, w1) /\
    chatHistories w1 = chatHistories w /\
    currentChat w1 = None /\
    timers w1 = timers w /\ ticks w1 = ticks w.
Proof.
  intros w content e w1 Hcur Hcreate.
  assert (Hframe : api_frame w w1).
  { eapply api_frame_of; [| exact Hcreate].
    apply stable_createChatSession; auto with frames. typeclasses eauto. }
  destruct Hframe as (Ht & Hk & _ & _ & _ & Hh & Hc & _).
  split.
  - unfold Chat.sendMessage, Chat.resolveTarget. run. rewrite Hcur.
    run. rewrite Hcreate. reflexivity.
  - repeat split; congruence.
Qed.

(** X18.  The first message of a remote session, once the content
    is sent and the log fetched: the title request is made in a world
    with the log of calls and the token of that moment.  When it
    succeeds the current session and its directory entries carry the
    title of the server; when it fails they keep the speculative
    title, and the operation still completes.  In both cases the
    messages are the converted log. *)
Theorem generated_title_replaces_speculative :
  forall content w targetChat w0 updatedChat w1 reply w2 messages w3,
    Chat.resolveTarget env fuel true w = (Resolved (Some targetChat), w0) ->
    Chat.isLocal (h_id targetChat) = false ->
    h_messages targetChat = [] ->
    Chat.optimisticAppend env targetChat content w0 = (Resolved updatedChat, w1) ->
    Api.sendMessage env fuel (Js.parseInt (h_id targetChat)) content w1
      = (Resolved reply, w2) ->
    Api.getChatMessages env fuel (Js.parseInt (h_id targetChat)) w2
      = (Resolved messages, w3) ->
    exists w4,
      net_log w4 = net_log w3 /\ accessToken w4 = accessToken w3 /\
      forall out w5,
        Api.updateSessionTitle env fuel (Js.parseInt (h_id targetChat)) w4
          = (out, w5) ->
        let res := Chat.sendMessage env fuel true content w in
        match out with
        | Resolved title =>
            fst res = Resolved tt /\
            exists c,
              currentChat (snd res) = Some c /\
              h_title c = title /\
              h_messages c = List.map Chat.convertMessage messages /\
              (forall h, In h (chatHistories (snd res)) ->
                         h_id h = h_id targetChat -> h = c)
        | Rejected _ =>
            fst res = Resolved tt /\
            exists c,
              currentChat (snd res) = Some c /\
              h_title c = Js.slice0 content 30 +:+ "..." /\
              h_messages c = List.map Chat.convertMessage messages /\
              (forall h, In h (chatHistories (snd res)) ->
                         h_id h = h_id targetChat -> h = c)
        | Unsettled why => fst res = Unsettled why
        end.
Proof.
  intros content w targetChat w0 updatedChat w1 reply w2 messages w3
    Hresolve Hremote Hempty Happend Hsend Hget.
  destruct (optimisticAppend_run env targetChat content w0)
    as (u & w' & Hrun0 & Hid & Htitle & _).
  rewrite Hrun0 in Happend. injection Happend as <- <-.
  destruct (dispatch_remote_run env fuel targetChat u content w' reply w2
              messages w3 Hremote Hsend Hget)
    as (finalChat & w4 & Hfid & Hftitle & Hmsgs & Hcur & Hdir & Hnet & Htok & Hrun).
  assert (Hfid' : h_id finalChat = h_id targetChat) by congruence.
  assert (Hspec : h_title finalChat = Js.slice0 content 30 +:+ "...").
  { rewrite Hftitle, Htitle. unfold Chat.speculativeTitle. rewrite Hempty. reflexivity. }
  exists w4. split; [exact Hnet |]. split; [exact Htok |].
  intros out w5 Hrename. cbv zeta.
  assert (Hsm : Chat.sendMessage env fuel true content w
                = match Chat.dispatch env fuel true targetChat u content w' with
                  | (Rejected e, w'') => Chat.rollback targetChat w''
                  | r => r
                  end).
  { unfold Chat.sendMessage.
    rewrite (bind_resolved _ _ _ _ _ Hresolve).
    rewrite (bind_resolved _ _ _ _ _ Hrun0). reflexivity. }
  rewrite Hsm, Hrun, Hempty. cbn [List.length Nat.eqb].
  unfold try_catch, bind. rewrite Hrename.
  apply api_frame_of in Hrename;
    [| apply stable_updateSessionTitle; auto with frames; typeclasses eauto].
  destruct Hrename as (_ & _ & _ & _ & _ & Hh5 & Hc5 & _).
  destruct out as [title | e | why]; run.
  - split; [reflexivity |]. eexists. split; [reflexivity |]. cbn.
    split; [reflexivity |]. split; [exact Hmsgs |].
    intros h Hin Hh. eapply replaceById_hit; eauto.
  - split; [reflexivity |]. exists finalChat. rewrite Hc5, Hh5, Hdir.
    split; [exact Hcur |]. split; [exact Hspec |]. split; [exact Hmsgs |].
    intros h Hin Hh. eapply replaceById_hit; eauto.
  - reflexivity.
Qed.

Lemma toString_injective a b : Js.toString a = Js.toString b -> a = b.
Proof.
  intros H. pose proof (parseInt_toString a) as Ha.
  rewrite H, parseInt_toString in Ha. congruence.
Qed.

(** X19.  Two local sessions created one after the other have the
    same id exactly when the clock shows the same millisecond at the
    two reads of [Date.now()].  The two sessions are then one for
    every operation that goes by id: deleting the second removes the
    first as well. *)
Theorem local_ids_repeat_within_a_millisecond :
  forall w,
    let w1 := snd (Chat.createNewChat env fuel false w) in
    let w2 := snd (Chat.createNewChat env fuel false w1) in
    exists a b,
      chatHistories w2 = b :: a :: chatHistories w /\
      currentChat w2 = Some b /\
      (h_id a = h_id b <-> clock env (3 + ticks w)%nat = clock env (ticks w)) /\
      (h_id a = h_id b ->
       forall isAuthenticated,
         chatHistories (snd (Chat.deleteChat env fuel isAuthenticated (h_id b) w2))
         = Chat.removeById (h_id b) (chatHistories w)).
Proof.
  intros w. cbv zeta. unfold Chat.createNewChat, Chat.newLocalChat. cbn [negb]. run.
  eexists. eexists. split; [reflexivity |]. split; [reflexivity |].
  cbn [h_id Nat.add]. split.
  - split.
    + intros H. simpl in H. injection H as H. apply toString_injective in H.
      congruence.
    + intros H. rewrite H. reflexivity.
  - intros Hsame isAuthenticated.
    unfold Chat.deleteChat, Chat.removeChat. run.
    rewrite isLocal_prefixed. rewrite String.eqb_refl. run.
    unfold Chat.removeById. cbn [List.filter h_id].
    rewrite String.eqb_refl. rewrite Hsame, String.eqb_refl. reflexivity.
Qed.

End ChatOutcome.

(** ** The current session is one of the directory *)

Section Listed.

Variable env : Env.
Variable fuel : nat.

Lemma listed_transfer w w' :
  chatHistories w' = chatHistories w -> currentChat w' = currentChat w ->
  currentListed w -> currentListed w'.
Proof. unfold currentListed. intros -> ->. exact id. Qed.

Lemma listed_head c l w :
  currentListed (with_currentChat (Some c) (with_chatHistories (c :: l) w)).
Proof. intros c' H. injection H as <-. left. reflexivity. Qed.

Lemma listed_none w : currentChat w = None -> currentListed w.
Proof. intros H c Hc. congruence. Qed.

Lemma listed_createNewChat isAuthenticated w :
  currentListed w ->
  currentListed (snd (Chat.createNewChat env fuel isAuthenticated w)).
Proof.
  intros Hw. unfold Chat.createNewChat.
  destruct isAuthenticated; cbn [negb].
  - unfold try_catch, bind.
    destruct (Api.createChatSession env fuel "New Conversation" w)
      as [[session | e | why] w1] eqn:Hcreate;
      (apply api_frame_of in Hcreate;
         [| apply stable_createChatSession; auto with frames; typeclasses eauto]);
      destruct Hcreate as (_ & _ & _ & _ & _ & Hh & Hc & _); run.
    + apply listed_head.
    + apply (listed_transfer w); assumption.
    + apply (listed_transfer w); assumption.
  - unfold Chat.newLocalChat. run. apply listed_head.
Qed.

Lemma listed_selectChat isAuthenticated chatId w :
  currentListed w ->
  currentListed (snd (Chat.selectChat env fuel isAuthenticated chatId w)).
Proof.
  intros Hw. unfold Chat.selectChat. run.
  destruct (Chat.isLocal chatId).
  - destruct (Chat.findById chatId (chatHistories w)) as [h |] eqn:Hfind; run;
      [| exact Hw].
    apply findById_id in Hfind. destruct Hfind as [Hin _].
    intros c Hc. injection Hc as <-. fields. apply List.in_map. exact Hin.
  - destruct isAuthenticated; cbn [negb]; [| exact Hw].
    match goal with
    | |- context [Api.getChatMessages ?a ?b ?c ?d] =>
        destruct (Api.getChatMessages a b c d) as [[ms | e | why] w1] eqn:Hget
    end;
      (apply api_frame_of in Hget;
         [| apply stable_getChatMessages; auto with frames; typeclasses eauto]);
      destruct Hget as (_ & _ & _ & _ & _ & Hh & Hc & _);
      revert Hh Hc; fields; intros Hh Hc.
    + destruct (Chat.findById chatId (chatHistories w)) as [h |] eqn:Hfind; run.
      * apply findById_id in Hfind. destruct Hfind as [Hin _].
        intros c Hcur. injection Hcur as <-. fields. rewrite Hh.
        change (h_id (Chat.withMessages h (List.map Chat.convertMessage ms)))
          with (h_id h).
        apply List.in_map. exact Hin.
      * apply (listed_transfer w); assumption.
    + run. apply (listed_transfer w); assumption.
    + run. apply (listed_transfer w); assumption.
Qed.

Lemma removeById_listed chatId l id :
  In id (List.map h_id l) -> id <> chatId ->
  In id (List.map h_id (Chat.removeById chatId l)).
Proof.
  intros Hin Hne. apply List.in_map_iff in Hin. destruct Hin as [h [Hid Hin]].
  apply List.in_map_iff. exists h. split; [exact Hid |].
  apply removeById_kept; congruence.
Qed.

Lemma head_listed (l : list ChatHistory) c :
  List.head l = Some c -> In (h_id c) (List.map h_id l).
Proof. destruct l; [discriminate |]. intros H. injection H as <-. left. reflexivity. Qed.

Lemma listed_removed chatId w w1 :
  currentListed w ->
  currentChat w1 = currentChat w ->
  currentListed
    (snd (Chat.removeChat chatId (chatHistories w) (currentChat w) w1)).
Proof.
  intros Hw Hc1. unfold Chat.removeChat. run.
  destruct (currentChat w) as [c |] eqn:Hcur.
  - destruct (String.eqb_spec (h_id c) chatId) as [E | E]; run.
    + intros c' Hc'. fields. apply head_listed. exact Hc'.
    + intros c' Hc'. revert Hc'. fields. rewrite Hc1. intros Hc'.
      injection Hc' as <-. apply removeById_listed; [| exact E].
      apply Hw. exact Hcur.
  - run. apply listed_none. exact Hc1.
Qed.

Lemma listed_deleteChat isAuthenticated chatId w :
  currentListed w ->
  currentListed (snd (Chat.deleteChat env fuel isAuthenticated chatId w)).
Proof.
  intros Hw. unfold Chat.deleteChat.
  unfold bind at 1. unfold gets at 1. cbv beta iota.
  unfold bind at 1. unfold gets at 1. cbv beta iota.
  destruct (Chat.isLocal chatId).
  - apply listed_removed; [exact Hw | reflexivity].
  - destruct isAuthenticated; cbn [negb]; [| exact Hw].
    unfold try_catch. unfold bind at 1.
    destruct (Api.deleteChatSession env fuel (Js.parseInt chatId) w)
      as [[[] | e | why] w1] eqn:Hdelete;
      (apply api_frame_of in Hdelete;
         [| apply stable_deleteChatSession; auto with frames; typeclasses eauto]);
      destruct Hdelete as (_ & _ & _ & _ & _ & Hh & Hc & _).
    + pose proof (listed_removed chatId w w1 Hw Hc) as H.
      destruct (Chat.removeChat chatId (chatHistories w) (currentChat w) w1)
        as [[[] | e | why] w2]; exact H.
    + apply (listed_transfer w); assumption.
    + apply (listed_transfer w); assumption.
Qed.

Lemma listed_from_append isAuthenticated targetChat content w0 :
  currentChat w0 = Some targetChat ->
  In (h_id targetChat) (List.map h_id (chatHistories w0)) ->
  currentListed
    (snd ((updatedChat <- Chat.optimisticAppend env targetChat content ;;
           try_catch
             (Chat.dispatch env fuel isAuthenticated targetChat updatedChat content)
             (fun error => Chat.rollback targetChat)) w0)).
Proof.
  intros Hcur Hin.
  pose proof (stable_send_from_append (keeps_session (h_id targetChat))
                (h_id targetChat)
                (keeps_session_token _) (keeps_session_storage _)
                (keeps_session_call _) (keeps_session_ticks _)
                (keeps_session_timers _) (keeps_session_current _)
                (keeps_session_directory _)
                env fuel isAuthenticated targetChat content eq_refl w0)
    as [Hids Hkeep].
  intros c Hc. unfold ids_kept in Hids. rewrite Hids.
  rewrite Hcur in Hkeep. specialize (Hkeep eq_refl). rewrite Hc in Hkeep.
  injection Hkeep as ->. exact Hin.
Qed.

Lemma listed_sendMessage isAuthenticated content w :
  currentListed w ->
  currentListed (snd (Chat.sendMessage env fuel isAuthenticated content w)).
Proof.
  intros Hw. destruct (currentChat w) as [targetChat |] eqn:Hcur.
  - rewrite (sendMessage_current env fuel isAuthenticated content w targetChat Hcur).
    apply listed_from_append; [exact Hcur | apply Hw; exact Hcur].
  - unfold Chat.sendMessage, Chat.resolveTarget.
    unfold bind at 1. unfold bind at 1. unfold gets at 1. cbv beta iota.
    rewrite Hcur. destruct isAuthenticated.
    + unfold try_catch at 1. unfold bind at 1.
      destruct (Api.createChatSession env fuel "New Conversation" w)
        as [[session | e | why] w1] eqn:Hcreate;
        (apply api_frame_of in Hcreate;
           [| apply stable_createChatSession; auto with frames; typeclasses eauto]);
        destruct Hcreate as (_ & _ & _ & _ & _ & Hh & Hc & _).
      * run. apply listed_from_append; [reflexivity | left; reflexivity].
      * run. apply listed_none. congruence.
      * run. apply listed_none. congruence.
    + unfold Chat.newLocalChat. run.
      apply listed_from_append; [reflexivity | left; reflexivity].
Qed.

(** X20.  Once the current session has its id in the directory, it
    keeps it there through [createNewChat], [selectChat], [deleteChat]
    and [sendMessage], whatever the server answers, and through the
    transition to the anonymous state. *)
Theorem current_session_stays_listed :
  forall isAuthenticated w,
    currentListed w ->
    currentListed (snd (Chat.createNewChat env fuel isAuthenticated w)) /\
    (forall chatId,
       currentListed (snd (Chat.selectChat env fuel isAuthenticated chatId w)) /\
       currentListed (snd (Chat.deleteChat env fuel isAuthenticated chatId w))) /\
    (forall content,
       currentListed (snd (Chat.sendMessage env fuel isAuthenticated content w))) /\
    currentListed (snd (Chat.authEffect env fuel false w)).
Proof.
  intros isAuthenticated w Hw.
  split; [apply listed_createNewChat; exact Hw |].
  split; [intros chatId; split;
          [apply listed_selectChat | apply listed_deleteChat]; exact Hw |].
  split; [intros content; apply listed_sendMessage; exact Hw |].
  unfold Chat.authEffect. run. intros c. fields.
  destruct (currentChat w) as [prev |] eqn:Hcur; [| discriminate].
  destruct (Chat.isLocal (h_id prev)) eqn:Hlocal; [| discriminate].
  intros H. injection H as <-.
  specialize (Hw prev Hcur).
  apply List.in_map_iff in Hw. destruct Hw as [h [Hid Hin]].
  apply List.in_map_iff. exists h. split; [exact Hid |].
  apply List.filter_In. split; [exact Hin |]. rewrite Hid. exact Hlocal.
Qed.

(** X21.  The transition to the authenticated state is the one
    operation that does not keep the current session in the
    directory: with a local session current and the list of sessions
    fetched, the local session stays current and its id is not in the
    new directory. *)
Theorem login_transition_unlists_local_session :
  forall w c sessions w1,
    currentChat w = Some c ->
    Chat.isLocal (h_id c) = true ->
    Api.getChatSessions env fuel (with_chat_isLoading true w)
      = (Resolved sessions, w1) ->
    let wf := snd (Chat.authEffect env fuel true w) in
    currentChat wf = Some c /\
    ~ In (h_id c) (List.map h_id (chatHistories wf)) /\
    ~ currentListed wf.
Proof.
  intros w c sessions w1 Hcur Hlocal Hlist. cbv zeta.
  assert (Hframe : api_frame (with_chat_isLoading true w) w1).
  { eapply api_frame_of; [| exact Hlist].
    apply stable_getChatSessions; auto with frames. typeclasses eauto. }
  destruct Hframe as (_ & _ & _ & _ & _ & _ & Hc1 & _).
  revert Hc1. fields. intros Hc1.
  assert (Hrun : snd (Chat.authEffect env fuel true w)
                 = with_chat_isLoading false
                     (with_chatHistories
                        (List.map (fun session => Chat.convertApiChatToLocal session [])
                           sessions) w1)).
  { unfold Chat.authEffect, Chat.loadChatSessions. cbn [negb]. run.
    rewrite Hlist, Hcur. run.
    destruct sessions as [| s ss]; reflexivity. }
  rewrite Hrun. fields.
  assert (Hout : ~ In (h_id c)
                     (List.map h_id
                        (List.map (fun session => Chat.convertApiChatToLocal session [])
                           sessions))).
  { intros Hin. apply List.in_map_iff in Hin. destruct Hin as [h [Hid Hin]].
    apply List.in_map_iff in Hin. destruct Hin as [s [Hs _]]. subst h.
    cbn [Chat.convertApiChatToLocal h_id] in Hid.
    rewrite <- Hid, isLocal_toString in Hlocal. discriminate. }
  split; [congruence |]. split; [exact Hout |].
  intros Hlisted. apply Hout. apply (Hlisted c). fields. congruence.
Qed.

(** X22.  [deleteChat] on a local id, whatever the authentication
    state: the operation completes without a call and without touching
    the token store; the directory loses the entries of that id and
    keeps the others; the current session is never one of that id
    afterwards, a current session of another id stays, and a deleted
    current session gives way to the first of the sessions that
    remain. *)
Theorem deleteChat_local_outcome :
  forall isAuthenticated chatId w,
    Chat.isLocal chatId = true ->
    let res := Chat.deleteChat env fuel isAuthenticated chatId w in
    fst res = Resolved tt /\
    chatHistories (snd res) = Chat.removeById chatId (chatHistories w) /\
    (forall h, In h (chatHistories (snd res)) -> h_id h <> chatId) /\
    (forall c, currentChat (snd res) = Some c -> h_id c <> chatId) /\
    (forall c, currentChat w = Some c -> h_id c <> chatId ->
               currentChat (snd res) = Some c) /\
    (forall c, currentChat w = Some c -> h_id c = chatId ->
               currentChat (snd res)
               = List.head (Chat.removeById chatId (chatHistories w))) /\
    accessToken (snd res) = accessToken w /\
    localStorage (snd res) = localStorage w /\
    net_log (snd res) = net_log w.
Proof.
  intros isAuthenticated chatId w Hlocal. cbv zeta.
  unfold Chat.deleteChat, Chat.removeChat. run. rewrite Hlocal.
  destruct (currentChat w) as [c |] eqn:Hcur.
  - destruct (String.eqb_spec (h_id c) chatId) as [E | E]; run.
    + split; [reflexivity |]. split; [reflexivity |].
      split; [intros h; apply removeById_gone |].
      split.
      { intros c' Hc'.
        destruct (Chat.removeById chatId (chatHistories w)) as [| h l] eqn:Hl;
          [discriminate |].
        injection Hc' as <-. apply (removeById_gone chatId (chatHistories w)).
        rewrite Hl. left. reflexivity. }
      split; [intros c' H; injection H as <-; contradiction |].
      split; [reflexivity |]. repeat split; reflexivity.
    + split; [reflexivity |]. split; [reflexivity |].
      split; [intros h; apply removeById_gone |].
      split; [intros c' H; rewrite Hcur in H; injection H as <-; exact E |].
      split; [intros c' H _; rewrite Hcur; exact H |].
      split; [intros c' H; injection H as <-; contradiction |].
      repeat split; reflexivity.
  - run. split; [reflexivity |]. split; [reflexivity |].
    split; [intros h; apply removeById_gone |].
    split; [intros c' H; rewrite Hcur in H; discriminate |].
    split; [discriminate |]. split; [discriminate |].
    repeat split; reflexivity.
Qed.

End Listed.

(** ** The labels of the sidebar *)

Section SidebarFacts.

Variable env : Env.
Variable parse : string -> option Z.
Variable toLocaleDateString : Js.Date -> string.

(** X23.  [formatDate] labels a date by the time elapsed since it,
    in whole periods of 24 hours, not by the calendar: less than one
    period is [Today], less than two is [Yesterday], two to six are
    counted, seven and more give the date of the locale.  A date in
    the future is labelled with a negative number of days. *)
Theorem formatDate_counts_elapsed_days :
  forall date t w,
    Sidebar.getTime parse date = Some t ->
    let elapsed := clock env (ticks w) - t in
    let label := fst (Sidebar.formatDate env parse toLocaleDateString date w) in
    (0 <= elapsed < 86400000 -> label = Resolved "Today") /\
    (86400000 <= elapsed < 2 * 86400000 -> label = Resolved "Yesterday") /\
    (2 * 86400000 <= elapsed < 7 * 86400000 ->
     label = Resolved (Js.toString (elapsed / 86400000) +:+ " days ago") /\
     2 <= elapsed / 86400000 <= 6) /\
    (7 * 86400000 <= elapsed -> label = Resolved (toLocaleDateString date)) /\
    (elapsed < 0 ->
     label = Resolved (Js.toString (elapsed / 86400000) +:+ " days ago") /\
     elapsed / 86400000 <= -1).
Proof.
  intros date t w Htime elapsed label. subst label.
  unfold Sidebar.formatDate. run. rewrite Htime. fold elapsed.
  change (1000 * 60 * 60 * 24) with 86400000.
  set (d := elapsed / 86400000).
  assert (Hd : 86400000 * d <= elapsed < 86400000 * d + 86400000).
  { subst d. pose proof (Z.mul_div_le elapsed 86400000 ltac:(lia)).
    pose proof (Z.mul_succ_div_gt elapsed 86400000 ltac:(lia)). lia. }
  split; [| split; [| split; [| split]]]; intros H.
  - assert (d = 0) as -> by lia. reflexivity.
  - assert (d = 1) as -> by lia. reflexivity.
  - assert (Hr : 2 <= d <= 6) by lia. split; [| exact Hr].
    destruct (d =? 0) eqn:E0; [lia |]. destruct (d =? 1) eqn:E1; [lia |].
    destruct (d <? 7) eqn:E7; [reflexivity | lia].
  - assert (Hr : 7 <= d) by lia.
    destruct (d =? 0) eqn:E0; [lia |]. destruct (d =? 1) eqn:E1; [lia |].
    destruct (d <? 7) eqn:E7; [lia | reflexivity].
  - assert (Hr : d <= -1) by lia. split; [| exact Hr].
    destruct (d =? 0) eqn:E0; [lia |]. destruct (d =? 1) eqn:E1; [lia |].
    destruct (d <? 7) eqn:E7; [reflexivity | lia].
Qed.

End SidebarFacts.

(** ** The attachments of the report form *)

Section ReportFormFacts.

Import ReportForm.

Lemma dropIndex_above i index files :
  (index < i)%nat -> dropIndex i index files = files.
Proof.
  revert i. induction files as [| f l IH]; intros i Hi; simpl; [reflexivity |].
  destruct (Nat.eqb_spec i index) as [E | E]; [lia |].
  rewrite IH by lia. reflexivity.
Qed.

Lemma dropIndex_split i index files :
  (i <= index)%nat ->
  dropIndex i index files
  = List.firstn (index - i) files ++ List.skipn (S (index - i)) files.
Proof.
  revert i. induction files as [| f l IH]; intros i Hi; simpl.
  - destruct (index - i)%nat; reflexivity.
  - destruct (Nat.eqb_spec i index) as [E | E].
    + subst i. rewrite Nat.sub_diag. simpl. apply dropIndex_above. lia.
    + rewrite IH by lia.
      replace (index - i)%nat with (S (index - S i)) by lia. reflexivity.
Qed.

Lemma upload_run files prev :
  exists added,
    fd_files (snd (handleFileUpload files prev)) = fd_files prev ++ added /\
    (forall file, In file added <-> In file files /\ accepted file = true) /\
    (forall file, In file added ->
                  In (file_type file) allowedTypes /\ file_size file <= 10485760) /\
    (List.length added + List.length (fst (handleFileUpload files prev))
     = List.length files)%nat.
Proof.
  unfold handleFileUpload. cbn [fst snd fd_files].
  exists (List.filter accepted files).
  split; [reflexivity |].
  split; [intros file; apply List.filter_In |].
  split.
  - intros file Hin. apply List.filter_In in Hin. destruct Hin as [_ Hacc].
    unfold accepted, refusal in Hacc.
    destruct (includes allowedTypes (file_type file)) eqn:Htype;
      cbn [negb] in Hacc; [| discriminate].
    destruct (10 * 1024 * 1024 <? file_size file) eqn:Hsize; [discriminate |].
    split.
    + unfold includes in Htype. apply List.existsb_exists in Htype.
      destruct Htype as [t [Hin Heq]]. apply String.eqb_eq in Heq. subst t.
      exact Hin.
    + apply Z.ltb_ge in Hsize. lia.
  - induction files as [| f l IH]; [reflexivity |].
    cbn [List.filter List.flat_map]. unfold accepted at 1.
    destruct (refusal f); cbn [List.length List.app]; rewrite ?List.length_app;
      cbn [List.length]; lia.
Qed.

Lemma includes_In (l : list string) (t : string) :
  includes l t = true <-> In t l.
Proof.
  unfold includes. rewrite List.existsb_exists. split.
  - intros [t' [Hin Heq]]. apply String.eqb_eq in Heq. subst t'. exact Hin.
  - intros Hin. exists t. split; [exact Hin | apply String.eqb_refl].
Qed.

Lemma refusal_cases (file : File) :
  (~ In (file_type file) allowedTypes ->
   refusal file
   = Some ("File type " +:+ file_type file
           +:+ " is not allowed. Please upload images, videos, or PDF files.")) /\
  (In (file_type file) allowedTypes -> 10485760 < file_size file ->
   refusal file
   = Some ("File " +:+ file_name file +:+ " is too large. Maximum size is 10MB.")) /\
  (In (file_type file) allowedTypes -> file_size file <= 10485760 ->
   refusal file = None).
Proof.
  unfold refusal.
  destruct (includes allowedTypes (file_type file)) eqn:Htype; cbn [negb].
  - apply includes_In in Htype.
    split; [intros Hn; contradiction |].
    destruct (10 * 1024 * 1024 <? file_size file) eqn:Hsize.
    + apply Z.ltb_lt in Hsize. split; [reflexivity | intros; lia].
    + apply Z.ltb_ge in Hsize. split; [intros; lia | reflexivity].
  - assert (Hn : ~ In (file_type file) allowedTypes).
    { intros Hin. apply includes_In in Hin. congruence. }
    split; [reflexivity |]. split; intros Hin; contradiction.
Qed.

Lemma accepted_iff (file : File) :
  accepted file = true
  <-> In (file_type file) allowedTypes /\ file_size file <= 10485760.
Proof.
  destruct (refusal_cases file) as (Htype & Hsize & Hok).
  unfold accepted. split.
  - intros Hacc.
    destruct (includes allowedTypes (file_type file)) eqn:Hinc.
    + apply includes_In in Hinc. split; [exact Hinc |].
      destruct (Z_le_gt_dec (file_size file) 10485760) as [Hle | Hgt]; [exact Hle |].
      rewrite (Hsize Hinc ltac:(lia)) in Hacc. discriminate.
    + assert (Hn : ~ In (file_type file) allowedTypes).
      { intros Hin. apply includes_In in Hin. congruence. }
      rewrite (Htype Hn) in Hacc. discriminate.
  - intros [Hin Hle]. rewrite (Hok Hin Hle). reflexivity.
Qed.

Lemma removeFile_run index prev :
  fd_files (removeFile index prev)
    = List.firstn index (fd_files prev) ++ List.skipn (S index) (fd_files prev) /\
  ((index < List.length (fd_files prev))%nat ->
   S (List.length (fd_files (removeFile index prev)))
     = List.length (fd_files prev)) /\
  ((List.length (fd_files prev) <= index)%nat ->
   removeFile index prev = prev) /\
  (forall file,
     accepted file = true ->
     removeFile (List.length (fd_files prev))
       (snd (handleFileUpload [file] prev)) = prev).
Proof.
  assert (Hsplit : fd_files (removeFile index prev)
            = List.firstn index (fd_files prev)
              ++ List.skipn (S index) (fd_files prev)).
  { unfold removeFile. cbn [fd_files]. rewrite dropIndex_split by lia.
    rewrite Nat.sub_0_r. reflexivity. }
  split; [exact Hsplit |]. split; [| split].
  - intros Hlt. rewrite Hsplit, List.length_app, List.length_firstn, List.length_skipn.
    lia.
  - intros Hge. destruct prev as [n p e s d fs]. unfold removeFile.
    cbn [fd_files fd_name fd_phone fd_email fd_subject fd_description] in *.
    f_equal. rewrite dropIndex_split by lia. rewrite Nat.sub_0_r.
    rewrite List.firstn_all2 by lia. rewrite List.skipn_all2 by lia.
    apply List.app_nil_r.
  - intros file Hacc. destruct prev as [n p e s d fs].
    unfold removeFile, handleFileUpload.
    cbn [fst snd fd_files fd_name fd_phone fd_email fd_subject fd_description
         List.filter]. rewrite Hacc. f_equal.
    rewrite dropIndex_split by lia. rewrite Nat.sub_0_r.
    rewrite List.firstn_app, Nat.sub_diag, List.firstn_all. cbn [List.firstn].
    rewrite List.app_nil_r.
    rewrite List.skipn_all2 by (rewrite List.length_app; cbn [List.length]; lia).
    apply List.app_nil_r.
Qed.

(** X24.  The attachments of the report form.  An upload appends,
    in order and with repetitions, exactly the offered files that pass
    the test, and a file passes exactly when its type is one of the
    eight allowed types and its size is at most 10 MB (10485760
    bytes); each refused file gives one alert, naming the type when
    the type is refused and the file when only the size is, in the
    order of the files; the other fields of the form and the files
    already attached are kept.  [removeFile] drops the attachment at
    the index and no other, does nothing for an index out of range,
    and undoes the upload of one accepted file. *)
Theorem report_form_attachments :
  forall files index prev,
    (exists added,
       fd_files (snd (handleFileUpload files prev)) = fd_files prev ++ added /\
       (forall file, In file added <-> In file files /\ accepted file = true) /\
       (forall file, In file added ->
                     In (file_type file) allowedTypes /\
                     file_size file <= 10485760) /\
       (List.length added + List.length (fst (handleFileUpload files prev))
        = List.length files)%nat /\
       added = List.filter accepted files /\
       fst (handleFileUpload files prev)
       = List.flat_map
           (fun file => match refusal file with Some a => [a] | None => [] end)
           files) /\
    (forall file,
       (accepted file = true
        <-> In (file_type file) allowedTypes /\ file_size file <= 10485760) /\
       (~ In (file_type file) allowedTypes ->
        refusal file
        = Some ("File type " +:+ file_type file
                +:+ " is not allowed. Please upload images, videos, or PDF files.")) /\
       (In (file_type file) allowedTypes -> 10485760 < file_size file ->
        refusal file
        = Some ("File " +:+ file_name file +:+ " is too large. Maximum size is 10MB.")) /\
       (In (file_type file) allowedTypes -> file_size file <= 10485760 ->
        refusal file = None)) /\
    (forall t, In t allowedTypes
               <-> t = "image/jpeg" \/ t = "image/png" \/ t = "image/gif"
                   \/ t = "image/webp" \/ t = "video/mp4" \/ t = "video/webm"
                   \/ t = "video/ogg" \/ t = "application/pdf") /\
    snd (handleFileUpload files prev)
      = mkFormData (fd_name prev) (fd_phone prev) (fd_email prev) (fd_subject prev)
          (fd_description prev) (fd_files (snd (handleFileUpload files prev))) /\
    removeFile index prev
      = mkFormData (fd_name prev) (fd_phone prev) (fd_email prev) (fd_subject prev)
          (fd_description prev) (fd_files (removeFile index prev)) /\
    fd_files (removeFile index prev)
      = List.firstn index (fd_files prev) ++ List.skipn (S index) (fd_files prev) /\
    ((index < List.length (fd_files prev))%nat ->
     S (List.length (fd_files (removeFile index prev)))
       = List.length (fd_files prev)) /\
    ((List.length (fd_files prev) <= index)%nat ->
     removeFile index prev = prev) /\
    (forall file,
       accepted file = true ->
       removeFile (List.length (fd_files prev))
         (snd (handleFileUpload [file] prev)) = prev).
Proof.
  intros files index prev.
  split.
  { destruct (upload_run files prev) as (added & H1 & H2 & H3 & H4).
    unfold handleFileUpload in H1. cbn [snd fd_files] in H1.
    apply List.app_inv_head in H1. subst added.
    exists (List.filter accepted files).
    split; [reflexivity |]. split; [exact H2 |]. split; [exact H3 |].
    split; [exact H4 |]. split; reflexivity. }
  split.
  { intros file. split; [apply accepted_iff | apply refusal_cases]. }
  split.
  { intros t. unfold allowedTypes. cbn [In]. intuition. }
  split; [reflexivity |]. split; [reflexivity |].
  apply removeFile_run.
Qed.

End ReportFormFacts.

(** ** The login modal *)

Section LoginModalFacts.

Import LoginModal.

Variable env : Env.
Variable fuel : nat.

(** X25.  Submitting the login modal.  In registration mode with
    two different passwords nothing happens: no call is made, the
    authentication state, its error message included, is as before,
    and the modal stays open with its form.  Otherwise the world is
    the one [login], or [register], leaves; the modal closes with an
    empty form when the operation succeeds and stays as it is when the
    operation fails, and the handler itself never fails. *)
Theorem login_modal_submit_outcome :
  forall st w,
    (isLoginMode st = false ->
     fd_password (formData st) <> fd_confirmPassword (formData st) ->
     handleSubmit env fuel st w = (Resolved st, w)) /\
    (isLoginMode st = true \/
     fd_password (formData st) = fd_confirmPassword (formData st) ->
     let op :=
       if isLoginMode st then
         Auth.login env fuel (fd_email (formData st)) (fd_password (formData st))
       else
         Auth.register env fuel (fd_email (formData st))
           (fd_username (formData st)) (fd_password (formData st)) in
     snd (handleSubmit env fuel st w) = snd (op w) /\
     fst (handleSubmit env fuel st w)
     = match fst (op w) with
       | Resolved _ =>
           Resolved (mkState (isLoginMode st) (showPassword st) emptyForm false)
       | Rejected _ => Resolved st
       | Unsettled why => Unsettled why
       end).
Proof.
  intros st w. split.
  - intros Hmode Hdiff. unfold handleSubmit. rewrite Hmode.
    apply String.eqb_neq in Hdiff. rewrite Hdiff. reflexivity.
  - intros Hcase. cbv zeta. unfold handleSubmit.
    destruct (isLoginMode st).
    + unfold try_catch, bind.
      destruct (Auth.login env fuel _ _ w) as [[[] | e | why] w1];
        split; reflexivity.
    + destruct Hcase as [Hcase | Hcase]; [discriminate |].
      apply String.eqb_eq in Hcase. rewrite Hcase. cbn [negb].
      unfold try_catch, bind.
      destruct (Auth.register env fuel _ _ _ w) as [[[] | e | why] w1];
        split; reflexivity.
Qed.

End LoginModalFacts.

(** ** The listeners of the viewport hook *)

Section ViewportFacts.

Import Viewport.

Lemma eqListener_mount a b :
  eqListener a b = true -> mountOf (l_callback a) = mountOf (l_callback b).
Proof.
  unfold eqListener. intros H.
  apply andb_true_iff in H. destruct H as [_ H].
  destruct (l_callback a), (l_callback b); simpl in *;
    try discriminate; apply Nat.eqb_eq in H; exact H.
Qed.

Lemma older_not_registered k L ls :
  (forall l, In l ls -> (mountOf (l_callback l) < k)%nat) ->
  mountOf (l_callback L) = k ->
  List.existsb (eqListener L) ls = false /\
  List.filter (fun x => negb (eqListener L x)) ls = ls.
Proof.
  intros Hold HL. induction ls as [| x ls IH]; [split; reflexivity |].
  assert (Hx : eqListener L x = false).
  { destruct (eqListener L x) eqn:E; [| reflexivity].
    apply eqListener_mount in E. specialize (Hold x (or_introl eq_refl)). lia. }
  destruct IH as [IH1 IH2]; [intros l Hl; apply Hold; right; exact Hl |].
  simpl. rewrite Hx, IH1, IH2. split; reflexivity.
Qed.

Lemma addEventListener_new L dom :
  List.existsb (eqListener L) (listeners dom) = false ->
  addEventListener L dom
  = mkDom (visualViewport dom) (innerHeight dom) (listeners dom ++ [L])
      (viewportHeight dom).
Proof. intros H. unfold addEventListener. rewrite H. reflexivity. Qed.

Lemma eqListener_refl L : eqListener L L = true.
Proof.
  unfold eqListener. rewrite String.eqb_refl.
  destruct (l_target L), (l_callback L); simpl; rewrite ?Nat.eqb_refl; reflexivity.
Qed.

Lemma effect_run k dom :
  olderThan k dom ->
  effect k dom
  = mkDom (visualViewport dom) (innerHeight dom)
      (listeners dom
       ++ [resizeListener k dom;
           mkListener Window "orientationchange" (DelayedUpdate k)])
      (match visualViewport dom with
       | Some h => h
       | None => innerHeight dom
       end).
Proof.
  intros Hold. unfold effect, resizeListener.
  assert (H1 : forall L, mountOf (l_callback L) = k ->
                         l_type L = "resize" ->
                         updateViewportHeight
                           (addEventListener
                              (mkListener Window "orientationchange" (DelayedUpdate k))
                              (addEventListener L dom))
                         = mkDom (visualViewport dom) (innerHeight dom)
                             (listeners dom
                              ++ [L; mkListener Window "orientationchange"
                                       (DelayedUpdate k)])
                             (match visualViewport dom with
                              | Some h => h
                              | None => innerHeight dom
                              end)).
  { intros L HL Htype.
    destruct (older_not_registered k L (listeners dom) Hold HL) as [E1 _].
    destruct (older_not_registered k
                (mkListener Window "orientationchange" (DelayedUpdate k))
                (listeners dom) Hold eq_refl) as [E2 _].
    rewrite (addEventListener_new L dom E1).
    rewrite addEventListener_new.
    - cbn [listeners visualViewport innerHeight viewportHeight].
      unfold updateViewportHeight, setViewportHeight.
      cbn [listeners visualViewport innerHeight viewportHeight].
      rewrite <- List.app_assoc.
      destruct (visualViewport dom); reflexivity.
    - cbn [listeners]. rewrite List.existsb_app, E2.
      cbn [List.existsb orb]. unfold eqListener at 1.
      cbn [l_type]. rewrite Htype. rewrite andb_false_r. reflexivity. }
  destruct (visualViewport dom); apply H1; reflexivity.
Qed.

Lemma unmount_listeners k dom :
  olderThan k dom ->
  listeners (cleanup k (effect k dom))
  = listeners dom ++ [mkListener Window "orientationchange" (DelayedUpdate k)].
Proof.
  intros Hold. rewrite (effect_run k dom Hold).
  set (D := mkListener Window "orientationchange" (DelayedUpdate k)).
  unfold cleanup, removeEventListener.
  cbn [listeners visualViewport innerHeight viewportHeight].
  assert (H1 : forall L, mountOf (l_callback L) = k -> l_type L = "resize" ->
             List.filter
               (fun x => negb (eqListener
                                 (mkListener Window "orientationchange"
                                    (UpdateViewportHeight k)) x))
               (List.filter (fun x => negb (eqListener L x))
                  (listeners dom ++ [L; D]))
             = listeners dom ++ [D]).
  { intros L HL Htype.
    destruct (older_not_registered k L (listeners dom) Hold HL) as [_ F1].
    destruct (older_not_registered k
                (mkListener Window "orientationchange" (UpdateViewportHeight k))
                (listeners dom) Hold eq_refl) as [_ F3].
    rewrite List.filter_app, F1. cbn [List.filter].
    rewrite eqListener_refl. cbn [negb].
    assert (HLD : eqListener L D = false).
    { unfold eqListener. subst D. cbn [l_type]. rewrite Htype.
      rewrite andb_false_r. reflexivity. }
    rewrite HLD. cbn [negb].
    rewrite List.filter_app, F3. cbn [List.filter]. reflexivity. }
  unfold resizeListener.
  destruct (visualViewport dom); apply H1; reflexivity.
Qed.

(** X26.  The viewport hook, mounted and unmounted: the clean-up
    removes the [resize] listener and leaves the [orientationchange]
    listener registered, since it removes another function than the
    one the effect added.  Each mount adds one such listener for good.
    The effect measures the height of the visual viewport where there
    is one, which differs from the initial state only when that height
    is 0. *)
Theorem orientation_listener_outlives_unmount :
  forall k dom,
    olderThan k dom ->
    listeners (cleanup k (effect k dom))
      = listeners dom ++ [mkListener Window "orientationchange" (DelayedUpdate k)] /\
    (forall n,
       List.length (listeners (remount n k dom))
       = (List.length (listeners dom) + n)%nat) /\
    viewportHeight (effect k dom)
      = match visualViewport dom with
        | Some h => h
        | None => innerHeight dom
        end /\
    (viewportHeight (effect k dom) <> initialHeight dom ->
     exists h, visualViewport dom = Some h /\ Qeq_bool h 0 = true).
Proof.
  intros k dom Hold.
  split; [apply unmount_listeners; exact Hold |]. split; [| split].
  - intros n. revert k dom Hold. induction n as [| n IH]; intros k dom Hold.
    + simpl. lia.
    + cbn [remount]. rewrite IH.
      * rewrite (unmount_listeners k dom Hold), List.length_app. simpl. lia.
      * intros l Hl. rewrite (unmount_listeners k dom Hold) in Hl.
        apply List.in_app_or in Hl. destruct Hl as [Hl | [<- | []]].
        -- specialize (Hold l Hl). lia.
        -- simpl. lia.
  - rewrite (effect_run k dom Hold). reflexivity.
  - rewrite (effect_run k dom Hold). unfold initialHeight.
    cbn [viewportHeight visualViewport innerHeight].
    destruct (visualViewport dom) as [h |]; [| intros H; contradiction H; reflexivity].
    destruct (Qeq_bool h 0) eqn:E; [| intros H; contradiction H; reflexivity].
    intros _. exists h. split; [reflexivity | exact E].
Qed.

End ViewportFacts.

(** ** The report desk *)

(** Evaluation of the straight-line part of a run of the provider. *)
Ltac arun :=
  lazy beta iota zeta delta
      [Admin.abind Admin.aret Admin.athrow Admin.atry_catch Admin.atry_finally
       Admin.update Admin.setIsAdminAuthenticated Admin.setReports
       Admin.setReportStats Admin.setIsLoading Admin.setError fst snd];
  cbn [Admin.isAdminAuthenticated Admin.reports Admin.reportStats Admin.isLoading
       Admin.error Admin.withIsLoading].

Section AdminFacts.

Import ReportService.

Lemma lift_run {A} (m : M A) s w o w1 :
  m w = (o, w1) -> Admin.lift m s w = (o, (s, w1)).
Proof. intros H. unfold Admin.lift. rewrite H. reflexivity. Qed.

(** X27.  The administrator session.  [loginAdmin] returns [true]
    for the passcode and then sets the flag in memory and in
    [localStorage]; for any other string it returns [false] and
    changes nothing.  A provider mounted over the storage a login
    left is authenticated, one mounted after [logoutAdmin] is not, and
    [logoutAdmin] empties the list and the counts.  The tokens of the
    user are never touched.  The mount effect trusts the stored flag
    alone. *)
Theorem admin_flag_round_trip :
  forall passcode s w,
    let res := Admin.loginAdmin passcode s w in
    (passcode = "sakhi12" ->
     fst res = Resolved true /\
     Admin.isAdminAuthenticated (fst (snd res)) = true /\
     localStorage (snd (snd res)) !! "admin_authenticated" = Some "true" /\
     Admin.isAdminAuthenticated
       (fst (snd (Admin.mountEffect Admin.initial (snd (snd res))))) = true /\
     let out := Admin.logoutAdmin (fst (snd res)) (snd (snd res)) in
     Admin.isAdminAuthenticated (fst (snd out)) = false /\
     Admin.reports (fst (snd out)) = [] /\
     Admin.reportStats (fst (snd out)) = None /\
     localStorage (snd (snd out)) !! "admin_authenticated" = None /\
     Admin.isAdminAuthenticated
       (fst (snd (Admin.mountEffect Admin.initial (snd (snd out))))) = false) /\
    (passcode <> "sakhi12" -> res = (Resolved false, (s, w))) /\
    accessToken (snd (snd res)) = accessToken w /\
    localStorage (snd (snd res)) !! "access_token"
      = localStorage w !! "access_token" /\
    localStorage (snd (snd res)) !! "refresh_token"
      = localStorage w !! "refresh_token" /\
    (forall s0 w0,
       localStorage w0 !! "admin_authenticated" = Some "true" ->
       Admin.isAdminAuthenticated (fst (snd (Admin.mountEffect s0 w0))) = true).
Proof.
  intros passcode s w. cbv zeta. split; [| split].
  - intros ->. unfold Admin.loginAdmin, Admin.logoutAdmin, Admin.mountEffect,
      Admin.ADMIN_PASSCODE, Admin.lift, Api.setItem, Api.removeItem, Api.getItem.
    cbn [String.eqb Ascii.eqb Bool.eqb]. arun. run. arun.
    rewrite lookup_insert_eq. rewrite lookup_delete_eq.
    cbn [String.eqb Ascii.eqb Bool.eqb]. arun.
    repeat split; reflexivity.
  - intros Hne. unfold Admin.loginAdmin, Admin.ADMIN_PASSCODE.
    apply String.eqb_neq in Hne. rewrite Hne. reflexivity.
  - unfold Admin.loginAdmin, Admin.ADMIN_PASSCODE.
    destruct (String.eqb passcode "sakhi12").
    + unfold Admin.lift, Api.setItem. arun. run. arun. fields.
      split; [reflexivity |].
      split; [apply lookup_insert_ne; discriminate |].
      split; [apply lookup_insert_ne; discriminate |].
      intros s0 w0 Hflag. unfold Admin.mountEffect, Admin.lift, Api.getItem.
      arun. run. rewrite Hflag. cbn [String.eqb Ascii.eqb Bool.eqb]. reflexivity.
    + arun. split; [reflexivity |]. split; [reflexivity |]. split; [reflexivity |].
      intros s0 w0 Hflag. unfold Admin.mountEffect, Admin.lift, Api.getItem.
      arun. run. rewrite Hflag. cbn [String.eqb Ascii.eqb Bool.eqb]. reflexivity.
Qed.

Variable api : Methods.

(** The shape [addReport], [updateReportStatus] and [deleteReport]
    share: a call, a change of the list, a refresh of the counts. *)
Lemma mutation_run {A} (call : M A) (f : A -> list Admin.Report -> list Admin.Report)
    s w out w1 :
  call w = (out, w1) ->
  Admin.atry_finally
    (Admin.atry_catch
       (Admin.abind (Admin.setIsLoading true) (fun _ =>
        Admin.abind (Admin.setError None) (fun _ =>
        Admin.abind (Admin.lift call) (fun x =>
        Admin.abind (Admin.setReports (f x)) (fun _ =>
        Admin.loadReportStats api)))))
       (fun err =>
          Admin.abind (Admin.setError (Some (Js.message err))) (fun _ =>
          Admin.athrow err)))
    (Admin.withIsLoading false) s w
  = match out with
    | Rejected e => (Rejected e, (Admin.failed s e, w1))
    | Unsettled why =>
        (Unsettled why,
         (Admin.mkState (Admin.isAdminAuthenticated s) (Admin.reports s)
            (Admin.reportStats s) true None, w1))
    | Resolved x =>
        match getReportStats api w1 with
        | (Resolved stats, w2) =>
            (Resolved tt,
             (Admin.mkState (Admin.isAdminAuthenticated s) (f x (Admin.reports s))
                (Some stats) false None, w2))
        | (Rejected _, w2) =>
            (Resolved tt,
             (Admin.mkState (Admin.isAdminAuthenticated s) (f x (Admin.reports s))
                (Admin.reportStats s) false None, w2))
        | (Unsettled why, w2) =>
            (Unsettled why,
             (Admin.mkState (Admin.isAdminAuthenticated s) (f x (Admin.reports s))
                (Admin.reportStats s) true None, w2))
        end
    end.
Proof.
  intros Hcall. unfold Admin.loadReportStats, Admin.lift. arun. rewrite Hcall.
  destruct out as [x | e | why]; arun; [| reflexivity | reflexivity].
  destruct (getReportStats api w1) as [[stats | e | why] w2]; reflexivity.
Qed.

(** X28.  When the server call of [addReport], [updateReportStatus]
    or [deleteReport] fails, the error is rethrown, its message is
    shown, the loading flag is down and the list of reports and the
    counts are as before.  [loadReports] differs: it completes, and
    the list is emptied. *)
Theorem report_failures_keep_or_clear_the_list :
  forall s w e w1,
    (forall reportData,
       createReport api
         (mkReportCreate (Admin.rd_name reportData) (Admin.rd_email reportData)
            (Some (Admin.rd_phone reportData)) (Admin.rd_subject reportData)
            (Admin.rd_description reportData) (Some (Admin.rd_files reportData))) w
         = (Rejected e, w1) ->
       Admin.addReport api reportData s w = (Rejected e, (Admin.failed s e, w1))) /\
    (forall reportId status,
       updateReportStatus api reportId status w = (Rejected e, w1) ->
       Admin.updateReportStatus api reportId status s w
         = (Rejected e, (Admin.failed s e, w1))) /\
    (forall reportId,
       deleteReport api reportId w = (Rejected e, w1) ->
       Admin.deleteReport api reportId s w = (Rejected e, (Admin.failed s e, w1))) /\
    (forall statusFilter search,
       getAllReports api statusFilter search w = (Rejected e, w1) ->
       Admin.loadReports api statusFilter search s w
         = (Resolved tt,
            (Admin.mkState (Admin.isAdminAuthenticated s) []
               (Admin.reportStats s) false (Some (Js.message e)), w1))) /\
    Admin.reports (Admin.failed s e) = Admin.reports s /\
    Admin.error (Admin.failed s e) = Some (Js.message e) /\
    Admin.isLoading (Admin.failed s e) = false.
Proof.
  intros s w e w1.
  split; [intros reportData Hcall |].
  { unfold Admin.addReport. cbv zeta.
    rewrite (mutation_run _ (fun newReport prev => Admin.formatReport newReport :: prev)
               s w _ _ Hcall). reflexivity. }
  split; [intros reportId status Hcall |].
  { unfold Admin.updateReportStatus.
    rewrite (mutation_run _
               (fun updatedReport =>
                  List.map (fun report =>
                    if Admin.r_id report =? reportId
                    then Admin.restamp updatedReport report else report))
               s w _ _ Hcall). reflexivity. }
  split; [intros reportId Hcall |].
  { unfold Admin.deleteReport.
    rewrite (mutation_run _
               (fun _ => List.filter (fun report => negb (Admin.r_id report =? reportId)))
               s w _ _ Hcall). reflexivity. }
  split; [intros statusFilter search Hcall |].
  { unfold Admin.loadReports, Admin.lift. arun. rewrite Hcall. arun. reflexivity. }
  repeat split; reflexivity.
Qed.

(** X29.  When the server call succeeds, [deleteReport] removes the
    reports of the id and keeps the others; [updateReportStatus] keeps
    the ids and the order, gives the reports of the id the status and
    the update time of the answer and leaves the others alone;
    [addReport] puts the converted report first, with an empty phone
    when the server sent none.  None of them fails after that: a
    failure of the refresh of the counts is swallowed and leaves the
    old counts. *)
Theorem report_mutations_update_the_list :
  forall s w w1,
    (forall reportId,
       deleteReport api reportId w = (Resolved tt, w1) ->
       let res := Admin.deleteReport api reportId s w in
       (forall e, fst res <> Rejected e) /\
       (forall r, In r (Admin.reports (fst (snd res))) <->
                  In r (Admin.reports s) /\ Admin.r_id r <> reportId) /\
       Admin.error (fst (snd res)) = None) /\
    (forall reportId status updatedReport,
       updateReportStatus api reportId status w = (Resolved updatedReport, w1) ->
       let res := Admin.updateReportStatus api reportId status s w in
       (forall e, fst res <> Rejected e) /\
       List.map Admin.r_id (Admin.reports (fst (snd res)))
         = List.map Admin.r_id (Admin.reports s) /\
       (forall r, In r (Admin.reports (fst (snd res))) ->
                  Admin.r_id r = reportId ->
                  Admin.r_status r = rr_status updatedReport /\
                  Admin.r_updated_at r = rr_updated_at updatedReport) /\
       (forall r, In r (Admin.reports s) -> Admin.r_id r <> reportId ->
                  In r (Admin.reports (fst (snd res)))) /\
       Admin.error (fst (snd res)) = None) /\
    (forall reportData newReport,
       createReport api
         (mkReportCreate (Admin.rd_name reportData) (Admin.rd_email reportData)
            (Some (Admin.rd_phone reportData)) (Admin.rd_subject reportData)
            (Admin.rd_description reportData) (Some (Admin.rd_files reportData))) w
         = (Resolved newReport, w1) ->
       let res := Admin.addReport api reportData s w in
       (forall e, fst res <> Rejected e) /\
       Admin.reports (fst (snd res))
         = Admin.formatReport newReport :: Admin.reports s /\
       (rr_phone newReport = None ->
        Admin.r_phone (Admin.formatReport newReport) = "") /\
       Admin.error (fst (snd res)) = None) /\
    (forall out w2,
       getReportStats api w1 = (out, w2) ->
       forall reportId,
         deleteReport api reportId w = (Resolved tt, w1) ->
         let res := Admin.deleteReport api reportId s w in
         match out with
         | Resolved stats =>
             fst res = Resolved tt /\
             Admin.reportStats (fst (snd res)) = Some stats /\
             Admin.isLoading (fst (snd res)) = false
         | Rejected _ =>
             fst res = Resolved tt /\
             Admin.reportStats (fst (snd res)) = Admin.reportStats s /\
             Admin.isLoading (fst (snd res)) = false
         | Unsettled why => fst res = Unsettled why
         end).
Proof.
  intros s w w1.
  split; [intros reportId Hcall |].
  { cbv zeta. unfold Admin.deleteReport.
    rewrite (mutation_run _
               (fun _ => List.filter (fun report => negb (Admin.r_id report =? reportId)))
               s w _ _ Hcall).
    destruct (getReportStats api w1) as [[stats | e | why] w2];
      cbn [fst snd Admin.reports Admin.error];
      (split; [discriminate |]);
      (split; [| reflexivity]);
      intros r; rewrite List.filter_In, negb_true_iff, Z.eqb_neq; reflexivity. }
  split; [intros reportId status updatedReport Hcall |].
  { cbv zeta. unfold Admin.updateReportStatus.
    rewrite (mutation_run _
               (fun updatedReport =>
                  List.map (fun report =>
                    if Admin.r_id report =? reportId
                    then Admin.restamp updatedReport report else report))
               s w _ _ Hcall).
    assert (Hlist :
      List.map Admin.r_id
        (List.map (fun report =>
           if Admin.r_id report =? reportId
           then Admin.restamp updatedReport report else report) (Admin.reports s))
      = List.map Admin.r_id (Admin.reports s) /\
      (forall r,
         In r (List.map (fun report =>
                 if Admin.r_id report =? reportId
                 then Admin.restamp updatedReport report else report)
                 (Admin.reports s)) ->
         Admin.r_id r = reportId ->
         Admin.r_status r = rr_status updatedReport /\
         Admin.r_updated_at r = rr_updated_at updatedReport) /\
      (forall r, In r (Admin.reports s) -> Admin.r_id r <> reportId ->
         In r (List.map (fun report =>
                 if Admin.r_id report =? reportId
                 then Admin.restamp updatedReport report else report)
                 (Admin.reports s)))).
    { split; [| split].
      - rewrite List.map_map. apply List.map_ext. intros r.
        destruct (Admin.r_id r =? reportId); reflexivity.
      - intros r Hin Hid. apply List.in_map_iff in Hin.
        destruct Hin as [x [Hx _]].
        destruct (Z.eqb_spec (Admin.r_id x) reportId) as [E | E].
        + subst r. split; reflexivity.
        + subst r. contradiction.
      - intros r Hin Hid. apply List.in_map_iff. exists r. split; [| exact Hin].
        apply Z.eqb_neq in Hid. rewrite Hid. reflexivity. }
    destruct Hlist as (H1 & H2 & H3).
    destruct (getReportStats api w1) as [[stats | e | why] w2];
      cbn [fst snd Admin.reports Admin.error];
      (split; [discriminate |]); (split; [exact H1 |]);
      (split; [exact H2 |]); (split; [exact H3 | reflexivity]). }
  split; [intros reportData newReport Hcall |].
  { cbv zeta. unfold Admin.addReport. cbv zeta.
    rewrite (mutation_run _ (fun newReport prev => Admin.formatReport newReport :: prev)
               s w _ _ Hcall).
    destruct (getReportStats api w1) as [[stats | e | why] w2];
      cbn [fst snd Admin.reports Admin.error];
      (split; [discriminate |]); (split; [reflexivity |]);
      (split; [| reflexivity]);
      intros Hphone; unfold Admin.formatReport; cbn [Admin.r_phone];
      rewrite Hphone; reflexivity. }
  intros out w2 Hstats reportId Hcall. cbv zeta. unfold Admin.deleteReport.
  rewrite (mutation_run _
             (fun _ => List.filter (fun report => negb (Admin.r_id report =? reportId)))
             s w _ _ Hcall).
  rewrite Hstats. destruct out; cbn [fst snd]; repeat split; reflexivity.
Qed.

End AdminFacts.

(** ** The further theorems at sample inputs *)

Lemma anonymous_request_witness :
  Js.truthy (accessToken Demo.anonymous) = false /\
  fst (Api.request (Demo.envOf Demo.expiredServer) 1 "/chat/sessions"
         (mkRequestInit None None) Demo.anonymous)
    = Rejected (Js.Error "Could not validate credentials") /\
  net_log (snd (Api.request (Demo.envOf Demo.expiredServer) 1 "/chat/sessions"
                  (mkRequestInit None None) Demo.anonymous))
    = [mkFetchCall "http://localhost:8000/chat/sessions" GET None None].
Proof.
  split; [reflexivity |].
  destruct (anonymous_request_never_refreshes (Demo.envOf Demo.expiredServer) 0
              "/chat/sessions" (mkRequestInit None None) Demo.anonymous eq_refl)
    as (Hnet & _ & _ & _ & Herr).
  split; [| exact Hnet].
  exact (Herr (mkResponse 401 (Some (PDetail "Could not validate credentials")))
           eq_refl eq_refl).
Defined.

Lemma unauthorized_without_refresh_token_witness :
  Js.truthy (accessToken Sample.halfSession) = true /\
  Js.truthy (localStorage Sample.halfSession !! "refresh_token") = false /\
  fst (Api.request (Demo.envOf Demo.expiredServer) 1 "/auth/me"
         (mkRequestInit None None) Sample.halfSession)
    = Rejected (Js.Error "Authentication required") /\
  tokenStoreEmpty
    (snd (Api.request (Demo.envOf Demo.expiredServer) 1 "/auth/me"
            (mkRequestInit None None) Sample.halfSession)).
Proof.
  split; [reflexivity |]. split; [reflexivity |].
  destruct (unauthorized_without_refresh_token (Demo.envOf Demo.expiredServer) 0
              "/auth/me" (mkRequestInit None None) Sample.halfSession
              (mkResponse 401 (Some (PDetail "Could not validate credentials")))
              eq_refl eq_refl eq_refl eq_refl) as (Hout & Hempty & _).
  split; [exact Hout | exact Hempty].
Defined.

Lemma login_stores_tokens_witness :
  fst (Api.login (Demo.envOf Sample.authServer) 1 "asha@example.org" "secret-1"
         Demo.anonymous)
    = Resolved (mkAuthResponse "access-9" "refresh-9" "bearer") /\
  accessToken (snd (Api.login (Demo.envOf Sample.authServer) 1 "asha@example.org"
                      "secret-1" Demo.anonymous)) = Some "access-9" /\
  localStorage (snd (Api.login (Demo.envOf Sample.authServer) 1 "asha@example.org"
                       "secret-1" Demo.anonymous)) !! "refresh_token"
    = Some "refresh-9".
Proof.
  split; [vm_compute; reflexivity |].
  destruct (login_stores_tokens (Demo.envOf Sample.authServer) 1
              "asha@example.org" "secret-1" Demo.anonymous
              (mkAuthResponse "access-9" "refresh-9" "bearer")
              (snd (Api.login (Demo.envOf Sample.authServer) 1 "asha@example.org"
                      "secret-1" Demo.anonymous)))
    as (Ha & _ & Hr & _); [vm_compute; reflexivity |].
  split; [exact Ha | exact Hr].
Defined.

Lemma token_mirror_witness :
  tokenMirrored Demo.loggedIn /\
  newApiService Demo.loggedIn = Demo.loggedIn /\
  tokenMirrored
    (snd (Chat.sendMessage (Demo.envOf Demo.staleAccessServer) 3 true "Sintra too?"
            Demo.loggedIn)) /\
  tokenMirrored (snd (Auth.logout Demo.loggedIn)).
Proof.
  assert (H : tokenMirrored Demo.loggedIn) by (vm_compute; reflexivity).
  split; [exact H |].
  destruct (token_mirror_is_invariant (Demo.envOf Demo.staleAccessServer) 3
              Demo.loggedIn H)
    as (Hnew & _ & _ & _ & _ & _ & _ & _ & _ & Hlogout & _ & _ & Hsend).
  split; [exact Hnew |]. split; [apply Hsend | exact Hlogout].
Defined.

Lemma login_success_witness :
  fst (Auth.login (Demo.envOf Sample.authServer) 1 "asha@example.org" "secret-1"
         Demo.anonymous) = Resolved tt /\
  user (snd (Auth.login (Demo.envOf Sample.authServer) 1 "asha@example.org"
               "secret-1" Demo.anonymous)) = Some Sample.asha /\
  Auth.isAuthenticated
    (snd (Auth.login (Demo.envOf Sample.authServer) 1 "asha@example.org"
            "secret-1" Demo.anonymous)) = true.
Proof.
  edestruct (login_success_authenticates (Demo.envOf Sample.authServer) 1
               "asha@example.org" "secret-1" Demo.anonymous)
    as (Hout & Huser & _ & _ & Hauth & _);
    [vm_compute; reflexivity | vm_compute; reflexivity |].
  split; [exact Hout |]. split; [exact Huser |]. rewrite Hauth. reflexivity.
Defined.

Lemma login_failure_witness :
  fst (Auth.login (Demo.envOf Demo.brokenServer) 1 "asha@example.org" "secret-1"
         Demo.anonymous) = Rejected (Js.Error "Internal Server Error") /\
  auth_error (snd (Auth.login (Demo.envOf Demo.brokenServer) 1 "asha@example.org"
                     "secret-1" Demo.anonymous)) = Some "Internal Server Error" /\
  user (snd (Auth.login (Demo.envOf Demo.brokenServer) 1 "asha@example.org"
               "secret-1" Demo.anonymous)) = None.
Proof.
  assert (H : fst (Auth.login (Demo.envOf Demo.brokenServer) 1 "asha@example.org"
                     "secret-1" Demo.anonymous)
              = Rejected (Js.Error "Internal Server Error"))
    by (vm_compute; reflexivity).
  split; [exact H |].
  destruct (login_failure_shows_message (Demo.envOf Demo.brokenServer) 1
              "asha@example.org" "secret-1" Demo.anonymous _ H)
    as (Herr & _ & Huser & _).
  split; [exact Herr | exact Huser].
Defined.

Lemma login_backend_down_witness :
  Js.includes "Failed to fetch" "fetch" = true /\
  auth_error (snd (Auth.login (Demo.envOf Sample.downServer) 1 "asha@example.org"
                     "secret-1" Demo.starting))
    = Some "Backend server is not running. Please start the backend server." /\
  localStorage (snd (Auth.login (Demo.envOf Sample.downServer) 1 "asha@example.org"
                       "secret-1" Demo.starting)) = Demo.tokens.
Proof.
  split; [reflexivity |].
  destruct (login_reports_backend_down (Demo.envOf Sample.downServer) 0
              "asha@example.org" "secret-1" Demo.starting "Failed to fetch"
              eq_refl eq_refl) as (_ & Herr & _ & Hstore & _).
  split; [exact Herr | exact Hstore].
Defined.

Lemma refused_login_witness :
  Js.truthy (accessToken Demo.anonymous) = false /\
  auth_error (snd (Auth.login (Demo.envOf Demo.expiredServer) 1 "asha@example.org"
                     "secret-0" Demo.anonymous))
    = Some "Could not validate credentials" /\
  List.length (net_log (snd (Auth.login (Demo.envOf Demo.expiredServer) 1
                               "asha@example.org" "secret-0" Demo.anonymous)))
    = 1%nat.
Proof.
  split; [reflexivity |].
  destruct (refused_login_shows_server_message (Demo.envOf Demo.expiredServer) 0
              "asha@example.org" "secret-0" Demo.anonymous
              (mkResponse 401 (Some (PDetail "Could not validate credentials")))
              eq_refl eq_refl eq_refl) as (_ & Herr & _ & _ & _ & _ & Hone).
  split; [exact Herr | exact Hone].
Defined.

Lemma register_failure_witness :
  fst (Api.register (Demo.envOf Sample.registerOnlyServer) 1 "asha@example.org"
         "asha" "secret-1"
         (with_auth_error None (with_auth_isLoading true Demo.anonymous)))
    = Resolved Sample.asha /\
  auth_error (snd (Auth.register (Demo.envOf Sample.registerOnlyServer) 1
                     "asha@example.org" "asha" "secret-1" Demo.anonymous))
    = Some "Backend server is not running. Please check if the backend server is running on http://localhost:8000" /\
  Auth.loginMessage
    (Js.Error "Backend server is not running. Please check if the backend server is running on http://localhost:8000")
    = "Backend server is not running. Please start the backend server.".
Proof.
  split; [vm_compute; reflexivity |].
  pose proof (register_failure_shows_raw_message
                (Demo.envOf Sample.registerOnlyServer) 1
                "asha@example.org" "asha" "secret-1" Demo.anonymous
                (Resolved Sample.asha)
                (snd (Api.register (Demo.envOf Sample.registerOnlyServer) 1
                        "asha@example.org" "asha" "secret-1"
                        (with_auth_error None
                           (with_auth_isLoading true Demo.anonymous))))) as H.
  cbv zeta iota in H.
  destruct (H ltac:(vm_compute; reflexivity)
              (Js.Error "Backend server is not running. Please check if the backend server is running on http://localhost:8000")
              ltac:(vm_compute; reflexivity)) as (_ & Herr & _).
  split; [exact Herr | vm_compute; reflexivity].
Defined.

Lemma createNewChat_remote_witness :
  fst (Api.createChatSession Demo.env 1 "New Conversation" Demo.starting)
    = Resolved Demo.session5 /\
  chatHistories (snd (Chat.createNewChat Demo.env 1 true Demo.starting))
    = [Demo.listed5] /\
  currentChat (snd (Chat.createNewChat Demo.env 1 true Demo.starting))
    = Some Demo.listed5.
Proof.
  split; [vm_compute; reflexivity |].
  pose proof (createNewChat_remote_outcome Demo.env 1 Demo.starting
                (Resolved Demo.session5)
                (snd (Api.createChatSession Demo.env 1 "New Conversation"
                        Demo.starting))) as H.
  cbv zeta iota in H.
  destruct H as (_ & Hdir & Hcur & _); [vm_compute; reflexivity |].
  split; [exact Hdir | exact Hcur].
Defined.

Lemma selectChat_remote_witness :
  Chat.isLocal "5" = false /\
  fst (Api.getChatMessages Demo.env 1 (Js.parseInt "5")
         (with_chat_isLoading true Demo.listedCurrent)) = Resolved Demo.serverLog /\
  exists c,
    currentChat (snd (Chat.selectChat Demo.env 1 true "5" Demo.listedCurrent))
      = Some c /\
    h_messages c = List.map Chat.convertMessage Demo.serverLog /\
  chatHistories (snd (Chat.selectChat Demo.env 1 true "5" Demo.listedCurrent))
    = [Demo.listed5].
Proof.
  split; [reflexivity |]. split; [vm_compute; reflexivity |].
  pose proof (selectChat_remote_outcome Demo.env 1 Demo.listedCurrent "5"
                (Resolved Demo.serverLog)
                (snd (Api.getChatMessages Demo.env 1 (Js.parseInt "5")
                        (with_chat_isLoading true Demo.listedCurrent)))
                eq_refl) as H.
  cbv zeta iota in H.
  destruct H as (Hdir & _ & _ & Hcur); [vm_compute; reflexivity |].
  change (Chat.findById "5" (chatHistories Demo.listedCurrent))
    with (Some Demo.listed5) in Hcur.
  cbv iota beta in Hcur.
  destruct Hcur as (c & Hc & _ & _ & Hmsgs & _).
  exists c. split; [exact Hc |]. split; [exact Hmsgs | exact Hdir].
Defined.

Lemma session_list_failure_witness :
  fst (Api.getChatSessions (Demo.envOf Demo.brokenServer) 1
         (with_chat_isLoading true Demo.justLoggedIn))
    = Rejected (Js.Error "Internal Server Error") /\
  chatHistories (snd (Chat.authEffect (Demo.envOf Demo.brokenServer) 1 true
                        Demo.justLoggedIn)) = [Demo.localChat] /\
  chat_isLoading (snd (Chat.authEffect (Demo.envOf Demo.brokenServer) 1 true
                         Demo.justLoggedIn)) = false.
Proof.
  split; [vm_compute; reflexivity |].
  destruct (session_list_failure_leaves_state (Demo.envOf Demo.brokenServer) 1
              Demo.justLoggedIn) as [Hfail _].
  destruct (Hfail (Js.Error "Internal Server Error")
              (snd (Api.getChatSessions (Demo.envOf Demo.brokenServer) 1
                      (with_chat_isLoading true Demo.justLoggedIn))))
    as (_ & Hdir & _ & Hload); [vm_compute; reflexivity |].
  split; [exact Hdir | exact Hload].
Defined.

Lemma sendMessage_gives_up_witness :
  currentChat Demo.starting = None /\
  fst (Api.createChatSession (Demo.envOf Demo.brokenServer) 1 "New Conversation"
         Demo.starting) = Rejected (Js.Error "Internal Server Error") /\
  fst (Chat.sendMessage (Demo.envOf Demo.brokenServer) 1 true "Hello" Demo.starting)
    = Resolved tt /\
  chatHistories (snd (Chat.sendMessage (Demo.envOf Demo.brokenServer) 1 true "Hello"
                        Demo.starting)) = [].
Proof.
  split; [reflexivity |]. split; [vm_compute; reflexivity |].
  destruct (sendMessage_without_session_gives_up (Demo.envOf Demo.brokenServer) 1
              Demo.starting "Hello" (Js.Error "Internal Server Error")
              (snd (Api.createChatSession (Demo.envOf Demo.brokenServer) 1
                      "New Conversation" Demo.starting)) eq_refl)
    as (Hrun & Hdir & _); [vm_compute; reflexivity |].
  rewrite Hrun. split; [reflexivity | exact Hdir].
Defined.

Lemma generated_title_witness :
  h_messages Demo.listed5 = [] /\
  Chat.isLocal (h_id Demo.listed5) = false /\
  option_map h_title
    (currentChat (snd (Chat.sendMessage Demo.env 1 true "Sintra too?"
                         Demo.listedCurrent))) = Some "A trip to Lisbon".
Proof.
  split; [reflexivity |]. split; [reflexivity |].
  edestruct (generated_title_replaces_speculative Demo.env 1 "Sintra too?"
               Demo.listedCurrent Demo.listed5 Demo.listedCurrent)
    as (w4 & _ & _ & Htitle);
    [ reflexivity | reflexivity | reflexivity | vm_compute; reflexivity
    | vm_compute; reflexivity | vm_compute; reflexivity |].
  specialize (Htitle (Resolved "A trip to Lisbon")
                (snd (Api.updateSessionTitle Demo.env 1
                        (Js.parseInt (h_id Demo.listed5)) w4))).
  cbv zeta iota in Htitle.
  destruct Htitle as (_ & c & Hc & Ht & _); [vm_compute; reflexivity |].
  rewrite Hc. simpl. rewrite Ht. reflexivity.
Defined.

Lemma local_ids_repeat_witness :
  clock Sample.coarseEnv (3 + ticks Demo.anonymous) = clock Sample.coarseEnv 0 /\
  List.map h_id
    (chatHistories
       (snd (Chat.createNewChat Sample.coarseEnv 1 false
               (snd (Chat.createNewChat Sample.coarseEnv 1 false Demo.anonymous)))))
    = ["local-1700000000000"; "local-1700000000000"] /\
  chatHistories
    (snd (Chat.deleteChat Sample.coarseEnv 1 false "local-1700000000000"
            (snd (Chat.createNewChat Sample.coarseEnv 1 false
                    (snd (Chat.createNewChat Sample.coarseEnv 1 false
                            Demo.anonymous)))))) = [].
Proof.
  split; [reflexivity |].
  destruct (local_ids_repeat_within_a_millisecond Sample.coarseEnv 1 Demo.anonymous)
    as (a & b & Hdir & _ & Hiff & Hdelete).
  assert (Hsame : h_id a = h_id b) by (apply Hiff; reflexivity).
  assert (Hb : h_id b = "local-1700000000000").
  { assert (H : List.map h_id
                  (chatHistories
                     (snd (Chat.createNewChat Sample.coarseEnv 1 false
                             (snd (Chat.createNewChat Sample.coarseEnv 1 false
                                     Demo.anonymous)))))
                = ["local-1700000000000"; "local-1700000000000"])
      by (vm_compute; reflexivity).
    rewrite Hdir in H. injection H as H _. exact H. }
  split.
  - rewrite Hdir. cbn [List.map chatHistories Demo.anonymous]. rewrite Hsame, Hb.
    reflexivity.
  - rewrite <- Hb. rewrite (Hdelete Hsame false). reflexivity.
Defined.

Lemma current_session_listed_witness :
  currentListed Demo.loggedIn /\
  currentListed (snd (Chat.sendMessage Demo.env 2 true "Sintra too?" Demo.loggedIn)) /\
  currentListed (snd (Chat.deleteChat Demo.env 2 true "5" Demo.loggedIn)).
Proof.
  assert (H : currentListed Demo.loggedIn).
  { intros c Hc. injection Hc as <-. left. reflexivity. }
  split; [exact H |].
  destruct (current_session_stays_listed Demo.env 2 true Demo.loggedIn H)
    as (_ & Hid & Hsend & _).
  split; [apply Hsend | apply Hid].
Defined.

Lemma login_transition_unlists_witness :
  currentChat Demo.justLoggedIn = Some Demo.localChat /\
  Chat.isLocal (h_id Demo.localChat) = true /\
  currentListed Demo.justLoggedIn /\
  ~ currentListed (snd (Chat.authEffect Demo.env 2 true Demo.justLoggedIn)).
Proof.
  split; [reflexivity |]. split; [reflexivity |].
  split; [intros c Hc; injection Hc as <-; left; reflexivity |].
  destruct (login_transition_unlists_local_session Demo.env 2 Demo.justLoggedIn
              Demo.localChat [Demo.session5]
              (snd (Api.getChatSessions Demo.env 2
                      (with_chat_isLoading true Demo.justLoggedIn)))
              eq_refl eq_refl) as (_ & _ & H); [vm_compute; reflexivity |].
  exact H.
Defined.

Lemma deleteChat_local_witness :
  Chat.isLocal "local-1700000000000" = true /\
  chatHistories (snd (Chat.deleteChat Demo.env 0 true "local-1700000000000"
                        Demo.chattingAnonymously)) = [] /\
  currentChat (snd (Chat.deleteChat Demo.env 0 true "local-1700000000000"
                      Demo.chattingAnonymously)) = None.
Proof.
  split; [reflexivity |].
  destruct (deleteChat_local_outcome Demo.env 0 true "local-1700000000000"
              Demo.chattingAnonymously eq_refl)
    as (_ & Hdir & _ & _ & _ & Hcur & _).
  split; [exact Hdir |].
  exact (Hcur Demo.localChat eq_refl eq_refl).
Defined.

Lemma formatDate_witness :
  Sidebar.getTime (fun _ => None) (Js.DateOfMillis 1699999999000)
    = Some 1699999999000 /\
  fst (Sidebar.formatDate Demo.env (fun _ => None) (fun _ => "5/2/2024")
         (Js.DateOfMillis 1699999999000) Demo.anonymous) = Resolved "Today" /\
  fst (Sidebar.formatDate Demo.env (fun _ => None) (fun _ => "5/2/2024")
         (Js.DateOfMillis 1700000000001) Demo.anonymous)
    = Resolved "-1 days ago".
Proof.
  split; [reflexivity |].
  destruct (formatDate_counts_elapsed_days Demo.env (fun _ => None)
              (fun _ => "5/2/2024") (Js.DateOfMillis 1699999999000) 1699999999000
              Demo.anonymous eq_refl) as (Htoday & _).
  destruct (formatDate_counts_elapsed_days Demo.env (fun _ => None)
              (fun _ => "5/2/2024") (Js.DateOfMillis 1700000000001) 1700000000001
              Demo.anonymous eq_refl) as (_ & _ & _ & _ & Hfuture).
  split.
  - apply Htoday. vm_compute. split; [discriminate | reflexivity].
  - apply Hfuture. reflexivity.
Defined.

Lemma session_namespaces_witness :
  safeInteger (session_id Demo.session5) /\
  h_id (Chat.convertApiChatToLocal Demo.session5 []) = "5" /\
  Chat.isLocal "5" = false /\
  Js.parseInt "5" = Some 5 /\
  Api.sessionPath (Js.parseInt "5") = "/chat/sessions/5" /\
  Chat.isLocal "local-1700000000000" = true /\
  Api.sessionPath (Js.parseInt "local-1700000000000") = "/chat/sessions/NaN".
Proof.
  assert (Hsafe : safeInteger (session_id Demo.session5)) by (vm_compute; split; reflexivity).
  destruct (session_namespaces_are_disjoint Demo.session5 [] "1700000000000" Hsafe)
    as (Hserver & Hparse & Hpath & Hlocal & _ & Hnan).
  split; [exact Hsafe |]. split; [reflexivity |].
  split; [exact Hserver |]. split; [exact Hparse |]. split; [exact Hpath |].
  split; [exact Hlocal | exact Hnan].
Defined.

Lemma report_form_witness :
  ReportForm.accepted Sample.photo = true /\
  ReportForm.fd_files
    (snd (ReportForm.handleFileUpload
            [Sample.archive; Sample.photo; Sample.film; Sample.photo]
            Sample.emptyReportForm)) = [Sample.photo; Sample.photo] /\
  fst (ReportForm.handleFileUpload
         [Sample.archive; Sample.photo; Sample.film; Sample.photo]
         Sample.emptyReportForm)
  = ["File type application/zip is not allowed. Please upload images, videos, or PDF files.";
     "File recording.mp4 is too large. Maximum size is 10MB."] /\
  ReportForm.removeFile 0
    (snd (ReportForm.handleFileUpload [Sample.photo] Sample.emptyReportForm))
    = Sample.emptyReportForm.
Proof.
  split; [reflexivity |].
  destruct (report_form_attachments
              [Sample.archive; Sample.photo; Sample.film; Sample.photo] 0%nat
              Sample.emptyReportForm)
    as ((added & Hfiles & _ & _ & _ & Hadded & Halerts) & _ & _ & _ & _ & _ & _ & _
        & Hround).
  split; [rewrite Hfiles, Hadded; reflexivity |].
  split; [rewrite Halerts; reflexivity |].
  exact (Hround Sample.photo eq_refl).
Defined.

Lemma login_modal_witness :
  LoginModal.isLoginMode Sample.mismatched = false /\
  LoginModal.handleSubmit Demo.env 1 Sample.mismatched Demo.anonymous
    = (Resolved Sample.mismatched, Demo.anonymous) /\
  option_map LoginModal.isOpen
    (match fst (LoginModal.handleSubmit (Demo.envOf Sample.authServer) 1
                  Sample.loggingIn Demo.anonymous) with
     | Resolved st => Some st
     | _ => None
     end) = Some false.
Proof.
  split; [reflexivity |].
  destruct (login_modal_submit_outcome Demo.env 1 Sample.mismatched Demo.anonymous)
    as [Hsilent _].
  destruct (login_modal_submit_outcome (Demo.envOf Sample.authServer) 1
              Sample.loggingIn Demo.anonymous) as [_ Hfollows].
  split; [apply Hsilent; [reflexivity | discriminate] |].
  destruct (Hfollows (or_introl eq_refl)) as [_ Hout]. rewrite Hout.
  vm_compute. reflexivity.
Defined.

Lemma orientation_listener_witness :
  Viewport.olderThan 0 Sample.phone /\
  Viewport.listeners (Viewport.cleanup 0 (Viewport.effect 0 Sample.phone))
    = [Viewport.mkListener Viewport.Window "orientationchange"
         (Viewport.DelayedUpdate 0)] /\
  List.length (Viewport.listeners (Viewport.remount 5 0 Sample.phone)) = 5%nat.
Proof.
  assert (H : Viewport.olderThan 0 Sample.phone) by (intros l []).
  split; [exact H |].
  destruct (orientation_listener_outlives_unmount 0 Sample.phone H)
    as (Hone & Hmany & _).
  split; [exact Hone | exact (Hmany 5%nat)].
Defined.

Lemma admin_flag_witness :
  fst (Admin.loginAdmin "sakhi12" Admin.initial Demo.loggedIn) = Resolved true /\
  Admin.isAdminAuthenticated
    (fst (snd (Admin.mountEffect Admin.initial
                 (snd (snd (Admin.loginAdmin "sakhi12" Admin.initial
                              Demo.loggedIn)))))) = true /\
  Admin.loginAdmin "sakhi" Admin.initial Demo.loggedIn
    = (Resolved false, (Admin.initial, Demo.loggedIn)).
Proof.
  destruct (admin_flag_round_trip "sakhi12" Admin.initial Demo.loggedIn)
    as (Hright & _).
  destruct (admin_flag_round_trip "sakhi" Admin.initial Demo.loggedIn)
    as (_ & Hwrong & _).
  destruct (Hright eq_refl) as (Hout & _ & _ & Hreload & _).
  split; [exact Hout |]. split; [exact Hreload |].
  apply Hwrong. discriminate.
Defined.

Lemma report_failures_witness :
  ReportService.deleteReport Sample.closedDesk 4 Demo.loggedIn
    = (Rejected (Js.Error "HTTP error! status: 503"), Demo.loggedIn) /\
  Admin.reports
    (fst (snd (Admin.deleteReport Sample.closedDesk 4 Sample.desk Demo.loggedIn)))
    = [Sample.report4; Sample.report3] /\
  Admin.reports
    (fst (snd (Admin.loadReports Sample.closedDesk None None Sample.desk
                 Demo.loggedIn))) = [] /\
  fst (Admin.loadReports Sample.closedDesk None None Sample.desk Demo.loggedIn)
    = Resolved tt.
Proof.
  split; [reflexivity |].
  destruct (report_failures_keep_or_clear_the_list Sample.closedDesk Sample.desk
              Demo.loggedIn (Js.Error "HTTP error! status: 503") Demo.loggedIn)
    as (_ & _ & Hdelete & Hload & _).
  rewrite (Hdelete 4 eq_refl), (Hload None None eq_refl).
  repeat split; reflexivity.
Defined.

Lemma report_mutations_witness :
  ReportService.updateReportStatus Sample.openDesk 3 "reviewed" Demo.loggedIn
    = (Resolved Sample.reviewed3, Demo.loggedIn) /\
  List.map Admin.r_id
    (Admin.reports
       (fst (snd (Admin.updateReportStatus Sample.openDesk 3 "reviewed" Sample.desk
                    Demo.loggedIn)))) = [4; 3] /\
  List.map Admin.r_status
    (Admin.reports
       (fst (snd (Admin.updateReportStatus Sample.openDesk 3 "reviewed" Sample.desk
                    Demo.loggedIn)))) = ["pending"; "reviewed"] /\
  fst (Admin.deleteReport Sample.openDesk 4 Sample.desk Demo.loggedIn) = Resolved tt.
Proof.
  split; [reflexivity |].
  destruct (report_mutations_update_the_list Sample.openDesk Sample.desk
              Demo.loggedIn Demo.loggedIn) as (_ & Hupdate & _ & Hstats).
  destruct (Hupdate 3 "reviewed" Sample.reviewed3 eq_refl) as (_ & Hids & _).
  split; [exact Hids |]. split; [reflexivity |].
  pose proof (Hstats (Resolved (ReportService.mkReportStats 2 1 1 0)) Demo.loggedIn
                eq_refl 4 eq_refl) as H.
  cbv zeta iota in H. destruct H as (Hout & _). exact Hout.
Defined.
